(** * WASM–EVM bridging interpreter: shallow embedding and verified properties

    The development follows the Go sources:
    - [core/vm/memory.go]   : the guest memory view ([Memory]);
    - [core/vm/wasm.go]     : the interpreter driver, the opcode shim and the
                              gas meter ([WASMInterpreter]);
    - the WebAssembly tracer ([WebAssemblyLogger]) of package [logger].

    Go values are modelled as follows: unsigned and signed machine integers
    are [Z] with the wrap-around written out, byte slices are [list Z] with
    every element in [0, 256), a possibly-nil slice or map is an [option],
    Go maps are stdpp [gmap]s, and a Go function with side effects is a
    function in the state-and-panic monad [Go.M]. *)

From Stdlib Require Import ZArith List String Ascii Bool Lia.
From stdpp Require Import gmap strings list.
Import ListNotations.

Local Open Scope Z_scope.

(** ** Go runtime: errors, panics, deferred calls *)

Module Go.

(** Run-time panics raised by the Go runtime itself. They implement the
    [error] interface. *)
Inductive runtime_error :=
| IndexOutOfRange
| SliceBoundsOutOfRange
| NilDereference
| TypeAssertionFailed.

(** Values of the [error] interface that occur in the program. The first
    four are the sentinel values of package [vm] (compared by identity in
    the source, by constructor here); [Errorf] is an error built by
    [fmt.Errorf]; [ExitReturnCode] is the engine's own error value. *)
Inductive error :=
| ErrOutOfGas
| ErrExecutionReverted
| errStopToken
| ErrGasUintOverflow
| Errorf (msg : string)
| ExitReturnCode (code : Z)
| RuntimeError (r : runtime_error).

#[global] Instance runtime_error_eq_dec : EqDecision runtime_error.
Proof. solve_decision. Defined.

#[global] Instance error_eq_dec : EqDecision error.
Proof. solve_decision. Defined.

(** The argument of [panic]: a string or an error value. *)
Inductive panic_value :=
| PanicString (msg : string)
| PanicError (e : error).

Definition runtime_panic (r : runtime_error) : panic_value :=
  PanicError (RuntimeError r).

Inductive result (A : Type) :=
| Ret (a : A)
| Panic (p : panic_value).
Arguments Ret {A} a.
Arguments Panic {A} p.

(** A Go function over a mutable state [S]: mutations made before a panic
    stay in the state. *)
Definition M (S A : Type) : Type := S -> result A * S.

Definition ret {S A} (a : A) : M S A := fun s => (Ret a, s).

Definition bind {S A B} (m : M S A) (k : A -> M S B) : M S B :=
  fun s =>
    match m s with
    | (Ret a, s1) => k a s1
    | (Panic p, s1) => (Panic p, s1)
    end.

Definition get {S} : M S S := fun s => (Ret s, s).
Definition gets {S A} (f : S -> A) : M S A := fun s => (Ret (f s), s).
Definition put {S} (s : S) : M S unit := fun _ => (Ret tt, s).
Definition modify {S} (f : S -> S) : M S unit := fun s => (Ret tt, f s).
Definition panic {S A} (p : panic_value) : M S A := fun s => (Panic p, s).

(** [defer]: the deferred call runs when the body is left, by return or by
    panic; a panic of the deferred call replaces the pending outcome. *)
Definition with_defer {S A} (body : M S A) (deferred : M S unit) : M S A :=
  fun s =>
    let (r, s1) := body s in
    match deferred s1 with
    | (Ret _, s2) => (r, s2)
    | (Panic p, s2) => (Panic p, s2)
    end.

(** A computation on a component [T] of the state [S]. *)
Definition zoom {S T A} (proj : S -> T) (upd : T -> S -> S) (m : M T A) : M S A :=
  fun s => let (r, t) := m (proj s) in (r, upd t s).

Definition when {S} (b : bool) (m : M S unit) : M S unit :=
  if b then m else ret tt.

End Go.

Import Go.

Declare Scope go_scope.
Delimit Scope go_scope with go.
Notation "'let*' x ':=' m 'in' k" :=
  (Go.bind m (fun x => k))
  (at level 10, x binder, m at level 100, k at level 200) : go_scope.
Notation "m ';;' k" :=
  (Go.bind m (fun _ => k))
  (at level 100, k at level 200, right associativity) : go_scope.
Local Open Scope go_scope.

(** ** Machine integers and byte strings *)

Definition uint64 (z : Z) : Z := z mod 2 ^ 64.
Definition uint32 (z : Z) : Z := z mod 2 ^ 32.

(** [make([]byte, n)] *)
Definition zeros (n : nat) : list Z := repeat 0 n.

Fixpoint be_bytes (fuel : nat) (n : Z) (acc : list Z) : list Z :=
  match fuel with
  | O => acc
  | S fuel' => if n =? 0 then acc else be_bytes fuel' (n / 256) (n mod 256 :: acc)
  end.

(** [uint256.Int.Bytes]: the minimal big-endian byte string of a 256-bit
    word, empty for zero, at most 32 bytes. *)
Definition Bytes (x : Z) : list Z := be_bytes 32 (x mod 2 ^ 256) [].

(** [uint256.Int.SetBytes]: big-endian value of a byte string. *)
Definition SetBytes (bs : list Z) : Z :=
  (fold_left (fun acc b => acc * 256 + b) bs 0) mod 2 ^ 256.

Definition hex_digit (n : Z) : ascii :=
  match n with
  | 0 => "0" | 1 => "1" | 2 => "2" | 3 => "3" | 4 => "4" | 5 => "5"
  | 6 => "6" | 7 => "7" | 8 => "8" | 9 => "9" | 10 => "a" | 11 => "b"
  | 12 => "c" | 13 => "d" | 14 => "e" | _ => "f"
  end%char.

(** [fmt.Sprintf("%x", bytes)]: two lower-case hexadecimal digits per byte. *)
Fixpoint hex (bs : list Z) : string :=
  match bs with
  | [] => EmptyString
  | b :: rest => String (hex_digit (b / 16)) (String (hex_digit (b mod 16)) (hex rest))
  end.

(** [copy(dst, src)]: overwrites the first [min (len dst) (len src)] bytes
    of [dst]. *)
Definition copy_into (dst src : list Z) : list Z :=
  firstn (length dst) src ++ skipn (length src) dst.

(** [s[lo:hi]] for [0 <= lo <= hi <= len s] (capacity is taken equal to
    length); [None] is the run-time slice-bounds panic. *)
Definition slice {A} (s : list A) (lo hi : Z) : option (list A) :=
  if (0 <=? lo) && (lo <=? hi) && (hi <=? Z.of_nat (length s))
  then Some (firstn (Z.to_nat (hi - lo)) (skipn (Z.to_nat lo) s))
  else None.

(** The last element of a slice, [s[len(s)-1]]. *)
Definition last_item {A} (s : list A) : option A :=
  match rev s with
  | [] => None
  | x :: _ => Some x
  end.

(** ** Package [vm]: data shared by the interpreter and the tracer *)

Module vm.

(** [Contract]: the fields the interpreter and the tracer touch. *)
Record Contract := mkContract {
  Address : Z;
  Code : list Z;
  Input : list Z;
  Gas : Z;
}.

Definition set_Gas (g : Z) (c : Contract) : Contract :=
  mkContract (Address c) (Code c) (Input c) g.
Definition set_Code (code : list Z) (c : Contract) : Contract :=
  mkContract (Address c) code (Input c) (Gas c).
Definition set_Input (input : list Z) (c : Contract) : Contract :=
  mkContract (Address c) (Code c) input (Gas c).

(** Modelled from the spec: [Contract.UseGas] (core/vm/contract.go is not
    among the sources). The gas meter "decrements the contract's remaining
    gas" and "raises out-of-gas" when the remaining gas is smaller than the
    amount: the call reports [false] and leaves the gas unchanged in that
    case, and otherwise subtracts the amount and reports [true]. *)
Definition UseGas (gas : Z) (c : Contract) : bool * Contract :=
  if Gas c <? gas then (false, c) else (true, set_Gas (Gas c - gas) c).

(** [Memory] of memory.go. [memoryInterceptor] tells whether an
    interceptor is installed; the interceptor itself is the instance of
    [MemoryInterceptor] for the state the computation runs in. *)
Record Memory := mkMemory {
  store : list Z;
  lastGasCost : Z;
  memoryInterceptor : bool;
}.

Class MemoryInterceptor (S : Type) := {
  writeMemory : Z -> Z -> list Z -> M S unit;
  readMemory : Z -> Z -> M S (list Z);
  resizeMemory : Z -> M S unit;
}.

Definition NewMemory : Memory := mkMemory [] 0 false.

Definition newMemoryFromSlice (store : list Z) (intercepted : bool) : Memory :=
  mkMemory store 0 intercepted.

Section MemoryOps.
Context {S : Type} `{MemoryInterceptor S}.

(** [Memory.Set]: the memory object is mutated in place, so the call
    yields the memory after the write. *)
Definition Set_ (m : Memory) (offset size : Z) (value : list Z) : M S Memory :=
  if memoryInterceptor m then
    writeMemory offset size value ;; ret m
  else if 0 <? size then
    if Z.of_nat (length (store m)) <? uint64 (offset + size) then
      panic (PanicString "invalid memory: store empty")
    else
      match slice (store m) offset (uint64 (offset + size)) with
      | None => panic (runtime_panic SliceBoundsOutOfRange)
      | Some region =>
          ret (mkMemory (firstn (Z.to_nat offset) (store m)
                           ++ copy_into region value
                           ++ skipn (Z.to_nat (uint64 (offset + size))) (store m))
                        (lastGasCost m) false)
      end
  else ret m.

(** [Memory.GetCopy]; a nil result is the empty byte string. *)
Definition GetCopy (m : Memory) (offset size : Z) : M S (list Z) :=
  if size =? 0 then ret []
  else if memoryInterceptor m then readMemory (uint64 offset) (uint64 size)
  else if offset <? Z.of_nat (length (store m)) then
    match slice (store m) offset (offset + size) with
    | None => panic (runtime_panic SliceBoundsOutOfRange)
    | Some region => ret (copy_into (zeros (Z.to_nat size)) region)
    end
  else ret [].

End MemoryOps.

Definition Len (m : Memory) : Z := Z.of_nat (length (store m)).
Definition Data (m : Memory) : list Z := store m.

(** [ScopeContext]: any of the three pointers may be nil; the contract is
    the one the pointer refers to at the time the scope is read. *)
Record ScopeContext := mkScope {
  Memory_ : option Memory;
  Stack : option (list Z);
  Contract_ : Contract;
}.

(** The part of [EVM] the interpreter and the tracer use: the call depth,
    the cancellation flag set by [Cancel], and the two queries made on
    the state database. *)
Record EVM := mkEVM {
  depth : Z;
  abort : bool;
  GetRefund : Z;
  GetState : Z -> Z -> Z;
}.

Definition set_depth (d : Z) (e : EVM) : EVM :=
  mkEVM d (abort e) (GetRefund e) (GetState e).
Definition Cancel (e : EVM) : EVM :=
  mkEVM (depth e) true (GetRefund e) (GetState e).

(** EVM opcodes that the tracer and the registration table name. *)
Definition SLOAD : Z := 84.
Definition SSTORE : Z := 85.

Record MemoryChangeInfo := mkMemoryChange {
  Offset : Z;
  Value : list Z;
}.

(** [wasmOpcodeInfo] of wasm.go *)
Record wasmOpcodeInfo := mkWasmOpcodeInfo {
  pc : Z;
  opcode : Z;
  name : string;
  params : list Z;
}.

(** The [OpCodeInfo] interface with its three implementations:
    [*wasmOpcodeInfo] (wasm.go), [GasOpCodeInfo] and [EvmOpCodeInfo]
    (tracer). *)
Inductive OpCodeInfo :=
| WasmOp (i : wasmOpcodeInfo)
| GasOpCodeInfo (b : Z)
| EvmOpCodeInfo (b : Z).

Section OpCodeInfoMethods.
(** [vm.OpCode.String], the mnemonic table of the EVM. *)
Variable OpCodeString : Z -> string.

Definition String_ (o : OpCodeInfo) : string :=
  match o with
  | WasmOp i => name i
  | GasOpCodeInfo _ => "gas"
  | EvmOpCodeInfo b => OpCodeString b
  end.
End OpCodeInfoMethods.

Definition Code_ (o : OpCodeInfo) : Z :=
  match o with
  | WasmOp i => opcode i
  | GasOpCodeInfo b => b
  | EvmOpCodeInfo b => b
  end.

Definition GetParams (o : OpCodeInfo) : list Z :=
  match o with
  | WasmOp i => params i
  | GasOpCodeInfo _ => []
  | EvmOpCodeInfo _ => []
  end.

Definition Pc_ (o : OpCodeInfo) : Z :=
  match o with
  | WasmOp i => uint64 (pc i)
  | GasOpCodeInfo _ => 0
  | EvmOpCodeInfo _ => 0
  end.

End vm.

(** Opcode bytes of the WebAssembly binary format used by the tracer
    ([wasm.Op_call], [wasm.Op_end]). *)
Definition Op_call : Z := 16.
Definition Op_end : Z := 11.

(** ** Text formatting used by the result formatter *)

Fixpoint hex_digits (fuel : nat) (n : Z) (acc : string) : string :=
  match fuel with
  | O => acc
  | S fuel' =>
      if n =? 0 then acc else hex_digits fuel' (n / 16) (String (hex_digit (n mod 16)) acc)
  end.

(** [%x] of an unsigned integer: no leading zero digits, ["0"] for zero. *)
Definition hex_number (n : Z) : string :=
  if n =? 0 then "0"%string else hex_digits 64 n EmptyString.

(** [uint256.Int.Hex] *)
Definition Hex (x : Z) : string := ("0x" ++ hex_number (x mod 2 ^ 256))%string.

(** [hexutil.Encode] *)
Definition Encode (bs : list Z) : string := ("0x" ++ hex bs)%string.

(** [uint256.Int.Bytes32]: the word as 32 big-endian bytes. *)
Definition Bytes32 (x : Z) : list Z :=
  zeros (32 - length (Bytes x)) ++ Bytes x.

Definition lower_char (c : ascii) : ascii :=
  let n := nat_of_ascii c in
  if ((65 <=? n) && (n <=? 90))%nat then ascii_of_nat (n + 32) else c.

(** [strings.ToLower] on ASCII text *)
Fixpoint ToLower (s : string) : string :=
  match s with
  | EmptyString => EmptyString
  | String c rest => String (lower_char c) (ToLower rest)
  end.

(** [strings.TrimPrefix(s, "0x")] *)
Definition TrimPrefix0x (s : string) : string :=
  match s with
  | String "0" (String "x" rest) => rest
  | _ => s
  end.

(** ** Package [logger]: the WebAssembly tracer *)

Module logger.

Inductive OpCodeFamily :=
| OpCodeFamilyUnknown
| OpCodeFamilyEVM
| OpCodeFamilyWASM
| OpCodeFamilyGAS.

#[global] Instance OpCodeFamily_eq_dec : EqDecision OpCodeFamily.
Proof. solve_decision. Defined.

Definition OpCodeFamily_String (f : OpCodeFamily) : string :=
  match f with
  | OpCodeFamilyWASM => "WASM"
  | OpCodeFamilyEVM => "EVM"
  | OpCodeFamilyGAS => "GAS"
  | OpCodeFamilyUnknown => "UNKNOWN"
  end.

Module WasmGlobal.
Record t := mk {
  Pc : Z;
  Index : Z;
  Op : string;
  Params : list Z;
  Value : Z;
}.
End WasmGlobal.

(** [WasmLog]: one record of the trace log. [Memory], [Stack],
    [ReturnData] and [Storage] may be nil. [Op] holds an operation, as it
    does in every record the tracer makes; a record with a nil [Op] is
    not represented. *)
Module WasmLog.
Record t := mk {
  Pc : Z;
  OpFamily : OpCodeFamily;
  Op : vm.OpCodeInfo;
  Params : list Z;
  Gas : Z;
  GasCost : Z;
  Memory : option (list Z);
  MemoryOffset : Z;
  MemorySize : Z;
  Stack : option (list Z);
  ReturnData : option (list Z);
  Storage : option (gmap Z Z);
  Depth : Z;
  RefundCounter : Z;
  Err : option error;
  Keep : Z;
  Drop : Z;
}.
End WasmLog.

Module WasmFnCallLog.
Record t := mk {
  FnIndex : Z;
  MaxStackHeight : Z;
  NumLocals : Z;
  FnName : string;
}.
End WasmFnCallLog.

Record Config := mkConfig {
  EnableMemory : bool;
  DisableStack : bool;
  DisableStorage : bool;
  EnableReturnData : bool;
  Debug : bool;
  Limit : Z;
}.

(** [WebAssemblyLogger]. [env] is the EVM bound by [CaptureStart]. *)
Record WebAssemblyLogger := mkLogger {
  cfg : Config;
  env : vm.EVM;
  storage : gmap Z (gmap Z Z);
  logs : list WasmLog.t;
  functionCalls : list WasmFnCallLog.t;
  globals : list WasmGlobal.t;
  output : list Z;
  globalMemory : option (gmap Z (list Z));
  err : option error;
  gasLimit : Z;
  usedGas : Z;
  interrupt : Z;
  reason : option error;
}.

Definition set_env (e : vm.EVM) (l : WebAssemblyLogger) : WebAssemblyLogger :=
  mkLogger (cfg l) e (storage l) (logs l) (functionCalls l) (globals l) (output l)
           (globalMemory l) (err l) (gasLimit l) (usedGas l) (interrupt l) (reason l).
Definition set_storage (s : gmap Z (gmap Z Z)) (l : WebAssemblyLogger) : WebAssemblyLogger :=
  mkLogger (cfg l) (env l) s (logs l) (functionCalls l) (globals l) (output l)
           (globalMemory l) (err l) (gasLimit l) (usedGas l) (interrupt l) (reason l).
Definition set_logs (ls : list WasmLog.t) (l : WebAssemblyLogger) : WebAssemblyLogger :=
  mkLogger (cfg l) (env l) (storage l) ls (functionCalls l) (globals l) (output l)
           (globalMemory l) (err l) (gasLimit l) (usedGas l) (interrupt l) (reason l).
Definition set_functionCalls (fs : list WasmFnCallLog.t) (l : WebAssemblyLogger)
  : WebAssemblyLogger :=
  mkLogger (cfg l) (env l) (storage l) (logs l) fs (globals l) (output l)
           (globalMemory l) (err l) (gasLimit l) (usedGas l) (interrupt l) (reason l).
Definition set_globals (gs : list WasmGlobal.t) (l : WebAssemblyLogger) : WebAssemblyLogger :=
  mkLogger (cfg l) (env l) (storage l) (logs l) (functionCalls l) gs (output l)
           (globalMemory l) (err l) (gasLimit l) (usedGas l) (interrupt l) (reason l).
Definition set_globalMemory (g : option (gmap Z (list Z))) (l : WebAssemblyLogger)
  : WebAssemblyLogger :=
  mkLogger (cfg l) (env l) (storage l) (logs l) (functionCalls l) (globals l) (output l)
           g (err l) (gasLimit l) (usedGas l) (interrupt l) (reason l).
Definition set_output_err (o : list Z) (e : option error) (l : WebAssemblyLogger)
  : WebAssemblyLogger :=
  mkLogger (cfg l) (env l) (storage l) (logs l) (functionCalls l) (globals l) o
           (globalMemory l) e (gasLimit l) (usedGas l) (interrupt l) (reason l).
Definition set_gasLimit (g : Z) (l : WebAssemblyLogger) : WebAssemblyLogger :=
  mkLogger (cfg l) (env l) (storage l) (logs l) (functionCalls l) (globals l) (output l)
           (globalMemory l) (err l) g (usedGas l) (interrupt l) (reason l).
Definition set_usedGas (g : Z) (l : WebAssemblyLogger) : WebAssemblyLogger :=
  mkLogger (cfg l) (env l) (storage l) (logs l) (functionCalls l) (globals l) (output l)
           (globalMemory l) (err l) (gasLimit l) g (interrupt l) (reason l).
Definition set_stop (e : option error) (l : WebAssemblyLogger) : WebAssemblyLogger :=
  mkLogger (cfg l) (env l) (storage l) (logs l) (functionCalls l) (globals l) (output l)
           (globalMemory l) (err l) (gasLimit l) (usedGas l) 1 e.

Definition NewWebAssemblyLogger (c : option Config) (e : vm.EVM) : WebAssemblyLogger :=
  mkLogger (match c with
            | Some c => c
            | None => mkConfig false false false false false 0
            end)
           e ∅ [] [] [] [] None None 0 0 0 None.

(** [l.env.Cancel()] *)
Definition cancel : M WebAssemblyLogger unit :=
  modify (fun l => set_env (vm.Cancel (env l)) l).

(** The check "already accumulated the specified number of logs". *)
Definition limit_reached (l : WebAssemblyLogger) : bool :=
  negb (Limit (cfg l) =? 0) && (Limit (cfg l) <=? Z.of_nat (length (logs l))).

(** "last log must be a call of host function" *)
Definition is_wasm_call (r : WasmLog.t) : bool :=
  bool_decide (WasmLog.OpFamily r = OpCodeFamilyWASM)
  && (vm.Code_ (WasmLog.Op r) =? Op_call).

(** [CaptureGlobalVariable]. The operation is an interface value and may
    be nil, in which case the call of [op.Pc] panics. [WasmOpCodeToName]
    is the mnemonic table of package [vm]; a missing key reads as the
    empty string. *)
Definition CaptureGlobalVariable (WasmOpCodeToName : Z -> option string)
  (index : Z) (op : option vm.OpCodeInfo) (value : Z) : M WebAssemblyLogger unit :=
  match op with
  | None => panic (runtime_panic NilDereference)
  | Some op =>
      modify (fun l =>
        set_globals (globals l ++
          [WasmGlobal.mk (vm.Pc_ op) index
             (default EmptyString (WasmOpCodeToName (vm.Code_ op)))
             (vm.GetParams op) value]) l)
  end.

Definition CaptureGlobalMemoryState (globalMemory' : gmap Z (list Z))
  : M WebAssemblyLogger unit :=
  modify (fun l =>
    set_globalMemory
      (Some (globalMemory' ∪ default ∅ (globalMemory l))) l).

Definition CaptureWasmState (pc : Z) (op : vm.OpCodeInfo) (memory : option vm.MemoryChangeInfo)
  (scope : vm.ScopeContext) (depth : Z) (drop keep : Z) : M WebAssemblyLogger unit :=
  let* l := get in
  if 0 <? interrupt l then cancel
  else if limit_reached l then ret tt
  else
    let memData :=
      match memory with
      | Some m => if EnableMemory (cfg l) then Some (vm.Value m) else None
      | None => None
      end in
    let memOffset :=
      match memory with
      | Some m => if EnableMemory (cfg l) then vm.Offset m else 0
      | None => 0
      end in
    let memLen :=
      match memory with
      | Some m =>
          if EnableMemory (cfg l) then uint32 (Z.of_nat (length (vm.Value m))) else 0
      | None => 0
      end in
    let* stck :=
      (if DisableStack (cfg l) then ret None
       else match vm.Stack scope with
            | None => panic (runtime_panic NilDereference)
            | Some data => ret (Some data)
            end) in
    let log :=
      WasmLog.mk (vm.Pc_ op) OpCodeFamilyWASM op [] (vm.Gas (vm.Contract_ scope)) 0
                 memData memOffset memLen stck None None depth
                 (vm.GetRefund (env l)) None keep drop in
    put (set_logs (logs l ++ [log]) l).

Definition CaptureGasState (gasCost : Z) (scope : vm.ScopeContext) (depth : Z)
  (err : option error) : M WebAssemblyLogger unit :=
  let* l := get in
  if 0 <? interrupt l then cancel
  else
    match last_item (logs l) with
    | None => panic (runtime_panic IndexOutOfRange)
    | Some lastLog =>
        if negb (is_wasm_call lastLog) then panic (PanicString "trace order is corrupted")
        else
          let log :=
            WasmLog.mk (WasmLog.Pc lastLog) OpCodeFamilyGAS (vm.GasOpCodeInfo 0) []
                       (vm.Gas (vm.Contract_ scope)) gasCost
                       (WasmLog.Memory lastLog) (WasmLog.MemoryOffset lastLog)
                       (WasmLog.MemorySize lastLog) (WasmLog.Stack lastLog)
                       (Some []) None depth (WasmLog.RefundCounter lastLog) err 0 0 in
          put (set_logs (removelast (logs l) ++ [log]) l)
    end.

Definition CaptureWasmFunctionCall (fnIndex maxStackHeight numLocals : Z) (fnName : string)
  : M WebAssemblyLogger unit :=
  modify (fun l =>
    set_functionCalls
      (functionCalls l ++ [WasmFnCallLog.mk fnIndex maxStackHeight numLocals fnName]) l).

(** The storage bookkeeping of [CaptureState] for SLOAD and SSTORE: the
    per-contract map is created on first use, the touched slot is
    recorded, and a copy of the map is the record's storage. *)
Definition capture_storage (op : Z) (contract : vm.Contract) (stackData : list Z)
  : M WebAssemblyLogger (option (gmap Z Z)) :=
  let* l := get in
  if negb (DisableStorage (cfg l)) && ((op =? vm.SLOAD) || (op =? vm.SSTORE)) then
    let addr := vm.Address contract in
    let own := default ∅ (storage l !! addr) in
    let stackLen := length stackData in
    if (op =? vm.SLOAD) && (1 <=? stackLen)%nat then
      let address := nth (stackLen - 1) stackData 0 mod 2 ^ 256 in
      let value := vm.GetState (env l) addr address in
      put (set_storage (<[addr := <[address := value]> own]> (storage l)) l) ;;
      ret (Some (<[address := value]> own))
    else if (op =? vm.SSTORE) && (2 <=? stackLen)%nat then
      let value := nth (stackLen - 2) stackData 0 mod 2 ^ 256 in
      let address := nth (stackLen - 1) stackData 0 mod 2 ^ 256 in
      put (set_storage (<[addr := <[address := value]> own]> (storage l)) l) ;;
      ret (Some (<[address := value]> own))
    else
      put (set_storage (<[addr := own]> (storage l)) l) ;;
      ret None
  else ret None.

Definition CaptureState (pc : Z) (op : Z) (gas cost : Z) (scope : vm.ScopeContext)
  (rData : list Z) (depth : Z) (err : option error) : M WebAssemblyLogger unit :=
  let* l := get in
  if 0 <? interrupt l then cancel
  else if limit_reached l then ret tt
  else
    (* mem snapshot: reads memory.Data() only when EnableMemory is set *)
    (if EnableMemory (cfg l) then
       match vm.Memory_ scope with
       | None => panic (runtime_panic NilDereference)
       | Some _ => ret tt
       end
     else ret tt) ;;
    match vm.Stack scope with
    | None => panic (runtime_panic NilDereference)
    | Some stackData =>
        let* storage := capture_storage op (vm.Contract_ scope) stackData in
        let rdata := if EnableReturnData (cfg l) then Some rData else None in
        let* l1 := get in
        match last_item (logs l1) with
        | None => panic (PanicString "trace order is corrupted")
        | Some lastLog =>
            if negb (is_wasm_call lastLog) then
              panic (PanicString "trace order is corrupted")
            else
              let log :=
                WasmLog.mk (WasmLog.Pc lastLog) OpCodeFamilyEVM (vm.EvmOpCodeInfo op) []
                           gas cost
                           (WasmLog.Memory lastLog) (WasmLog.MemoryOffset lastLog)
                           (WasmLog.MemorySize lastLog) (WasmLog.Stack lastLog)
                           rdata storage depth (vm.GetRefund (env l1)) err 0 0 in
              put (set_logs (removelast (logs l1) ++ [log]) l1)
        end
    end.

Definition CaptureEnd (output : list Z) (err : option error) : M WebAssemblyLogger unit :=
  modify (set_output_err output err).

Definition Stop (err : option error) : M WebAssemblyLogger unit :=
  modify (set_stop err).

Definition CaptureTxStart (gasLimit : Z) : M WebAssemblyLogger unit :=
  modify (set_gasLimit gasLimit).

Definition CaptureTxEnd (restGas : Z) : M WebAssemblyLogger unit :=
  modify (fun l => set_usedGas (uint64 (gasLimit l - restGas)) l).

Definition WasmLogs (l : WebAssemblyLogger) : list WasmLog.t := logs l.

(** *** Result formatting *)

Module WasmLogRes.
Record t := mk {
  Pc : Z;
  OpFamily : string;
  Params : list Z;
  Op : string;
  Gas : Z;
  GasCost : Z;
  Depth : Z;
  Error : string;
  Stack : option (list string);
  MemoryChanges : option (gmap Z string);
  Storage : option (gmap string string);
  RefundCounter : Z;
  Drop : Z;
}.
End WasmLogRes.

Module WasmExecutionResult.
Record t := mk {
  Gas : Z;
  Failed : bool;
  GlobalMemory : gmap Z string;
  ReturnValue : string;
  StructLogs : list WasmLogRes.t;
  Globals : list WasmGlobal.t;
  FunctionCalls : list WasmFnCallLog.t;
}.
End WasmExecutionResult.

Section Formatting.
(** Tables and texts of other packages: the WebAssembly mnemonics
    ([vm.WasmOpCodeToName]), the EVM mnemonics ([vm.OpCode.String]) and
    the message of an error value ([error.Error]). *)
Variable WasmOpCodeToName : Z -> option string.
Variable OpCodeString : Z -> string.
Variable ErrorText : error -> string.

(** [WasmLog.OpName]; [None] is the panic "unknown family". *)
Definition OpName (s : WasmLog.t) : option string :=
  match WasmLog.OpFamily s with
  | OpCodeFamilyWASM =>
      match WasmOpCodeToName (vm.Code_ (WasmLog.Op s)) with
      | Some opName => Some opName
      | None =>
          Some ("unknown opcode name: (code=0x"
                  ++ hex_number (vm.Code_ (WasmLog.Op s))
                  ++ ", family=" ++ vm.String_ OpCodeString (WasmLog.Op s) ++ ")")%string
      end
  | OpCodeFamilyEVM =>
      Some ("evm_" ++ ToLower (vm.String_ OpCodeString (WasmLog.Op s)))%string
  | OpCodeFamilyGAS => Some (ToLower (vm.String_ OpCodeString (WasmLog.Op s)))
  | OpCodeFamilyUnknown => None
  end.

Definition OpParams (s : WasmLog.t) : list Z :=
  if vm.Code_ (WasmLog.Op s) =? Op_end then [] else vm.GetParams (WasmLog.Op s).

Definition ErrorString (s : WasmLog.t) : string :=
  match WasmLog.Err s with
  | Some e => ErrorText e
  | None => EmptyString
  end.

Definition format_storage (m : gmap Z Z) : gmap string string :=
  list_to_map
    (map (fun kv : Z * Z => (hex (Bytes32 (fst kv)), hex (Bytes32 (snd kv))))
         (map_to_list m)).

Definition format_log (trace : WasmLog.t) : M unit WasmLogRes.t :=
  match OpName trace with
  | None => panic (PanicString "unknown family, not possible")
  | Some opName =>
      ret (WasmLogRes.mk
             (WasmLog.Pc trace)
             (OpCodeFamily_String (WasmLog.OpFamily trace))
             (OpParams trace)
             opName
             (WasmLog.Gas trace)
             (WasmLog.GasCost trace)
             (WasmLog.Depth trace)
             (ErrorString trace)
             (option_map (map Hex) (WasmLog.Stack trace))
             (option_map (fun mem => {[ WasmLog.MemoryOffset trace := Encode mem ]})
                         (WasmLog.Memory trace))
             (option_map format_storage (WasmLog.Storage trace))
             (WasmLog.RefundCounter trace)
             (WasmLog.Drop trace))
  end.

(** [FormatWasmLogs] *)
Fixpoint FormatWasmLogs (logs : list WasmLog.t) : M unit (list WasmLogRes.t) :=
  match logs with
  | [] => ret []
  | trace :: rest =>
      let* r := format_log trace in
      let* rs := FormatWasmLogs rest in
      ret (r :: rs)
  end.

(** [GetResult], up to the JSON encoding of the result: [inr reason] is
    the aborted tracing, [inl r] the formatted execution result. *)
Definition GetResult (l : WebAssemblyLogger)
  : M unit (WasmExecutionResult.t + error) :=
  match reason l with
  | Some reason => ret (inr reason)
  | None =>
      let failed := bool_decide (err l <> None) in
      let returnData := output l in
      let returnVal :=
        if failed && bool_decide (err l <> Some ErrExecutionReverted)
        then EmptyString
        else hex returnData in
      let globalMemory :=
        match globalMemory l with
        | Some g => (fun v => TrimPrefix0x (Encode v)) <$> g
        | None => ∅
        end in
      let* structLogs := FormatWasmLogs (WasmLogs l) in
      ret (inl (WasmExecutionResult.mk (usedGas l) failed globalMemory returnVal
                  structLogs (globals l) (functionCalls l)))
  end.
End Formatting.

End logger.

(** ** The interpreter of wasm.go *)

Module wasm.

(** Modelled from the spec: the engine-side return codes of the embedded
    Wasm engine (its package is not among the sources): "Ok=0, OutOfGas,
    ExecutionReverted, StopToken, Unknown". The value is an [int32]; any
    other number is [ComputeTraceErrorCodeOther]. The zero value of an
    [int32] is [ComputeTraceErrorCodeOk]. *)
Inductive ComputeTraceErrorCode :=
| ComputeTraceErrorCodeOk
| ComputeTraceErrorCodeOutOfGas
| ComputeTraceErrorCodeExecutionReverted
| ComputeTraceErrorCodeStopToken
| ComputeTraceErrorCodeUnknown
| ComputeTraceErrorCodeOther (n : Z).

#[global] Instance ComputeTraceErrorCode_eq_dec : EqDecision ComputeTraceErrorCode.
Proof. solve_decision. Defined.

(** [in.config.Tracer]: nil, a tracer that is not a [WASMLogger], or the
    WebAssembly tracer. *)
Inductive Tracer_ :=
| NilTracer
| OtherTracer
| WASMLogger (l : logger.WebAssemblyLogger).

(** An entry of the EVM jump table: the pricing part. The [execute] part
    is external code that may call back into [Run]; it is described by
    [exec] below. *)
Record operation := mkOperation {
  constantGas : Z;
  dynamicGas : option (vm.EVM -> vm.Contract -> list Z -> Z -> Z * option error);
  memorySize : option (list Z -> Z * bool);
}.

Record Config := mkConfig {
  Debug : bool;
  Tracer : Tracer_;
  JumpTable : Z -> option operation;
}.

Record traceMemory := mkTraceMemory {
  tm_Offset : Z;
  tm_Len : Z;
  (** the hexadecimal text, decoded; [None] when it is not hexadecimal *)
  tm_Data : option (list Z);
}.

Record traceLog := mkTraceLog {
  tl_Pc : Z;
  tl_SourcePc : Z;
  tl_Opcode : Z;
  tl_Name : string;
  tl_StackDrop : Z;
  tl_StackKeep : Z;
  tl_Params : list Z;
  tl_MemoryChanges : list traceMemory;
  tl_Stack : list Z;
}.

Record functionMeta := mkFunctionMeta {
  fm_FnIndex : Z;
  fm_MaxStackHeight : Z;
  fm_NumLocals : Z;
  fm_FnName : string;
}.

Record globalVariable := mkGlobalVariable {
  gv_Index : Z;
  gv_Value : Z;
}.

Record traceStruct := mkTraceStruct {
  ts_GlobalMemory : option (list traceMemory);
  ts_GlobalVariables : list globalVariable;
  ts_FnMetas : list functionMeta;
}.

(** The state of the Wasm engine that the interpreter reads and writes:
    the loaded binary, the linear memory, the [TraceMemoryChange] calls
    received so far, the last program counter and what [DumpTrace] and
    the JSON decoder will answer. *)
Record WasmEngine := mkEngine {
  wasmBinary : list Z;
  memoryData : list Z;
  memoryChanges : list (Z * Z * list Z);
  lastPc : Z;
  dump : error + traceStruct;
}.

Definition SetWasmBinary (code : list Z) (e : WasmEngine) : WasmEngine :=
  mkEngine code (memoryData e) (memoryChanges e) (lastPc e) (dump e).
Definition set_dump (d : error + traceStruct) (e : WasmEngine) : WasmEngine :=
  mkEngine (wasmBinary e) (memoryData e) (memoryChanges e) (lastPc e) d.

(** Modelled from the spec: [TraceMemoryChange] of the engine. A write
    "MUST call into the engine in a way that produces a memory-change
    event in the engine's trace": the call is appended to
    [memoryChanges], and the bytes are stored in the linear memory when
    the span lies inside it. *)
Definition TraceMemoryChange (offset size : Z) (value : list Z) (e : WasmEngine)
  : WasmEngine :=
  mkEngine (wasmBinary e)
           (match slice (memoryData e) offset (offset + size) with
            | Some region =>
                firstn (Z.to_nat offset) (memoryData e)
                  ++ copy_into region value
                  ++ skipn (Z.to_nat (offset + size)) (memoryData e)
            | None => memoryData e
            end)
           (memoryChanges e ++ [(offset, size, value)])
           (lastPc e) (dump e).

Record WASMInterpreter := mkInterpreter {
  evm : vm.EVM;
  config : Config;
  stateQueue : list vm.ScopeContext;
  readOnly : bool;
  returnData : list Z;
  wasmEngine : WasmEngine;
}.

Definition set_evm (e : vm.EVM) (i : WASMInterpreter) : WASMInterpreter :=
  mkInterpreter e (config i) (stateQueue i) (readOnly i) (returnData i) (wasmEngine i).
Definition set_config (c : Config) (i : WASMInterpreter) : WASMInterpreter :=
  mkInterpreter (evm i) c (stateQueue i) (readOnly i) (returnData i) (wasmEngine i).
Definition set_stateQueue (q : list vm.ScopeContext) (i : WASMInterpreter)
  : WASMInterpreter :=
  mkInterpreter (evm i) (config i) q (readOnly i) (returnData i) (wasmEngine i).
Definition set_readOnly (b : bool) (i : WASMInterpreter) : WASMInterpreter :=
  mkInterpreter (evm i) (config i) (stateQueue i) b (returnData i) (wasmEngine i).
Definition set_returnData (r : list Z) (i : WASMInterpreter) : WASMInterpreter :=
  mkInterpreter (evm i) (config i) (stateQueue i) (readOnly i) r (wasmEngine i).
Definition set_wasmEngine (e : WasmEngine) (i : WASMInterpreter) : WASMInterpreter :=
  mkInterpreter (evm i) (config i) (stateQueue i) (readOnly i) (returnData i) e.
Definition set_Tracer (t : Tracer_) (i : WASMInterpreter) : WASMInterpreter :=
  set_config (mkConfig (Debug (config i)) t (JumpTable (config i))) i.
Definition set_JumpTable (t : Z -> option operation) (i : WASMInterpreter)
  : WASMInterpreter :=
  set_config (mkConfig (Debug (config i)) (Tracer (config i)) t) i.

Definition depth (i : WASMInterpreter) : Z := vm.depth (evm i).

(** A call of a tracer method: the tracer's [env] is the interpreter's
    EVM, so the EVM is handed to the tracer and taken back afterwards. *)
Definition on_tracer {A} (l : logger.WebAssemblyLogger)
  (m : M logger.WebAssemblyLogger A) : M WASMInterpreter A :=
  fun i =>
    let (r, l') := m (logger.set_env (evm i) l) in
    (r, set_Tracer (WASMLogger l') (set_evm (logger.env l') i)).

(** The interpreter is the memory interceptor of every scope it hands
    out. *)
#[global] Instance interceptor : vm.MemoryInterceptor WASMInterpreter := {
  vm.writeMemory offset size value :=
    modify (fun i =>
      set_wasmEngine (TraceMemoryChange (uint32 offset) (uint32 size) value (wasmEngine i)) i);
  vm.readMemory offset size :=
    let* i := get in
    match slice (memoryData (wasmEngine i)) offset (uint64 (offset + size)) with
    | Some dataChunk => ret dataChunk
    | None => panic (runtime_panic SliceBoundsOutOfRange)
    end;
  vm.resizeMemory size := panic (PanicString "not implemented");
}.

Definition rawData (i : WASMInterpreter) : list Z := memoryData (wasmEngine i).
Definition memorySize_ (i : WASMInterpreter) : Z :=
  uint64 (Z.of_nat (length (memoryData (wasmEngine i)))).

(** [Scope]: the pointer to the current scope is its index in the queue.
    The scope's memory view is renewed on every lookup. *)
Definition Scope : M WASMInterpreter nat :=
  let* i := get in
  if Z.of_nat (length (stateQueue i)) <=? depth i - 1 then
    panic (PanicString "context queue is empty")
  else if depth i - 1 <? 0 then panic (runtime_panic IndexOutOfRange)
  else
    let idx := Z.to_nat (depth i - 1) in
    match stateQueue i !! idx with
    | None => panic (runtime_panic IndexOutOfRange)
    | Some scope =>
        put (set_stateQueue
               (<[idx := vm.mkScope (Some (vm.newMemoryFromSlice [] true))
                                    (vm.Stack scope) (vm.Contract_ scope)]>
                  (stateQueue i)) i) ;;
        ret idx
    end.

(** The contract a scope pointer refers to. *)
Definition contract_at (idx : nat) : M WASMInterpreter vm.Contract :=
  let* i := get in
  match stateQueue i !! idx with
  | Some scope => ret (vm.Contract_ scope)
  | None => panic (runtime_panic NilDereference)
  end.

(** [scope.Contract.UseGas(gas)] through the scope pointer *)
Definition UseGas_at (idx : nat) (gas : Z) : M WASMInterpreter bool :=
  let* i := get in
  match stateQueue i !! idx with
  | Some scope =>
      let (ok, c) := vm.UseGas gas (vm.Contract_ scope) in
      put (set_stateQueue
             (<[idx := vm.mkScope (vm.Memory_ scope) (vm.Stack scope) c]> (stateQueue i)) i) ;;
      ret ok
  | None => panic (runtime_panic NilDereference)
  end.

Definition tracer_as_WASMLogger : M WASMInterpreter logger.WebAssemblyLogger :=
  let* i := get in
  match Tracer (config i) with
  | WASMLogger l => ret l
  | _ => panic (PanicString "tracer must implement [WASMLogger] in this mode")
  end.

(** *** The opcode shim *)

(** A scope handed to an opcode: its memory view and the pointer to the
    contract, which is the contract of a scope of the queue. The operand
    stack the scope points to is the stack of the [Frame]. *)
Record ScopeRef := mkScopeRef {
  Memory : vm.Memory;
  Contract : nat;
}.

(** The state a host call runs in: the interpreter and the operand stack
    synthesized for the call. *)
Record Frame := mkFrame {
  interp : WASMInterpreter;
  stack : list Z;
}.

Definition set_stack (s : list Z) (f : Frame) : Frame := mkFrame (interp f) s.

Definition in_interp {A} (m : M WASMInterpreter A) : M Frame A :=
  zoom interp (fun i f => mkFrame i (stack f)) m.

#[global] Instance frame_interceptor : vm.MemoryInterceptor Frame := {
  vm.writeMemory offset size value := in_interp (vm.writeMemory offset size value);
  vm.readMemory offset size := in_interp (vm.readMemory offset size);
  vm.resizeMemory size := in_interp (vm.resizeMemory size);
}.

(** [ScopeWithStack] for a non-nil stack: a new scope that shares the
    memory view and the contract of the current scope. *)
Definition ScopeWithStack : M WASMInterpreter ScopeRef :=
  let* idx := Scope in
  ret (mkScopeRef (vm.newMemoryFromSlice [] true) idx).

(** What a tracer reads through a scope. *)
Definition scope_view (scope : ScopeRef) : M Frame vm.ScopeContext :=
  let* c := in_interp (contract_at (Contract scope)) in
  let* f := get in
  ret (vm.mkScope (Some (Memory scope)) (Some (stack f)) c).

Definition opCodeResultFn : Type := list Z -> ScopeRef -> M Frame (option error).

Definition AddressDestLen : Z := 20.
Definition SizeDestLen : Z := 4.
Definition Uint256DestLen : Z := 32.
Definition Uint32DestLen : Z := 4.
Definition Uint64DestLen : Z := 8.
Definition HashDestLen : Z := 32.
Definition BoolDestLen : Z := 1.

(** The bytes written by the finalizer: [destLen] bytes, the byte string
    right-aligned after zeroes. *)
Definition left_pad (destLen : Z) (bs : list Z) : list Z :=
  zeros (Z.to_nat destLen - length bs) ++ bs.

Definition copyLastStackItemToMemory (destLen : Z) : opCodeResultFn :=
  fun input scope =>
    match last_item input with
    | None => ret (Some (Errorf "last function param must be a destination pointer"))
    | Some destOffset =>
        let* f := get in
        match last_item (stack f) with
        | None => panic (runtime_panic IndexOutOfRange)
        | Some top =>
            let lastBytes := Bytes top in
            let res := zeros (Z.to_nat destLen) in
            let from := destLen - Z.of_nat (length lastBytes) in
            match slice res from destLen with
            | None => panic (runtime_panic SliceBoundsOutOfRange)
            | Some tail =>
                let res := firstn (Z.to_nat from) res ++ copy_into tail lastBytes in
                vm.Set_ (Memory scope) destOffset (uint64 (Z.of_nat (length res))) res ;;
                ret None
            end
        end
    end.

Inductive FieldType :=
| UnknownFieldType
| AddressFieldType
| Uint256FieldType.

Definition int64 (z : Z) : Z := (z + 2 ^ 63) mod 2 ^ 64 - 2 ^ 63.

(** The error values hold the format string of [fmt.Errorf]. *)
Definition replaceMemOffsetWithValueOnStack (inputOffsetIndex : Z) (fieldType : FieldType)
  : opCodeResultFn :=
  fun input scope =>
    let* f := get in
    let expectedMinLength := inputOffsetIndex + 1 in
    if Z.of_nat (length input) <? expectedMinLength then
      ret (Some (Errorf "input length is too small (%d) to contain the expected value"))
    else if Z.of_nat (length (stack f)) <? expectedMinLength then
      ret (Some (Errorf "stack length is too small (%d) to contain the expected value"))
    else if inputOffsetIndex <? 0 then
      ret (Some (Errorf "input offset index can't be less 0"))
    else
      let offset := nth (Z.to_nat inputOffsetIndex) input 0 in
      (* stack.Back(n) is data[len-n-1] *)
      let itemToReplace := (length (stack f) - Z.to_nat inputOffsetIndex - 1)%nat in
      match fieldType with
      | AddressFieldType =>
          let* valueBytes := vm.GetCopy (Memory scope) (int64 offset) AddressDestLen in
          modify (fun f => set_stack (<[itemToReplace := SetBytes valueBytes]> (stack f)) f) ;;
          ret None
      | Uint256FieldType =>
          let* valueBytes := vm.GetCopy (Memory scope) (int64 offset) Uint256DestLen in
          modify (fun f => set_stack (<[itemToReplace := SetBytes valueBytes]> (stack f)) f) ;;
          ret None
      | UnknownFieldType => ret (Some (Errorf "unsupported field type provided (%d)"))
      end.

Definition MaxUint64 : Z := 2 ^ 64 - 1.

(** [toWordSize] and [math.SafeMul] of the EVM's gas arithmetic. *)
Definition toWordSize (size : Z) : Z :=
  if MaxUint64 - 31 <? size then MaxUint64 / 32 + 1 else (size + 31) / 32.
Definition SafeMul (x y : Z) : Z * bool := (uint64 (x * y), 2 ^ 64 <=? x * y).

(** What one run of an opcode's [execute] leaves behind, apart from calls
    back into [Run]: the operand stack, the contract's gas, the state
    database as the tracer sees it, writes to guest memory through
    [Memory.Set], and the returned data and error. *)
Record Effect := mkEffect {
  stack_after : list Z;
  gas_after : Z;
  refund_after : Z;
  state_after : Z -> Z -> Z;
  writes : list (Z * Z * list Z);
  ret_ : list Z;
  err_ : option error;
}.

(** The behaviour of the guest module as the engine's host sees it, and
    the behaviour of an opcode's [execute] as the shim sees it. Both are
    external code; every run of the engine corresponds to one [guest]. *)
Inductive guest :=
| Exit (res : ComputeTraceErrorCode) (err : option error) (d : error + traceStruct)
| Emit (item : traceLog) (k : guest)
| CallGas (params : list Z) (k : guest)
| CallNative (fnName : string) (params : list Z) (x : exec) (k : guest)
with exec :=
| Done (f : list Z -> vm.Contract -> vm.EVM -> Effect)
| Crash (p : panic_value)
| Enter (contract : vm.Contract) (input : list Z) (readOnly : bool) (g : guest) (k : exec).

Definition executionFunc : Type := ScopeRef -> M Frame (list Z * option error).

Definition set_contract_gas (idx : nat) (gas : Z) : M WASMInterpreter unit :=
  modify (fun i =>
    match stateQueue i !! idx with
    | Some scope =>
        set_stateQueue
          (<[idx := vm.mkScope (vm.Memory_ scope) (vm.Stack scope)
                               (vm.set_Gas gas (vm.Contract_ scope))]> (stateQueue i)) i
    | None => i
    end).

Fixpoint apply_writes (m : vm.Memory) (ws : list (Z * Z * list Z)) : M Frame unit :=
  match ws with
  | [] => ret tt
  | (offset, size, value) :: rest =>
      vm.Set_ m offset size value ;; apply_writes m rest
  end.

(** The last step of an opcode's [execute]. *)
Definition apply_effect (f : list Z -> vm.Contract -> vm.EVM -> Effect) : executionFunc :=
  fun scope =>
    let* c := in_interp (contract_at (Contract scope)) in
    let* fr := get in
    let e := f (stack fr) c (evm (interp fr)) in
    modify (set_stack (stack_after e)) ;;
    in_interp (set_contract_gas (Contract scope) (gas_after e)) ;;
    in_interp (modify (fun i =>
      set_evm (vm.mkEVM (vm.depth (evm i)) (vm.abort (evm i))
                        (refund_after e) (state_after e)) i)) ;;
    apply_writes (Memory scope) (writes e) ;;
    ret (ret_ e, err_ e).

(** [in.config.Tracer.CaptureState], a call through the [EVMLogger]
    interface. *)
Definition Tracer_CaptureState (pc op gas cost : Z) (scope : ScopeRef) (depth : Z)
  (err : option error) : M Frame unit :=
  let* f := get in
  match Tracer (config (interp f)) with
  | NilTracer => panic (runtime_panic NilDereference)
  | OtherTracer => ret tt
  | WASMLogger l =>
      let* view := scope_view scope in
      in_interp (on_tracer l
        (logger.CaptureState pc op gas cost view (returnData (interp f)) depth err))
  end.

Section Interpreter.
(** External code: the London instruction set of the EVM, the bytecode
    injector, the mnemonic table of WebAssembly and the text of an
    error value. *)
Variable newLondonInstructionSet : Z -> option operation.
Variable injectGasComputationAndStackProtection : list Z -> list Z + error.
Variable WasmOpCodeToName : Z -> option string.
Variable ErrorText : error -> string.

(** The gas pricing of [execEvmOp], from the first [UseGas] to the
    call of [execute]: the cost charged so far (the value of the local
    [cost]) and the error returned early, if any. *)
Definition charge (op : operation) (scope : ScopeRef) : M Frame (Z * option error) :=
  let cost := constantGas op in
  let* ok := in_interp (UseGas_at (Contract scope) cost) in
  if negb ok then ret (cost, Some ErrOutOfGas)
  else
    match dynamicGas op with
    | None => ret (cost, None)
    | Some dynamicGas =>
        let* f := get in
        let sized :=
          match memorySize op with
          | None => inl 0
          | Some memorySize =>
              let (memSize, overflow) := memorySize (stack f) in
              if overflow then inr ErrGasUintOverflow
              else
                let (size, overflow) := SafeMul (toWordSize memSize) 32 in
                if overflow then inr ErrGasUintOverflow else inl size
          end in
        match sized with
        | inr e => ret (cost, Some e)
        | inl memorySize =>
            let* c := in_interp (contract_at (Contract scope)) in
            let (dynamicCost, err) := dynamicGas (evm (interp f)) c (stack f) memorySize in
            let cost := uint64 (cost + dynamicCost) in
            match err with
            | Some _ => ret (cost, Some ErrOutOfGas)
            | None =>
                let* ok := in_interp (UseGas_at (Contract scope) dynamicCost) in
                if negb ok then ret (cost, Some ErrOutOfGas) else ret (cost, None)
            end
        end
    end.

(** [execEvmOp]. The deferred tracer call sees the final value of the
    local [cost] and of the named result [err], which is still nil when
    [execute] panics. The pricing cannot panic after the deferred call
    is registered, so the deferred call is placed behind it. *)
Definition execEvmOp (opcode : Z) (scope : ScopeRef) (execute : executionFunc)
  : M Frame (option error) :=
  let* c := in_interp (contract_at (Contract scope)) in
  let gasCopy := vm.Gas c in
  let* f := get in
  let* op :=
    match JumpTable (config (interp f)) opcode with
    | Some op => ret op
    | None =>
        in_interp (modify (set_JumpTable newLondonInstructionSet)) ;;
        match newLondonInstructionSet opcode with
        | Some op => ret op
        | None => panic (runtime_panic NilDereference)
        end
    end in
  let* priced := charge op scope in
  let (cost, early) := priced in
  let traced (err : option error) : M Frame unit :=
    let err2 := if bool_decide (err = Some errStopToken) then None else err in
    let* f := get in
    if Debug (config (interp f)) then
      Tracer_CaptureState MaxUint64 opcode gasCopy cost scope (depth (interp f)) err2
    else ret tt in
  match early with
  | Some e => traced (Some e) ;; ret (Some e)
  | None =>
      fun f0 =>
        let (r, f1) :=
          (let* out := execute scope in
           (* always copy return data, because revert opcode return data with error *)
           in_interp (modify (set_returnData (fst out))) ;;
           ret (snd out)) f0 in
        let err := match r with Ret e => e | Panic _ => None end in
        match traced err f1 with
        | (Ret _, f2) => (r, f2)
        | (Panic p, f2) => (Panic p, f2)
        end
  end.

(** The body of [processOpcode] behind the deferred call: the input
    preprocessors in order, then the opcode. *)
Fixpoint opcodeBody (input : list Z) (opcode : Z) (scope : ScopeRef)
  (inputPreprocessors : list opCodeResultFn) (execute : executionFunc)
  : M Frame (option error) :=
  match inputPreprocessors with
  | [] => execEvmOp opcode scope execute
  | inputPreprocessor :: rest =>
      let* err := inputPreprocessor input scope in
      match err with
      | Some e => ret (Some e)
      | None => opcodeBody input opcode scope rest execute
      end
  end.

(** The deferred call of [processOpcode]: "handle function end to
    trigger finalizers". *)
Definition runFinalizer (input : list Z) (scope : ScopeRef)
  (finalizer : option opCodeResultFn) : M Frame unit :=
  match finalizer with
  | Some finalizer =>
      let* err2 := finalizer input scope in
      match err2 with
      | Some e => panic (PanicError e)
      | None => ret tt
      end
  | None => ret tt
  end.

(** [processOpcode]. The stack is filled with the input parameters,
    [input[len(input)-i-1]] being pushed [i]-th, so that the stack
    data is the reversed input. The finalizer is deferred: it runs when
    the body returns and when it panics. The stack is released at the
    end. *)
Definition processOpcode (input : list Z) (opcode : Z) (finalizer : option opCodeResultFn)
  (inputPreprocessors : list opCodeResultFn) (execute : executionFunc)
  : M WASMInterpreter (option error) :=
  let* scope := ScopeWithStack in
  fun i =>
    let (r, f) :=
      with_defer (opcodeBody input opcode scope inputPreprocessors execute)
                 (runFinalizer input scope finalizer)
                 (mkFrame i (rev input)) in
    (r, interp f).

Record registration := mkRegistration {
  fnName : string;
  opcode_ : Z;
  finalizer_ : option opCodeResultFn;
  inputPreprocessors_ : list opCodeResultFn;
}.

(** The callback that [registerNativeFunction] hands to the engine. *)
Definition nativeCallback (r : registration) (paramsCount : Z) (execute : executionFunc)
  (params : list Z) : M WASMInterpreter ComputeTraceErrorCode :=
  if negb (Z.of_nat (length params) =? paramsCount) then ret ComputeTraceErrorCodeUnknown
  else
    (* int32 parameters are converted with uint64(paramValue) *)
    let input := map uint64 params in
    let* err := processOpcode input (opcode_ r) (finalizer_ r) (inputPreprocessors_ r)
                              execute in
    match err with
    | Some errStopToken => ret ComputeTraceErrorCodeStopToken
    | Some e => panic (PanicError e)
    | None => ret ComputeTraceErrorCodeOk
    end.

(** The callback of [registerLogsCallback], on the decoded trace item. *)
Definition logsCallback (l : traceLog) : M WASMInterpreter unit :=
  let* wasmLogger := tracer_as_WASMLogger in
  let* memoryChange :=
    match tl_MemoryChanges l with
    | [] => ret None
    | [change] =>
        match tm_Data change with
        | None => panic (PanicError (Errorf "invalid hex string"))
        | Some data => ret (Some (vm.mkMemoryChange (tm_Offset change) data))
        end
    | _ => panic (PanicString "multiple memory changes are not supported yet")
    end in
  let op := vm.WasmOp (vm.mkWasmOpcodeInfo (tl_SourcePc l) (tl_Opcode l) (tl_Name l)
                                           (tl_Params l)) in
  let evmStack := tl_Stack l in
  let* scope := ScopeWithStack in
  let* c := contract_at (Contract scope) in
  let* i := get in
  on_tracer wasmLogger
    (logger.CaptureWasmState (uint64 (tl_Pc l)) op memoryChange
       (vm.mkScope (Some (Memory scope)) (Some evmStack) c) (depth i)
       (tl_StackDrop l) (tl_StackKeep l)).

(** The callback of [registerGasCheckFunction]. *)
Definition gasCheck (params : list Z) : M WASMInterpreter ComputeTraceErrorCode :=
  match params with
  | [paramValue] =>
      let* scope := Scope in
      let input0 := uint64 paramValue in
      let val := int64 input0 in
      let gasSpend := uint64 val in
      let* i := get in
      let* halted :=
        (if Debug (config i) then
           let* c := contract_at scope in
           let scope' := vm.mkScope None None c in
           let* wasmLogger :=
             match Tracer (config i) with
             | WASMLogger l => ret l
             | _ => panic (runtime_panic TypeAssertionFailed)
             end in
           if vm.Gas c <? gasSpend then
             on_tracer wasmLogger
               (logger.CaptureGasState gasSpend scope' (depth i) (Some ErrOutOfGas)) ;;
             ret true
           else
             on_tracer wasmLogger
               (logger.CaptureGasState gasSpend scope' (depth i) None) ;;
             ret false
         else ret false) in
      if halted : bool then ret ComputeTraceErrorCodeOutOfGas
      else
        let* ok := UseGas_at scope gasSpend in
        if negb ok then panic (PanicError ErrOutOfGas)
        else ret ComputeTraceErrorCodeOk
  | _ => panic (PanicError ErrOutOfGas)
  end.
End Interpreter.

(** EVM opcode bytes named by the registration table. *)
Definition STOP : Z := 0.
Definition SHA3 : Z := 32.
Definition ADDRESS : Z := 48.
Definition BALANCE : Z := 49.
Definition ORIGIN : Z := 50.
Definition CALLER : Z := 51.
Definition CALLVALUE : Z := 52.
Definition CALLDATALOAD : Z := 53.
Definition CALLDATASIZE : Z := 54.
Definition CALLDATACOPY : Z := 55.
Definition CODESIZE : Z := 56.
Definition CODECOPY : Z := 57.
Definition GASPRICE : Z := 58.
Definition EXTCODESIZE : Z := 59.
Definition EXTCODECOPY : Z := 60.
Definition RETURNDATASIZE : Z := 61.
Definition RETURNDATACOPY : Z := 62.
Definition EXTCODEHASH : Z := 63.
Definition BLOCKHASH : Z := 64.
Definition COINBASE : Z := 65.
Definition TIMESTAMP : Z := 66.
Definition NUMBER : Z := 67.
Definition DIFFICULTY : Z := 68.
Definition GASLIMIT : Z := 69.
Definition CHAINID : Z := 70.
Definition SELFBALANCE : Z := 71.
Definition BASEFEE : Z := 72.
Definition SLOAD : Z := vm.SLOAD.
Definition SSTORE : Z := vm.SSTORE.
Definition PC : Z := 88.
Definition MSIZE : Z := 89.
Definition GAS : Z := 90.
Definition LOG0 : Z := 160.
Definition LOG1 : Z := 161.
Definition LOG2 : Z := 162.
Definition LOG3 : Z := 163.
Definition LOG4 : Z := 164.
Definition CREATE : Z := 240.
Definition CALL : Z := 241.
Definition CALLCODE : Z := 242.
Definition RETURN : Z := 243.
Definition DELEGATECALL : Z := 244.
Definition CREATE2 : Z := 245.
Definition STATICCALL : Z := 250.
Definition REVERT : Z := 253.
Definition SELFDESTRUCT : Z := 255.

(** [wasmFunctionTypes]: the number of i32 parameters per opcode. *)
Definition wasmFunctionTypes : list (Z * Z) :=
  [ (STOP, 0); (SHA3, 3); (ADDRESS, 1); (BALANCE, 2); (ORIGIN, 1); (CALLER, 1);
    (CALLVALUE, 1); (CALLDATALOAD, 2); (CALLDATASIZE, 1); (CALLDATACOPY, 3);
    (CODESIZE, 1); (CODECOPY, 3); (GASPRICE, 1); (EXTCODESIZE, 2); (EXTCODECOPY, 4);
    (EXTCODEHASH, 2); (RETURNDATASIZE, 1); (RETURNDATACOPY, 3); (BLOCKHASH, 2);
    (COINBASE, 1); (TIMESTAMP, 1); (NUMBER, 1); (DIFFICULTY, 1); (GASLIMIT, 1);
    (CHAINID, 1); (SELFBALANCE, 1); (BASEFEE, 1); (SLOAD, 2); (SSTORE, 2); (PC, 1);
    (MSIZE, 1); (GAS, 1); (LOG0, 2); (LOG1, 3); (LOG2, 4); (LOG3, 5); (LOG4, 6);
    (CREATE, 4); (CALL, 8); (CALLCODE, 8); (RETURN, 2); (DELEGATECALL, 7);
    (CREATE2, 5); (STATICCALL, 7); (REVERT, 2); (SELFDESTRUCT, 1) ].

Definition paramsCount_of (opcode : Z) : option Z :=
  snd <$> find (fun e : Z * Z => fst e =? opcode) wasmFunctionTypes.

(** [registerNativeFunctions]: the registrations in source order. *)
Definition registerNativeFunctions : list registration :=
  let reg := mkRegistration in
  let copy := copyLastStackItemToMemory in
  let replace := replaceMemOffsetWithValueOnStack in
  [ reg "_evm_return" RETURN None [];
    reg "_evm_address" ADDRESS (Some (copy AddressDestLen)) [];
    reg "_evm_stop" STOP None [];
    reg "_evm_keccak256" SHA3 (Some (copy HashDestLen)) [];
    reg "_evm_balance" BALANCE (Some (copy Uint256DestLen)) [replace 0 AddressFieldType];
    reg "_evm_origin" ORIGIN (Some (copy AddressDestLen)) [];
    reg "_evm_caller" CALLER (Some (copy AddressDestLen)) [];
    reg "_evm_callvalue" CALLVALUE (Some (copy Uint256DestLen)) [];
    reg "_evm_calldataload" CALLDATALOAD (Some (copy HashDestLen))
        [replace 0 Uint256FieldType];
    reg "_evm_calldatasize" CALLDATASIZE (Some (copy SizeDestLen)) [];
    reg "_evm_calldatacopy" CALLDATACOPY None [];
    reg "_evm_codesize" CODESIZE (Some (copy SizeDestLen)) [];
    reg "_evm_codecopy" CODECOPY None [];
    reg "_evm_gasprice" GASPRICE (Some (copy Uint256DestLen)) [];
    reg "_evm_extcodesize" EXTCODESIZE (Some (copy SizeDestLen)) [replace 0 AddressFieldType];
    reg "_evm_extcodecopy" EXTCODECOPY None [replace 0 AddressFieldType];
    reg "_evm_extcodehash" EXTCODEHASH (Some (copy HashDestLen)) [replace 0 AddressFieldType];
    reg "_evm_returndatasize" RETURNDATASIZE (Some (copy SizeDestLen)) [];
    reg "_evm_returndatacopy" RETURNDATACOPY None [];
    reg "_evm_blockhash" BLOCKHASH (Some (copy HashDestLen)) [];
    reg "_evm_coinbase" COINBASE (Some (copy AddressDestLen)) [];
    reg "_evm_timestamp" TIMESTAMP (Some (copy Uint64DestLen)) [];
    reg "_evm_number" NUMBER (Some (copy Uint64DestLen)) [];
    reg "_evm_difficulty" DIFFICULTY (Some (copy Uint256DestLen)) [];
    reg "_evm_gaslimit" GASLIMIT (Some (copy Uint64DestLen)) [];
    reg "_evm_chainid" CHAINID (Some (copy Uint256DestLen)) [];
    reg "_evm_selfbalance" SELFBALANCE (Some (copy Uint256DestLen)) [];
    reg "_evm_basefee" BASEFEE (Some (copy Uint256DestLen)) [];
    (* storage *)
    reg "_evm_sload" SLOAD (Some (copy Uint256DestLen)) [replace 0 Uint256FieldType];
    reg "_evm_sstore" SSTORE None [replace 0 Uint256FieldType; replace 1 Uint256FieldType];
    (* system opcodes *)
    reg "_evm_pc" PC (Some (copy Uint64DestLen)) [];
    reg "_evm_msize" MSIZE (Some (copy Uint64DestLen)) [];
    reg "_evm_gas" GAS (Some (copy Uint64DestLen)) [];
    (* log emit opcodes *)
    reg "_evm_log0" LOG0 None [];
    reg "_evm_log1" LOG1 None [replace 2 Uint256FieldType];
    reg "_evm_log2" LOG2 None [replace 2 Uint256FieldType; replace 3 Uint256FieldType];
    reg "_evm_log3" LOG3 None
        [replace 2 Uint256FieldType; replace 3 Uint256FieldType; replace 4 Uint256FieldType];
    reg "_evm_log4" LOG4 None
        [replace 2 Uint256FieldType; replace 3 Uint256FieldType; replace 4 Uint256FieldType;
         replace 5 Uint256FieldType];
    (* call & create opcodes *)
    reg "_evm_create" CREATE (Some (copy AddressDestLen)) [replace 0 Uint256FieldType];
    reg "_evm_call" CALL (Some (copy BoolDestLen))
        [replace 1 AddressFieldType; replace 2 Uint256FieldType];
    reg "_evm_callcode" CALLCODE (Some (copy BoolDestLen))
        [replace 1 AddressFieldType; replace 2 Uint256FieldType];
    reg "_evm_delegatecall" DELEGATECALL (Some (copy BoolDestLen))
        [replace 1 Uint256FieldType];
    reg "_evm_create2" CREATE2 (Some (copy AddressDestLen)) [replace 0 Uint256FieldType];
    reg "_evm_staticcall" STATICCALL (Some (copy BoolDestLen)) [replace 1 AddressFieldType];
    reg "_evm_revert" REVERT None [];
    reg "_evm_selfdestruct" SELFDESTRUCT None [] ].

Definition registered (name : string) : option registration :=
  find (fun r => String.eqb (fnName r) name) registerNativeFunctions.

Fixpoint for_each {S A} (xs : list A) (f : A -> M S unit) : M S unit :=
  match xs with
  | [] => ret tt
  | x :: rest => f x ;; for_each rest f
  end.

(** The translation of the engine's outcome in [Run], from the return of
    [ComputeResult] to the final value of [err]. *)
Definition translate (res : ComputeTraceErrorCode) (err : option error) : option error :=
  let err :=
    if bool_decide (res = ComputeTraceErrorCodeOutOfGas) then Some ErrOutOfGas
    else if bool_decide (res = ComputeTraceErrorCodeExecutionReverted)
            || bool_decide (res = ComputeTraceErrorCodeUnknown) then Some ErrExecutionReverted
    else if bool_decide (res = ComputeTraceErrorCodeStopToken) then Some errStopToken
    else err in
  if bool_decide (err = Some errStopToken) then None else err.

Section Driver.
Variable newLondonInstructionSet : Z -> option operation.
Variable injectGasComputationAndStackProtection : list Z -> list Z + error.
Variable WasmOpCodeToName : Z -> option string.
Variable ErrorText : error -> string.

(** The replay of the engine's trace into the tracer, in debug mode. *)
Definition replayTrace : M WASMInterpreter unit :=
  let* i := get in
  if Debug (config i) then
    match dump (wasmEngine i) with
    | inl e => panic (PanicError e)
    | inr trace =>
        match ts_GlobalMemory trace with
        | Some entries =>
            let* globalMemory :=
              fold_left
                (fun (acc : M WASMInterpreter (gmap Z (list Z))) gm =>
                   let* m := acc in
                   match tm_Data gm with
                   | None => panic (PanicError (Errorf "invalid hex string"))
                   | Some data => ret (<[tm_Offset gm := data]> m)
                   end)
                entries (ret ∅) in
            let* wasmLogger := tracer_as_WASMLogger in
            on_tracer wasmLogger (logger.CaptureGlobalMemoryState globalMemory)
        | None => ret tt
        end ;;
        for_each (ts_GlobalVariables trace) (fun fm =>
          let* wasmLogger := tracer_as_WASMLogger in
          on_tracer wasmLogger
            (logger.CaptureGlobalVariable WasmOpCodeToName (gv_Index fm) None (gv_Value fm))) ;;
        for_each (ts_FnMetas trace) (fun fm =>
          let* wasmLogger := tracer_as_WASMLogger in
          on_tracer wasmLogger
            (logger.CaptureWasmFunctionCall (fm_FnIndex fm) (fm_MaxStackHeight fm)
               (fm_NumLocals fm) (fm_FnName fm)))
    end
  else ret tt.

(** The closure around [ComputeResult]: a panic whose value is an error
    is recovered into [err], with [res] left at its zero value; the type
    assertion [err2.(error)] fails on any other panic value. *)
Definition recovered (engine : M WASMInterpreter (ComputeTraceErrorCode * option error))
  : M WASMInterpreter (ComputeTraceErrorCode * option error) :=
  fun i =>
    match engine i with
    | (Ret out, i1) => (Ret out, i1)
    | (Panic (PanicError e), i1) => (Ret (ComputeTraceErrorCodeOk, Some e), i1)
    | (Panic (PanicString _), i1) => (Panic (runtime_panic TypeAssertionFailed), i1)
    end.

(** [Run], for an engine whose [ComputeResult] behaves as [engine]. *)
Definition Run_with (engine : M WASMInterpreter (ComputeTraceErrorCode * option error))
  (contract : vm.Contract) (input : list Z) (readOnly_ : bool)
  : M WASMInterpreter (list Z * option error) :=
  (* Increment the call depth which is restricted to 1024 *)
  modify (fun i => set_evm (vm.set_depth (depth i + 1) (evm i)) i) ;;
  with_defer
    (let* i := get in
     (* Make sure the readOnly is only set if we aren't in readOnly yet. *)
     let entering := readOnly_ && negb (readOnly i) in
     when entering (modify (set_readOnly true)) ;;
     with_defer
       (modify (set_returnData []) ;;
        (* Don't bother with the execution if there's no code. *)
        if (length (vm.Code contract) =? 0)%nat then ret ([], None)
        else
          modify (set_readOnly readOnly_) ;;
          let* i := get in
          (if Debug (config i) && match Tracer (config i) with NilTracer => true | _ => false end
           then panic (PanicString "tracer must be configured in debug mode")
           else match Tracer (config i) with
                | WASMLogger _ => ret tt
                | _ => panic (PanicString "tracer must implement [WASMLogger] in this mode")
                end) ;;
          let contract := vm.set_Input input contract in
          (* if contract deployment then check contract code is safe (do injection) *)
          match (if (length input =? 0)%nat
                 then injectGasComputationAndStackProtection (vm.Code contract)
                 else inl (vm.Code contract)) with
          | inr err =>
              ret ([], Some (Errorf ("failed to check contract deployment code: "
                                       ++ ErrorText err)))
          | inl code =>
              let contract := vm.set_Code code contract in
              (* create new wasm context *)
              let scope := vm.mkScope None (Some []) contract in
              modify (fun i => set_wasmEngine (SetWasmBinary code (wasmEngine i)) i) ;;
              let* i := get in
              if negb (Z.of_nat (length (stateQueue i)) =? depth i - 1) then
                panic (PanicString
                         "state queue len and evm depth mismatch, this is not possible")
              else
                with_defer
                  (modify (fun i => set_stateQueue (stateQueue i ++ [scope]) i) ;;
                   let* out := recovered engine in
                   replayTrace ;;
                   let* i := get in
                   ret (returnData i, translate (fst out) (snd out)))
                  (let* i := get in
                   match slice (stateQueue i) 0 (depth i - 1) with
                   | Some q => put (set_stateQueue q i)
                   | None => panic (runtime_panic SliceBoundsOutOfRange)
                   end)
          end)
       (when entering (modify (set_readOnly false))))
    (modify (fun i => set_evm (vm.set_depth (depth i - 1) (evm i)) i)).

(** The callbacks the engine holds after registration: the gas check
    ([RegisterHostFnI64]), the opcode shim ([RegisterHostFnI32]) and the
    trace callback ([RegisterCallbackOnAfterItemAddedToLogs]). *)
Record hostFunctions := mkHost {
  hostGas : list Z -> M WASMInterpreter ComputeTraceErrorCode;
  hostNative : registration -> Z -> executionFunc -> list Z
               -> M WASMInterpreter ComputeTraceErrorCode;
  hostLogs : traceLog -> M WASMInterpreter unit;
}.

Section Engine.
Variable host : hostFunctions.

(** The engine running a guest: [ComputeResult]. A host function that
    reports a code other than Ok halts the engine, which reports that
    code. [execute] is the behaviour of an opcode's implementation,
    which may re-enter [Run] on the same interpreter. *)
Fixpoint ComputeResult (g : guest)
  : M WASMInterpreter (ComputeTraceErrorCode * option error) :=
  match g with
  | Exit res err d =>
      modify (fun i => set_wasmEngine (set_dump d (wasmEngine i)) i) ;;
      ret (res, err)
  | Emit item k =>
      hostLogs host item ;;
      ComputeResult k
  | CallGas params k =>
      let* code := hostGas host params in
      match code with
      | ComputeTraceErrorCodeOk => ComputeResult k
      | _ => ret (code, None)
      end
  | CallNative name params x k =>
      match registered name with
      | None => ret (ComputeTraceErrorCodeUnknown, Some (Errorf "unresolved import"))
      | Some r =>
          match paramsCount_of (opcode_ r) with
          | None => ret (ComputeTraceErrorCodeUnknown, Some (Errorf "unresolved import"))
          | Some paramsCount =>
              let* code := hostNative host r paramsCount (execute x) params in
              match code with
              | ComputeTraceErrorCodeOk => ComputeResult k
              | _ => ret (code, None)
              end
          end
      end
  end
with execute (x : exec) : executionFunc :=
  match x with
  | Done f => apply_effect f
  | Crash p => fun _ => panic p
  | Enter contract input readOnly_ g k =>
      fun scope =>
        in_interp (Run_with (ComputeResult g) contract input readOnly_) ;;
        execute k scope
  end.
End Engine.

(** What [NewWASMInterpreter] registers. *)
Definition registeredHost : hostFunctions :=
  mkHost gasCheck (nativeCallback newLondonInstructionSet) logsCallback.

(** [Run] on the guest the loaded module behaves as. *)
Definition Run (g : guest) (contract : vm.Contract) (input : list Z) (readOnly_ : bool)
  : M WASMInterpreter (list Z * option error) :=
  Run_with (ComputeResult registeredHost g) contract input readOnly_.
End Driver.

End wasm.


(** ** Further operations of memory.go *)

Section MemorySet32.
Context {S : Type} `{vm.MemoryInterceptor S}.

(** [Memory.Set32]: the word is written as its 32 big-endian bytes; the
    plain store is overwritten from [offset] on by [copy]. *)
Definition Set32 (m : vm.Memory) (offset : Z) (val : Z) : M S vm.Memory :=
  if vm.memoryInterceptor m then
    vm.writeMemory offset 32 (Bytes32 val) ;; ret m
  else if Z.of_nat (length (vm.store m)) <? uint64 (offset + 32) then
    panic (PanicString "invalid memory: store empty")
  else
    match slice (vm.store m) offset (Z.of_nat (length (vm.store m))) with
    | None => panic (runtime_panic SliceBoundsOutOfRange)
    | Some region =>
        ret (vm.mkMemory (firstn (Z.to_nat offset) (vm.store m)
                            ++ copy_into region (Bytes32 val))
                         (vm.lastGasCost m) false)
    end.
End MemorySet32.
(** * Vocabulary of the properties *)

Module Props.
Import logger.

(** The trace order is corrupted: there is no last record, or it is not
    the WASM record of a [call]. *)
Definition corrupted (l : WebAssemblyLogger) : Prop :=
  match last_item (logs l) with
  | Some lastLog => is_wasm_call lastLog = false
  | None => True
  end.

(** A record that takes the place of [lastLog] and inherits its program
    counter, memory and stack fields. *)
Definition inherits (rec lastLog : WasmLog.t) : Prop :=
  WasmLog.Pc rec = WasmLog.Pc lastLog
  /\ WasmLog.Memory rec = WasmLog.Memory lastLog
  /\ WasmLog.MemoryOffset rec = WasmLog.MemoryOffset lastLog
  /\ WasmLog.MemorySize rec = WasmLog.MemorySize lastLog
  /\ WasmLog.Stack rec = WasmLog.Stack lastLog.

(** Sample values: an EVM at depth one, a contract, a scope, the WASM
    record of a [call] instruction and of an [i64.const] instruction, and
    tracers holding them. *)
Definition MaxUint64_ : Z := 2 ^ 64 - 1.

Definition sample_evm : vm.EVM := vm.mkEVM 1 false 0 (fun _ _ => 0).

Definition sample_contract : vm.Contract := vm.mkContract 7 [0; 97; 115; 109] [1] 100.

Definition sample_scope : vm.ScopeContext :=
  vm.mkScope (Some (vm.newMemoryFromSlice [] true)) (Some [8]) sample_contract.

Definition call_record : WasmLog.t :=
  WasmLog.mk 5 OpCodeFamilyWASM (vm.WasmOp (vm.mkWasmOpcodeInfo 5 Op_call "call" [6])) []
             100 0 None 0 0 (Some [10]) None None 1 0 None 0 0.

Definition const_record : WasmLog.t :=
  WasmLog.mk 4 OpCodeFamilyWASM (vm.WasmOp (vm.mkWasmOpcodeInfo 4 66 "i64.const" [10])) []
             100 0 None 0 0 (Some []) None None 1 0 None 0 0.

Definition sample_config (limit : Z) : Config := mkConfig false false false true true limit.

Definition logger_with (limit : Z) (records : list WasmLog.t) : WebAssemblyLogger :=
  set_logs records (NewWebAssemblyLogger (Some (sample_config limit)) sample_evm).

Definition sample_logger : WebAssemblyLogger := logger_with 0 [call_record].
Definition limited_logger : WebAssemblyLogger := logger_with 1 [call_record].
Definition limited_logger_const : WebAssemblyLogger := logger_with 1 [const_record].

Definition reverted_logger : WebAssemblyLogger :=
  set_output_err [222; 173] (Some ErrExecutionReverted) (logger_with 0 []).

Definition reverted_result : WasmExecutionResult.t :=
  WasmExecutionResult.mk 0 true ∅ "dead" [] [] [].

End Props.

Module InterpProps.
Import wasm.

(** The index of the current scope, [in.evm.depth-1]. *)
Definition current_index (i : WASMInterpreter) : nat := Z.to_nat (depth i - 1).

(** A scope of the queue after [Scope] renewed its memory view. *)
Definition refreshed (sc : vm.ScopeContext) : vm.ScopeContext :=
  vm.mkScope (Some (vm.newMemoryFromSlice [] true)) (vm.Stack sc) (vm.Contract_ sc).

(** The remaining gas of the contract of scope [idx]. *)
Definition gas_at (idx : nat) (i : WASMInterpreter) : option Z :=
  (fun sc => vm.Gas (vm.Contract_ sc)) <$> (stateQueue i !! idx).

(** The trace log of the interpreter's tracer. *)
Definition trace_log (i : WASMInterpreter) : list logger.WasmLog.t :=
  match Tracer (config i) with
  | WASMLogger l => logger.logs l
  | _ => []
  end.

(** The GAS record that [CaptureGasState] puts in the place of [lastLog]. *)
Definition gas_record (lastLog : logger.WasmLog.t) (remaining amount depth : Z)
  (err : option error) : logger.WasmLog.t :=
  logger.WasmLog.mk (logger.WasmLog.Pc lastLog) logger.OpCodeFamilyGAS (vm.GasOpCodeInfo 0) []
    remaining amount
    (logger.WasmLog.Memory lastLog) (logger.WasmLog.MemoryOffset lastLog)
    (logger.WasmLog.MemorySize lastLog) (logger.WasmLog.Stack lastLog)
    (Some []) None depth (logger.WasmLog.RefundCounter lastLog) err 0 0.

(** Induction on guests and opcode behaviours together. *)
Scheme guest_mutind := Induction for guest Sort Prop
  with exec_mutind := Induction for exec Sort Prop.
Combined Scheme guest_exec_mutind from guest_mutind, exec_mutind.

(** A computation keeps a relation between the state before and after,
    whether it returns or panics. *)
Definition keeps_at {S A} (R : S -> S -> Prop) (s : S) (m : M S A) : Prop :=
  forall r s', m s = (r, s') -> R s s'.

Definition keeps {S A} (R : S -> S -> Prop) (m : M S A) : Prop :=
  forall s, keeps_at R s m.

(** The EVM bound to a tracer stays at the same call depth. *)
Definition same_env_depth (l l' : logger.WebAssemblyLogger) : Prop :=
  vm.depth (logger.env l') = vm.depth (logger.env l).

(** The call depth and the length of the scope queue are the same. *)
Definition same_shape (i i' : WASMInterpreter) : Prop :=
  depth i' = depth i /\ length (stateQueue i') = length (stateQueue i).

(** The call depth and the scope queue are the same. *)
Definition same_queue (i i' : WASMInterpreter) : Prop :=
  depth i' = depth i /\ stateQueue i' = stateQueue i.

(** A relation on interpreters, read on the frames of a host call. *)
Definition on_frames (R : WASMInterpreter -> WASMInterpreter -> Prop) (f f' : Frame) : Prop :=
  R (interp f) (interp f').

(** A finalizer or input preprocessor that leaves the call depth and the
    scope queue alone. *)
Definition shim_keeps (fn : opCodeResultFn) : Prop :=
  forall input scope, keeps (on_frames same_queue) (fn input scope).

(** An opcode implementation that leaves the call depth and the length of
    the scope queue as they were. *)
Definition execute_keeps (execute : executionFunc) : Prop :=
  forall scope, keeps (on_frames same_shape) (execute scope).

(** Host functions that leave the call depth and the length of the scope
    queue as they were, the opcode shim provided the opcode implementation
    does so. *)
Definition host_keeps (host : hostFunctions) : Prop :=
  (forall params, keeps same_shape (hostGas host params))
  /\ (forall name r paramsCount execute params,
         registered name = Some r ->
         execute_keeps execute ->
         keeps same_shape (hostNative host r paramsCount execute params))
  /\ (forall item, keeps same_shape (hostLogs host item)).

(** The scope queue holds one scope per call depth. *)
Definition queue_matches_depth (i : WASMInterpreter) : Prop :=
  Z.of_nat (length (stateQueue i)) = depth i.

Definition queue_matches_depthb (i : WASMInterpreter) : bool :=
  Z.of_nat (length (stateQueue i)) =? depth i.

(** The relation that C5 states: the queue is one shorter than the depth. *)
Definition queue_one_short (i : WASMInterpreter) : bool :=
  Z.of_nat (length (stateQueue i)) =? depth i - 1.

(** A monitor: the host functions preceded by a check of the interpreter
    state, which panics when the state does not satisfy [P]. *)
Definition assert_state (P : WASMInterpreter -> bool) : M WASMInterpreter unit :=
  fun i =>
    if P i then (Ret tt, i)
    else (Panic (PanicString "monitor: unexpected scope queue"), i).

Definition guarded (P : WASMInterpreter -> bool) (host : hostFunctions) : hostFunctions :=
  mkHost (fun params => assert_state P ;; hostGas host params)
         (fun r paramsCount execute params =>
            assert_state P ;; hostNative host r paramsCount execute params)
         (fun item => assert_state P ;; hostLogs host item).

(** The jump-table entry that [execEvmOp] prices and runs. *)
Definition operation_for (newLondonInstructionSet : Z -> option operation)
  (i : WASMInterpreter) (opcode : Z) : option operation :=
  match JumpTable (config i) opcode with
  | Some op => Some op
  | None => newLondonInstructionSet opcode
  end.

(** Sample values: an interpreter inside [Run] at depth one, whose single
    scope holds a contract with the given remaining gas. *)
Definition sample_engine : WasmEngine :=
  mkEngine [] (zeros 64) [] 0 (inr (mkTraceStruct None [] [])).

Definition sample_operation : operation := mkOperation 2 None None.

Definition sample_frame_scope (gas : Z) : vm.ScopeContext :=
  vm.mkScope None (Some []) (vm.set_Gas gas Props.sample_contract).

Definition sample_interpreter (debug : bool) (l : logger.WebAssemblyLogger) (gas : Z)
  : WASMInterpreter :=
  mkInterpreter Props.sample_evm
    (mkConfig debug (WASMLogger l) (fun _ => Some sample_operation))
    [sample_frame_scope gas] false [] sample_engine.

(** The state in which [Run] starts the engine: the depth incremented,
    the read-only flag and the return data set for this call, the binary
    loaded and the new scope appended to the queue. *)
Definition engine_entry (i : WASMInterpreter) (contract : vm.Contract) (input : list Z)
  (readOnly_ : bool) (code : list Z) : WASMInterpreter :=
  let scope := vm.mkScope None (Some []) (vm.set_Code code (vm.set_Input input contract)) in
  mkInterpreter (vm.set_depth (depth i + 1) (evm i)) (config i)
                (stateQueue i ++ [scope]) readOnly_ []
                (SetWasmBinary code (wasmEngine i)).

(** What the deferred calls of [Run] do to the state [s] the body left:
    the queue is cut back to [depth - 1] scopes, the read-only flag is
    cleared if this call had set it, the depth is decremented. *)
Definition leave (entering : bool) (s : WASMInterpreter) : WASMInterpreter :=
  mkInterpreter (vm.set_depth (depth s - 1) (evm s)) (config s)
                (firstn (Z.to_nat (depth s - 1)) (stateQueue s))
                (if entering then false else readOnly s) (returnData s) (wasmEngine s).

(** The body of [Run] from the call of the engine on. *)
Definition run_engine (W : Z -> option string)
  (engine : M WASMInterpreter (ComputeTraceErrorCode * option error))
  : M WASMInterpreter (list Z * option error) :=
  let* out := recovered engine in
  replayTrace W ;;
  let* i := get in
  ret (returnData i, translate (fst out) (snd out)).

(** The read-only flag is the same. *)
Definition same_readOnly (i i' : WASMInterpreter) : Prop := readOnly i' = readOnly i.

(** The error [Run] returns for an engine return code and an engine
    error, as the amended C2 states it. *)
Definition translated (res : ComputeTraceErrorCode) (err : option error) : option error :=
  match res with
  | ComputeTraceErrorCodeOutOfGas => Some ErrOutOfGas
  | ComputeTraceErrorCodeExecutionReverted => Some ErrExecutionReverted
  | ComputeTraceErrorCodeUnknown => Some ErrExecutionReverted
  | ComputeTraceErrorCodeStopToken => None
  | ComputeTraceErrorCodeOk | ComputeTraceErrorCodeOther _ =>
      match err with
      | Some errStopToken => None
      | _ => err
      end
  end.

(** The state after the finalizer wrote [destLen] bytes for the stack item
    [top] at [destOffset]: the engine received one more memory change. *)
Definition finalized (destLen destOffset top : Z) (f : Frame) : Frame :=
  mkFrame
    (set_wasmEngine
       (TraceMemoryChange (uint32 destOffset) (uint32 (uint64 destLen))
          (left_pad destLen (Bytes top)) (wasmEngine (interp f)))
       (interp f))
    (stack f).



(** The destination lengths of the registration table. *)
Definition destLens : list Z :=
  [AddressDestLen; Uint256DestLen; SizeDestLen; Uint32DestLen; Uint64DestLen; HashDestLen;
   BoolDestLen].

(** An opcode implementation that pushes [v] and reports no error. *)
Definition pushing (v : Z) : executionFunc :=
  apply_effect (fun st c e =>
    mkEffect (st ++ [v]) (vm.Gas c) (vm.GetRefund e) (vm.GetState e) [] [] None).

(** The frame in which [execEvmOp] prices the opcode: the jump table is
    replaced by the London instruction set when it has no entry for the
    opcode. *)
Definition table_loaded (newLondonInstructionSet : Z -> option operation) (opcode : Z)
  (f : Frame) : Frame :=
  match JumpTable (config (interp f)) opcode with
  | Some _ => f
  | None => mkFrame (set_JumpTable newLondonInstructionSet (interp f)) (stack f)
  end.



(** A new interpreter, outside of any call, and a guest that charges 10
    gas and returns. *)
Definition fresh_interpreter (debug : bool) : WASMInterpreter :=
  mkInterpreter (vm.mkEVM 0 false 0 (fun _ _ => 0))
    (mkConfig debug (WASMLogger (Props.logger_with 0 [])) (fun _ => Some sample_operation))
    [] false [] sample_engine.

Definition empty_trace : error + traceStruct := inr (mkTraceStruct None [] []).

Definition charging_guest : guest :=
  CallGas [10] (Exit ComputeTraceErrorCodeOk None empty_trace).

(** A guest that charges more gas than the sample contract holds. *)
Definition hungry_guest : guest :=
  CallGas [1000] (Exit ComputeTraceErrorCodeOk None empty_trace).

Definition london : Z -> option operation := fun _ => Some sample_operation.
Definition no_injection : list Z -> list Z + error := fun code => inl code.
Definition no_names : Z -> option string := fun _ => None.
Definition no_text : error -> string := fun _ => EmptyString.

End InterpProps.


(** ** Vocabulary of the further properties *)

Module TracerCalls.
Import logger.

(** A call of one of the tracer's methods that record something. *)
Inductive call :=
| CallCaptureWasmState (pc : Z) (op : vm.OpCodeInfo) (memory : option vm.MemoryChangeInfo)
    (scope : vm.ScopeContext) (depth drop keep : Z)
| CallCaptureGasState (gasCost : Z) (scope : vm.ScopeContext) (depth : Z) (err : option error)
| CallCaptureState (pc op gas cost : Z) (scope : vm.ScopeContext) (rData : list Z)
    (depth : Z) (err : option error)
| CallCaptureGlobalVariable (index : Z) (op : option vm.OpCodeInfo) (value : Z)
| CallCaptureGlobalMemoryState (globalMemory : gmap Z (list Z))
| CallCaptureWasmFunctionCall (fnIndex maxStackHeight numLocals : Z) (fnName : string)
| CallCaptureEnd (output : list Z) (err : option error)
| CallCaptureTxStart (gasLimit : Z)
| CallCaptureTxEnd (restGas : Z).

Definition perform (W : Z -> option string) (c : call) : M WebAssemblyLogger unit :=
  match c with
  | CallCaptureWasmState pc op memory scope depth drop keep =>
      CaptureWasmState pc op memory scope depth drop keep
  | CallCaptureGasState gasCost scope depth err => CaptureGasState gasCost scope depth err
  | CallCaptureState pc op gas cost scope rData depth err =>
      CaptureState pc op gas cost scope rData depth err
  | CallCaptureGlobalVariable index op value => CaptureGlobalVariable W index op value
  | CallCaptureGlobalMemoryState globalMemory => CaptureGlobalMemoryState globalMemory
  | CallCaptureWasmFunctionCall fnIndex maxStackHeight numLocals fnName =>
      CaptureWasmFunctionCall fnIndex maxStackHeight numLocals fnName
  | CallCaptureEnd output err => CaptureEnd output err
  | CallCaptureTxStart gasLimit => CaptureTxStart gasLimit
  | CallCaptureTxEnd restGas => CaptureTxEnd restGas
  end.

(** The calls made one after the other on one tracer. A call that panics
    leaves the tracer as it was at the panic, and the caller, having
    recovered, goes on with the next call. *)
Fixpoint perform_all (W : Z -> option string) (cs : list call) (l : WebAssemblyLogger)
  : WebAssemblyLogger :=
  match cs with
  | [] => l
  | c :: rest => perform_all W rest (snd (perform W c l))
  end.

(** A record of one of the three families the formatter knows. *)
Definition known_family (r : WasmLog.t) : Prop :=
  WasmLog.OpFamily r <> OpCodeFamilyUnknown.

(** What the formatter keeps of a record. *)
Definition formats (res : WasmLogRes.t) (r : WasmLog.t) : Prop :=
  WasmLogRes.Pc res = WasmLog.Pc r
  /\ WasmLogRes.OpFamily res = OpCodeFamily_String (WasmLog.OpFamily r)
  /\ WasmLogRes.Gas res = WasmLog.Gas r
  /\ WasmLogRes.GasCost res = WasmLog.GasCost r
  /\ WasmLogRes.Depth res = WasmLog.Depth r
  /\ WasmLogRes.RefundCounter res = WasmLog.RefundCounter r
  /\ WasmLogRes.Drop res = WasmLog.Drop r.

(** The state of a tracer that was not stopped: its records are of known
    families and, with a positive limit, no more than the limit. *)
Definition sound (l : WebAssemblyLogger) : Prop :=
  reason l = None
  /\ Forall known_family (logs l)
  /\ (0 < Limit (cfg l) -> Z.of_nat (length (logs l)) <= Limit (cfg l)).

(** Sample calls: two traced instructions on a tracer with room for one. *)
Definition sample_calls : list call :=
  [ CallCaptureWasmState 0 (vm.WasmOp (vm.mkWasmOpcodeInfo 1 65 "i32.const" [7])) None
      Props.sample_scope 1 0 0;
    CallCaptureWasmState 1 (vm.WasmOp (vm.mkWasmOpcodeInfo 2 16 "call" [3])) None
      Props.sample_scope 1 0 0;
    CallCaptureGasState 5 Props.sample_scope 1 None ].

End TracerCalls.

Module StorageProps.
Import logger.

(** The slots the tracer has recorded for the contract of [scope]. *)
Definition recorded (l : WebAssemblyLogger) (scope : vm.ScopeContext) : gmap Z Z :=
  default ∅ (storage l !! vm.Address (vm.Contract_ scope)).

(** A 256-bit stack word as the storage key or value it stands for. *)
Definition word (x : Z) : Z := x mod 2 ^ 256.

(** A tracer that is not interrupted, has room for records and holds a
    WASM [call] record as its last record. *)
Definition awaits_opcode (l : WebAssemblyLogger) (pre : list WasmLog.t) (lastLog : WasmLog.t)
  : Prop :=
  (0 <? interrupt l) = false
  /\ limit_reached l = false
  /\ logs l = pre ++ [lastLog]
  /\ is_wasm_call lastLog = true.

End StorageProps.

Module OpcodeTraceProps.
Import wasm InterpProps.

(** An implementation of SLOAD as the EVM has it: the slot on top of the
    stack is replaced by the value the state holds for it. *)
Definition loading : executionFunc :=
  apply_effect (fun st c e =>
    mkEffect (removelast st ++ [vm.GetState e (vm.Address c) (List.last st 0)])
             (vm.Gas c) (vm.GetRefund e) (vm.GetState e) [] [] None).

(** The sample interpreter in debug mode, with a state that holds the
    value 9 in slot 3 and zero elsewhere. *)
Definition storage_interpreter : WASMInterpreter :=
  set_evm (vm.mkEVM 1 false 0 (fun _ slot => if slot =? 3 then 9 else 0))
          (sample_interpreter true Props.sample_logger 100).

End OpcodeTraceProps.

Module DriverProps.
Import wasm InterpProps.

(** The state in which [Run] leaves the interpreter when it gives up
    before the engine is started: the return data is reset, and the
    read-only flag is the one given, unless this call had set it. *)
Definition refused (readOnly_ : bool) (i : WASMInterpreter) : WASMInterpreter :=
  set_readOnly (readOnly_ && readOnly i) (set_returnData [] i).

(** The code [Run] hands to the engine: the injected code at deployment
    (empty input), the contract's code otherwise. *)
Definition checked_code (inject : list Z -> list Z + error) (contract : vm.Contract)
  (input : list Z) : list Z + error :=
  if (length input =? 0)%nat then inject (vm.Code contract) else inl (vm.Code contract).

(** The message of the panic of [Run] for a tracer that is not a
    [WASMLogger]. *)
Definition tracer_message (i : WASMInterpreter) : string :=
  if Debug (config i) && match Tracer (config i) with NilTracer => true | _ => false end
  then "tracer must be configured in debug mode"
  else "tracer must implement [WASMLogger] in this mode".

(** Every entry of the dumped global memory holds hexadecimal text. *)
Definition decodable (trace : traceStruct) : Prop :=
  match ts_GlobalMemory trace with
  | Some entries => Forall (fun gm => tm_Data gm <> None) entries
  | None => True
  end.

(** Sample values: a dump that lists one global variable, and a guest
    that ends with it; an injector that rejects every module. *)
Definition global_trace : error + traceStruct :=
  inr (mkTraceStruct None [mkGlobalVariable 0 7] []).

Definition rejecting : list Z -> list Z + error := fun _ => inr (Errorf "bad module").

End DriverProps.

Module ShimProps.
Import wasm InterpProps.

(** The bytes the memory interceptor reads at [offset]. *)
Definition memory_span (offset size : Z) (f : Frame) : list Z :=
  firstn (Z.to_nat size) (skipn (Z.to_nat offset) (memoryData (wasmEngine (interp f)))).

(** The size read for a field type. *)
Definition field_size (fieldType : FieldType) : Z :=
  match fieldType with
  | AddressFieldType => AddressDestLen
  | Uint256FieldType => Uint256DestLen
  | UnknownFieldType => 0
  end.

(** A finalizer or input preprocessor that does not return an error on
    [n] parameters and a stack of [n] items. *)
Definition accepts (fn : opCodeResultFn) (n : Z) : Prop :=
  forall input scope f e f',
    Z.of_nat (length input) = n -> Z.of_nat (length (stack f)) = n ->
    fn input scope f <> (Ret (Some e), f').

(** A registration whose opcode has a declared number of parameters that
    its input preprocessors and its finalizer accept. *)
Definition well_registered (r : registration) : Prop :=
  exists n,
    paramsCount_of (opcode_ r) = Some n
    /\ 0 <= n
    /\ Forall (fun pre => accepts pre n) (inputPreprocessors_ r)
    /\ (forall fin, finalizer_ r = Some fin -> accepts fin n).

(** A sample frame: an interpreter whose engine memory holds 40 bytes,
    the bytes 1 and 2 at the offsets 38 and 39. *)
Definition sample_memory_frame (st : list Z) : Frame :=
  mkFrame
    (set_wasmEngine (mkEngine [] (zeros 38 ++ [1; 2]) [] 0 (inr (mkTraceStruct None [] [])))
       (sample_interpreter false Props.sample_logger 100))
    st.

End ShimProps.

Module QueueProps.
Import wasm InterpProps.

(** The first [n] scopes of the queue are the same. *)
Definition callers_kept (n : nat) (i i' : WASMInterpreter) : Prop :=
  firstn n (stateQueue i') = firstn n (stateQueue i).

(** The scope queue is the same. *)
Definition queue_kept (i i' : WASMInterpreter) : Prop := stateQueue i' = stateQueue i.

(** The scopes below index [n] are scopes of callers of the running
    call, whose scope is at index [depth - 1]. *)
Definition below_current (n : nat) (i : WASMInterpreter) : Prop :=
  Z.of_nat n <= depth i - 1.

(** A guest that charges gas, calls an opcode that re-enters [Run] for a
    nested guest charging gas, and returns. *)
Definition nesting_guest : guest :=
  CallGas [10]
    (CallNative "_evm_call" [1; 2; 3; 4; 5; 6; 7; 8]
       (Enter Props.sample_contract [1] false charging_guest
          (Done (fun st c e =>
                   mkEffect (st ++ [1]) (vm.Gas c) (vm.GetRefund e) (vm.GetState e)
                            [] [] None)))
       (Exit ComputeTraceErrorCodeOk None empty_trace)).

End QueueProps.

Module LogsProps.
Import wasm InterpProps.

(** A trace item with another value in its [pc] field. *)
Definition with_Pc (p : Z) (l : traceLog) : traceLog :=
  mkTraceLog p (tl_SourcePc l) (tl_Opcode l) (tl_Name l) (tl_StackDrop l) (tl_StackKeep l)
             (tl_Params l) (tl_MemoryChanges l) (tl_Stack l).

(** The memory change of a trace item that lists at most one. *)
Definition item_change (l : traceLog) : option vm.MemoryChangeInfo :=
  match tl_MemoryChanges l with
  | [change] => option_map (vm.mkMemoryChange (tm_Offset change)) (tm_Data change)
  | _ => None
  end.

(** A trace item of a [call] with one memory change and two stack items. *)
Definition sample_item : traceLog :=
  mkTraceLog 3 9 Op_call "call" 1 2 [6] [mkTraceMemory 4 2 (Some [170; 187])] [10; 11].

End LogsProps.
(** * Properties *)

(** ** Slices *)

Lemma last_item_snoc {A} (pre : list A) (x : A) : last_item (pre ++ [x]) = Some x.
Proof. unfold last_item. now rewrite rev_unit. Qed.

Lemma last_item_nil_inv {A} (l : list A) : last_item l = None -> l = [].
Proof.
  unfold last_item. intros H.
  destruct (rev l) eqn:E; [|discriminate].
  apply (f_equal (@rev A)) in E. now rewrite rev_involutive in E.
Qed.

Lemma last_item_snoc_inv {A} (l : list A) (x : A) :
  last_item l = Some x -> exists pre, l = pre ++ [x].
Proof.
  unfold last_item. intros H.
  destruct (rev l) as [|y ys] eqn:E; [discriminate|].
  injection H as ->.
  exists (rev ys).
  apply (f_equal (@rev A)) in E. rewrite rev_involutive in E. now rewrite E.
Qed.

Lemma removelast_snoc {A} (pre : list A) (x : A) : removelast (pre ++ [x]) = pre.
Proof. apply removelast_last. Qed.

(** ** The tracer *)

Ltac run := unfold Go.bind, Go.ret, Go.get, Go.gets, Go.put, Go.modify, Go.panic,
                   Go.when, logger.cancel in *; cbn [fst snd] in *.

Section TracerFacts.
Import logger Props.

Lemma is_wasm_call_spec (r : WasmLog.t) :
  is_wasm_call r = true <->
  WasmLog.OpFamily r = OpCodeFamilyWASM /\ vm.Code_ (WasmLog.Op r) = Op_call.
Proof.
  unfold is_wasm_call. rewrite andb_true_iff, bool_decide_eq_true, Z.eqb_eq. tauto.
Qed.

Lemma CaptureGasState_replaces (l : WebAssemblyLogger) pre lastLog gasCost scope depth err :
  (0 <? interrupt l) = false ->
  logs l = pre ++ [lastLog] ->
  is_wasm_call lastLog = true ->
  CaptureGasState gasCost scope depth err l =
    (Ret tt,
     set_logs (pre ++ [WasmLog.mk (WasmLog.Pc lastLog) OpCodeFamilyGAS (vm.GasOpCodeInfo 0) []
                         (vm.Gas (vm.Contract_ scope)) gasCost
                         (WasmLog.Memory lastLog) (WasmLog.MemoryOffset lastLog)
                         (WasmLog.MemorySize lastLog) (WasmLog.Stack lastLog)
                         (Some []) None depth (WasmLog.RefundCounter lastLog) err 0 0]) l).
Proof.
  intros Hi Hl Hc. unfold CaptureGasState. run.
  rewrite Hi, Hl, last_item_snoc, Hc, removelast_snoc. reflexivity.
Qed.

Lemma CaptureGasState_corrupted (l : WebAssemblyLogger) gasCost scope depth err :
  (0 <? interrupt l) = false ->
  corrupted l ->
  exists p, CaptureGasState gasCost scope depth err l = (Panic p, l).
Proof.
  intros Hi Hc. unfold CaptureGasState, corrupted in *. run. rewrite Hi.
  destruct (last_item (logs l)) as [lastLog|]; [rewrite Hc|]; eauto.
Qed.

Lemma capture_storage_logs op contract stackData (l : WebAssemblyLogger) :
  exists st l',
    capture_storage op contract stackData l = (Ret st, l')
    /\ logs l' = logs l /\ env l' = env l /\ cfg l' = cfg l /\ interrupt l' = interrupt l.
Proof.
  unfold capture_storage. run.
  repeat match goal with
         | |- context [if ?b then _ else _] => destruct b
         end; eauto 10.
Qed.

Lemma CaptureState_replaces (l : WebAssemblyLogger) pre lastLog pc op gas cost scope
      stackData rData depth err :
  (0 <? interrupt l) = false ->
  limit_reached l = false ->
  vm.Stack scope = Some stackData ->
  (EnableMemory (cfg l) = true -> vm.Memory_ scope <> None) ->
  logs l = pre ++ [lastLog] ->
  is_wasm_call lastLog = true ->
  exists storage l',
    CaptureState pc op gas cost scope rData depth err l = (Ret tt, l')
    /\ logs l' =
         pre ++ [WasmLog.mk (WasmLog.Pc lastLog) OpCodeFamilyEVM (vm.EvmOpCodeInfo op) []
                   gas cost
                   (WasmLog.Memory lastLog) (WasmLog.MemoryOffset lastLog)
                   (WasmLog.MemorySize lastLog) (WasmLog.Stack lastLog)
                   (if EnableReturnData (cfg l) then Some rData else None)
                   storage depth (vm.GetRefund (env l)) err 0 0].
Proof.
  intros Hi Hlim Hs Hm Hl Hc. unfold CaptureState. run.
  rewrite Hi, Hlim, Hs.
  destruct (capture_storage_logs op (vm.Contract_ scope) stackData l)
    as (st & l' & E & Hlogs & Henv & _).
  destruct (EnableMemory (cfg l)) eqn:EM;
    [destruct (vm.Memory_ scope) eqn:MM; [|exfalso; now apply Hm]|];
    rewrite E, Hlogs, Hl, last_item_snoc, Hc, removelast_snoc; cbn;
    exists st; eexists; (split; [reflexivity|]); cbn; now rewrite Henv.
Qed.

Lemma CaptureState_corrupted (l : WebAssemblyLogger) pc op gas cost scope
      stackData rData depth err :
  (0 <? interrupt l) = false ->
  limit_reached l = false ->
  vm.Stack scope = Some stackData ->
  (EnableMemory (cfg l) = true -> vm.Memory_ scope <> None) ->
  corrupted l ->
  exists l',
    CaptureState pc op gas cost scope rData depth err l
      = (Panic (PanicString "trace order is corrupted"), l')
    /\ logs l' = logs l.
Proof.
  intros Hi Hlim Hs Hm Hc. unfold CaptureState, corrupted in *. run.
  rewrite Hi, Hlim, Hs.
  destruct (capture_storage_logs op (vm.Contract_ scope) stackData l)
    as (st & l' & E & Hlogs & _).
  destruct (EnableMemory (cfg l)) eqn:EM;
    [destruct (vm.Memory_ scope) eqn:MM; [|exfalso; now apply Hm]|];
    rewrite E, Hlogs;
    (destruct (last_item (logs l)) as [lastLog|]; [rewrite Hc|]); cbn; eauto.
Qed.

(** At the limit, [CaptureWasmState] and [CaptureState] drop the capture. *)
Lemma CaptureWasmState_at_limit (l : WebAssemblyLogger) pc op memory scope depth drop keep :
  (0 <? interrupt l) = false ->
  limit_reached l = true ->
  CaptureWasmState pc op memory scope depth drop keep l = (Ret tt, l).
Proof. intros Hi Hlim. unfold CaptureWasmState. run. now rewrite Hi, Hlim. Qed.

Lemma CaptureState_at_limit (l : WebAssemblyLogger) pc op gas cost scope rData depth err :
  (0 <? interrupt l) = false ->
  limit_reached l = true ->
  CaptureState pc op gas cost scope rData depth err l = (Ret tt, l).
Proof. intros Hi Hlim. unfold CaptureState. run. now rewrite Hi, Hlim. Qed.

(** An interrupted tracer cancels the EVM and records nothing. *)
Lemma CaptureGasState_interrupted (l : WebAssemblyLogger) gasCost scope depth err :
  (0 <? interrupt l) = true ->
  CaptureGasState gasCost scope depth err l = (Ret tt, set_env (vm.Cancel (env l)) l).
Proof. intros Hi. unfold CaptureGasState. run. now rewrite Hi. Qed.

(** C4 (amended). When the tracer is not interrupted and the record limit
    is not reached, [CaptureGasState] and [CaptureState] replace the last
    record of the trace log in place: by a GAS-family record whose
    [GasCost] is the charged amount, respectively by an EVM-family record,
    each inheriting the program counter, memory and stack fields of the
    WASM [call] record it replaces; the records before it stay. If there
    is no last record or it is not a WASM-family record whose opcode is
    [call], the capture panics. *)
Theorem capture_replaces_last_record (l : WebAssemblyLogger) :
  (0 <? interrupt l) = false ->
  limit_reached l = false ->
  (forall gasCost scope depth err,
      (forall pre lastLog,
          logs l = pre ++ [lastLog] ->
          WasmLog.OpFamily lastLog = OpCodeFamilyWASM ->
          vm.Code_ (WasmLog.Op lastLog) = Op_call ->
          exists rec l',
            CaptureGasState gasCost scope depth err l = (Ret tt, l')
            /\ logs l' = pre ++ [rec]
            /\ WasmLog.OpFamily rec = OpCodeFamilyGAS
            /\ WasmLog.GasCost rec = gasCost
            /\ inherits rec lastLog)
      /\ (corrupted l ->
          exists p l', CaptureGasState gasCost scope depth err l = (Panic p, l')
                       /\ logs l' = logs l))
  /\
  (forall pc op gas cost scope stackData rData depth err,
      vm.Stack scope = Some stackData ->
      (EnableMemory (cfg l) = true -> vm.Memory_ scope <> None) ->
      (forall pre lastLog,
          logs l = pre ++ [lastLog] ->
          WasmLog.OpFamily lastLog = OpCodeFamilyWASM ->
          vm.Code_ (WasmLog.Op lastLog) = Op_call ->
          exists rec l',
            CaptureState pc op gas cost scope rData depth err l = (Ret tt, l')
            /\ logs l' = pre ++ [rec]
            /\ WasmLog.OpFamily rec = OpCodeFamilyEVM
            /\ inherits rec lastLog)
      /\ (corrupted l ->
          exists p l', CaptureState pc op gas cost scope rData depth err l = (Panic p, l')
                       /\ logs l' = logs l)).
Proof.
  intros Hi Hlim. split.
  - intros gasCost scope depth err. split.
    + intros pre lastLog Hl Hf Hc.
      assert (Hw : is_wasm_call lastLog = true) by (apply is_wasm_call_spec; auto).
      eexists. eexists. split.
      * apply CaptureGasState_replaces; eauto.
      * cbn. unfold inherits. cbn. auto 10.
    + intros Hc. destruct (CaptureGasState_corrupted l gasCost scope depth err Hi Hc) as [p E].
      eauto.
  - intros pc op gas cost scope stackData rData depth err Hs Hm. split.
    + intros pre lastLog Hl Hf Hc.
      assert (Hw : is_wasm_call lastLog = true) by (apply is_wasm_call_spec; auto).
      destruct (CaptureState_replaces l pre lastLog pc op gas cost scope stackData rData
                  depth err Hi Hlim Hs Hm Hl Hw) as (st & l' & E & Hlogs).
      eexists. exists l'. split; [exact E|]. split; [exact Hlogs|].
      cbn. unfold inherits. cbn. auto 10.
    + intros Hc.
      destruct (CaptureState_corrupted l pc op gas cost scope stackData rData depth err
                  Hi Hlim Hs Hm Hc) as (l' & E & Hlogs).
      eauto.
Qed.

(** The amended C4 at a tracer whose only record is a WASM [call] record. *)
Lemma capture_replaces_last_record_witness :
  (forall gasCost scope depth err,
      (forall pre lastLog,
          logs sample_logger = pre ++ [lastLog] ->
          WasmLog.OpFamily lastLog = OpCodeFamilyWASM ->
          vm.Code_ (WasmLog.Op lastLog) = Op_call ->
          exists rec l',
            CaptureGasState gasCost scope depth err sample_logger = (Ret tt, l')
            /\ logs l' = pre ++ [rec]
            /\ WasmLog.OpFamily rec = OpCodeFamilyGAS
            /\ WasmLog.GasCost rec = gasCost
            /\ inherits rec lastLog)
      /\ (corrupted sample_logger ->
          exists p l', CaptureGasState gasCost scope depth err sample_logger = (Panic p, l')
                       /\ logs l' = logs sample_logger))
  /\
  (forall pc op gas cost scope stackData rData depth err,
      vm.Stack scope = Some stackData ->
      (EnableMemory (cfg sample_logger) = true -> vm.Memory_ scope <> None) ->
      (forall pre lastLog,
          logs sample_logger = pre ++ [lastLog] ->
          WasmLog.OpFamily lastLog = OpCodeFamilyWASM ->
          vm.Code_ (WasmLog.Op lastLog) = Op_call ->
          exists rec l',
            CaptureState pc op gas cost scope rData depth err sample_logger = (Ret tt, l')
            /\ logs l' = pre ++ [rec]
            /\ WasmLog.OpFamily rec = OpCodeFamilyEVM
            /\ inherits rec lastLog)
      /\ (corrupted sample_logger ->
          exists p l', CaptureState pc op gas cost scope rData depth err sample_logger
                         = (Panic p, l')
                       /\ logs l' = logs sample_logger)).
Proof.
  apply (capture_replaces_last_record sample_logger); reflexivity.
Defined.

(** C4, as stated, fails: a tracer whose limit of one record is reached
    holds the WASM [call] record of a host call; [CaptureState] returns
    and the record is still the WASM record. *)
Lemma capture_state_keeps_record_at_limit :
  is_wasm_call call_record = true
  /\ CaptureState MaxUint64_ 66 100 2 sample_scope [] 1 None limited_logger
     = (Ret tt, limited_logger)
  /\ logs limited_logger = [call_record]
  /\ WasmLog.OpFamily call_record = OpCodeFamilyWASM.
Proof. repeat split; reflexivity. Qed.

(** C8. With a limit of one record reached, [CaptureGasState] does not
    drop the capture: it rewrites the last record when that is a WASM
    [call] record, and panics when it is any other record. *)
Theorem capture_gas_state_ignores_limit :
  limit_reached limited_logger = true
  /\ limit_reached limited_logger_const = true
  /\ (exists rec,
        CaptureGasState 5 sample_scope 1 None limited_logger
          = (Ret tt, set_logs [rec] limited_logger)
        /\ WasmLog.OpFamily rec = OpCodeFamilyGAS
        /\ rec <> call_record)
  /\ CaptureGasState 5 sample_scope 1 None limited_logger_const
     = (Panic (PanicString "trace order is corrupted"), limited_logger_const).
Proof.
  repeat split.
  eexists. split; [cbv; reflexivity|]. split; [reflexivity|]. discriminate.
Qed.

(** *** The result formatter *)

Lemma FormatWasmLogs_returns W O E (records : list WasmLog.t) :
  Forall (fun r => WasmLog.OpFamily r <> OpCodeFamilyUnknown) records ->
  exists rs, FormatWasmLogs W O E records tt = (Ret rs, tt).
Proof.
  induction 1 as [|r records Hr _ IH]; cbn.
  - eexists. reflexivity.
  - destruct IH as [rs IH]. run. unfold format_log, OpName.
    destruct (WasmLog.OpFamily r) eqn:F; try congruence;
      try destruct (W (vm.Code_ (WasmLog.Op r))); run; rewrite IH; eexists; reflexivity.
Qed.

(** C7. For a tracer that was not stopped and whose records are of the
    three known families, [GetResult] returns a formatted execution
    result, and in it [returnValue] is the hex encoding of the captured
    output when the run succeeded or failed with [ErrExecutionReverted],
    and the empty string when the run failed with any other error. *)
Theorem returnValue_of_GetResult W O E (l : WebAssemblyLogger) :
  reason l = None ->
  Forall (fun r => WasmLog.OpFamily r <> OpCodeFamilyUnknown) (logs l) ->
  exists r : WasmExecutionResult.t,
    GetResult W O E l tt = (Ret (inl r), tt)
    /\ WasmExecutionResult.Failed r = bool_decide (err l <> None)
    /\ ((err l = None \/ err l = Some ErrExecutionReverted) ->
        WasmExecutionResult.ReturnValue r = hex (output l))
    /\ (forall e, err l = Some e -> e <> ErrExecutionReverted ->
        WasmExecutionResult.ReturnValue r = EmptyString).
Proof.
  intros Hr Hl. unfold GetResult. rewrite Hr. run.
  destruct (FormatWasmLogs_returns W O E _ Hl) as [rs E']. unfold WasmLogs. rewrite E'.
  eexists. split; [reflexivity|]. cbn. split; [reflexivity|]. split.
  - intros [E0|E0]; rewrite E0; reflexivity.
  - intros e E0 Hne. rewrite E0.
    rewrite (bool_decide_eq_true_2 (Some e <> None)) by congruence.
    rewrite (bool_decide_eq_true_2 (Some e <> Some ErrExecutionReverted)) by congruence.
    reflexivity.
Qed.

(** C7 on a run that reverted with output [de ad]: the result is
    returned, it reports the failure and its [returnValue] is the text
    dead. *)
Lemma returnValue_of_GetResult_witness :
  GetResult (fun _ => None) (fun _ => EmptyString) (fun _ => EmptyString)
            reverted_logger tt = (Ret (inl reverted_result), tt)
  /\ WasmExecutionResult.Failed reverted_result = true
  /\ WasmExecutionResult.ReturnValue reverted_result = hex (output reverted_logger)
  /\ WasmExecutionResult.ReturnValue reverted_result = "dead"%string.
Proof.
  destruct (returnValue_of_GetResult (fun _ => None) (fun _ => EmptyString)
              (fun _ => EmptyString) reverted_logger)
    as (r & Hres & Hfailed & Hhex & _).
  - reflexivity.
  - constructor.
  - assert (Hr : r = reverted_result) by (cbv in Hres; injection Hres as <-; reflexivity).
    subst r. split; [exact Hres|]. split; [exact Hfailed|].
    split; [apply Hhex; right; reflexivity | reflexivity].
Defined.
End TracerFacts.

(** ** The gas meter *)

Lemma uint64_int64 (u : Z) : uint64 (wasm.int64 u) = uint64 u.
Proof.
  unfold uint64, wasm.int64.
  rewrite Zminus_mod_idemp_l. f_equal. lia.
Qed.

Lemma gasSpend_is_uint64 (v : Z) : uint64 (wasm.int64 (uint64 v)) = v mod 2 ^ 64.
Proof. rewrite uint64_int64. unfold uint64. apply Zmod_mod. Qed.

Section GasMeter.
Import wasm InterpProps.

Lemma Scope_current (i : WASMInterpreter) (sc : vm.ScopeContext) :
  1 <= depth i ->
  stateQueue i !! current_index i = Some sc ->
  Scope i = (Ret (current_index i),
             set_stateQueue (<[current_index i := refreshed sc]> (stateQueue i)) i).
Proof.
  intros Hd Hsc. unfold Scope. run.
  pose proof (lookup_lt_Some _ _ _ Hsc) as Hlt. unfold current_index in *.
  destruct (Z.leb_spec (Z.of_nat (length (stateQueue i))) (depth i - 1)); [lia|].
  destruct (Z.ltb_spec (depth i - 1) 0); [lia|].
  rewrite Hsc. reflexivity.
Qed.

Lemma contract_at_refreshed (i : WASMInterpreter) idx sc :
  stateQueue i !! idx = Some sc ->
  contract_at idx (set_stateQueue (<[idx := refreshed sc]> (stateQueue i)) i)
  = (Ret (vm.Contract_ sc),
     set_stateQueue (<[idx := refreshed sc]> (stateQueue i)) i).
Proof.
  intros Hsc. unfold contract_at. run. cbn.
  rewrite list_lookup_insert_eq by (eapply lookup_lt_Some; eauto). reflexivity.
Qed.

Lemma UseGas_at_current (i : WASMInterpreter) idx sc gas :
  stateQueue i !! idx = Some sc ->
  UseGas_at idx gas i =
    (Ret (negb (vm.Gas (vm.Contract_ sc) <? gas)),
     if vm.Gas (vm.Contract_ sc) <? gas
     then set_stateQueue (<[idx := sc]> (stateQueue i)) i
     else set_stateQueue
            (<[idx := vm.mkScope (vm.Memory_ sc) (vm.Stack sc)
                        (vm.set_Gas (vm.Gas (vm.Contract_ sc) - gas) (vm.Contract_ sc))]>
               (stateQueue i)) i).
Proof.
  intros Hsc. unfold UseGas_at. run. rewrite Hsc. unfold vm.UseGas.
  destruct (vm.Gas (vm.Contract_ sc) <? gas); cbn; [|reflexivity].
  now destruct sc.
Qed.

(** C1 (amended). In debug mode, with a tracer that is not interrupted,
    has not reached its record limit and holds the WASM [call] record of
    this host call as its last record: for every invocation of [env.gas]
    with one i64 argument [v], the charged amount is [v mod 2^64]; if the
    contract's remaining gas is strictly less than the amount, the last
    record becomes a GAS record carrying the out-of-gas error, the OutOfGas
    code is returned to the engine and the remaining gas is unchanged;
    otherwise the last record becomes a GAS record without error, the
    amount is subtracted from the remaining gas and Ok is returned. *)
Theorem gas_charge_in_debug_mode (i : WASMInterpreter) (l : logger.WebAssemblyLogger)
        (v : Z) (pre : list logger.WasmLog.t) (lastLog : logger.WasmLog.t)
        (sc : vm.ScopeContext) :
  Debug (config i) = true ->
  Tracer (config i) = WASMLogger l ->
  (0 <? logger.interrupt l) = false ->
  logger.limit_reached l = false ->
  logger.logs l = pre ++ [lastLog] ->
  logger.is_wasm_call lastLog = true ->
  1 <= depth i ->
  stateQueue i !! current_index i = Some sc ->
  let amount := v mod 2 ^ 64 in
  let remaining := vm.Gas (vm.Contract_ sc) in
  exists i',
    gasCheck [v] i
    = (Ret (if remaining <? amount
            then ComputeTraceErrorCodeOutOfGas else ComputeTraceErrorCodeOk), i')
    /\ trace_log i'
       = pre ++ [gas_record lastLog remaining amount (depth i)
                   (if remaining <? amount then Some ErrOutOfGas else None)]
    /\ gas_at (current_index i) i'
       = Some (if remaining <? amount then remaining else remaining - amount).
Proof.
  intros HD HT Hi _ Hl Hc Hd Hsc amount remaining.
  pose proof (lookup_lt_Some _ _ _ Hsc) as Hlt.
  unfold gasCheck. run.
  rewrite (Scope_current i sc Hd Hsc). cbn [config set_stateQueue].
  rewrite HD. rewrite (contract_at_refreshed i _ sc Hsc). cbn [config set_stateQueue].
  rewrite HT. rewrite gasSpend_is_uint64. fold amount. fold remaining.
  unfold on_tracer.
  destruct (remaining <? amount) eqn:Hlow.
  - erewrite CaptureGasState_replaces; [| exact Hi | exact Hl | exact Hc ].
    eexists. split; [reflexivity|]. split.
    + reflexivity.
    + unfold gas_at. cbn. rewrite list_lookup_insert_eq by exact Hlt. reflexivity.
  - erewrite CaptureGasState_replaces; [| exact Hi | exact Hl | exact Hc ].
    cbn [fst snd].
    erewrite UseGas_at_current
      by (cbn; apply list_lookup_insert_eq; exact Hlt).
    cbn [refreshed vm.Contract_ vm.Memory_ vm.Stack]. fold remaining. rewrite Hlow.
    eexists. split; [reflexivity|]. split.
    + reflexivity.
    + unfold gas_at. cbn. rewrite list_lookup_insert_eq
        by (rewrite length_insert; exact Hlt).
      reflexivity.
Qed.

(** The amended C1 at a charge of 30 against 100 remaining gas. *)
Lemma gas_charge_in_debug_mode_witness :
  exists i',
    gasCheck [30] (sample_interpreter true Props.sample_logger 100)
    = (Ret ComputeTraceErrorCodeOk, i')
    /\ trace_log i' = [gas_record Props.call_record 100 30 1 None]
    /\ gas_at 0 i' = Some 70.
Proof.
  exact (gas_charge_in_debug_mode (sample_interpreter true Props.sample_logger 100)
           Props.sample_logger 30 [] Props.call_record (sample_frame_scope 100)
           eq_refl eq_refl eq_refl eq_refl eq_refl eq_refl ltac:(cbn; lia) eq_refl).
Defined.

(** C1, as stated, fails outside debug mode: with 5 gas left, a charge of
    10 panics with [ErrOutOfGas] instead of returning the OutOfGas code,
    and no GAS record is written; with 100 gas left the charge succeeds
    and the trace log still holds the WASM record only. *)
Lemma gas_charge_without_debug :
  (exists i',
      gasCheck [10] (sample_interpreter false Props.sample_logger 5)
      = (Panic (PanicError ErrOutOfGas), i')
      /\ trace_log i' = [Props.call_record]
      /\ gas_at 0 i' = Some 5)
  /\ (exists i',
      gasCheck [10] (sample_interpreter false Props.sample_logger 100)
      = (Ret ComputeTraceErrorCodeOk, i')
      /\ trace_log i' = [Props.call_record]
      /\ gas_at 0 i' = Some 90).
Proof. split; eexists; (split; [cbv; reflexivity|]); split; reflexivity. Qed.


Lemma Scope_inv (i : WASMInterpreter) idx i' :
  Scope i = (Ret idx, i') ->
  exists sc, idx = current_index i /\ 1 <= depth i
             /\ stateQueue i !! idx = Some sc
             /\ i' = set_stateQueue (<[idx := refreshed sc]> (stateQueue i)) i.
Proof.
  unfold Scope. run. intros H.
  destruct (Z.leb_spec (Z.of_nat (length (stateQueue i))) (depth i - 1)); [discriminate|].
  destruct (Z.ltb_spec (depth i - 1) 0); [discriminate|].
  fold (current_index i) in H.
  destruct (stateQueue i !! current_index i) as [sc|] eqn:E; [|discriminate].
  injection H as <- <-. exists sc. repeat split; auto. lia.
Qed.

End GasMeter.

(** ** Frame rules of the state-and-panic monad *)

Section Keeps.
Import InterpProps.
Context {S : Type} (R : S -> S -> Prop) `{!PreOrder R}.

Lemma keeps_at_ret {A} s (a : A) : keeps_at R s (Go.ret a).
Proof. intros r s' [= <- <-]. reflexivity. Qed.

Lemma keeps_at_panic {A} s p : keeps_at R s (@Go.panic S A p).
Proof. intros r s' [= <- <-]. reflexivity. Qed.

Lemma keeps_at_get s : keeps_at R s (@Go.get S).
Proof. intros r s' [= <- <-]. reflexivity. Qed.

Lemma keeps_at_put s s1 : R s s1 -> keeps_at R s (Go.put s1).
Proof. intros H r s' [= <- <-]. exact H. Qed.

Lemma keeps_at_modify s (f : S -> S) : R s (f s) -> keeps_at R s (Go.modify f).
Proof. intros Hf r s' [= <- <-]. apply Hf. Qed.

Lemma keeps_at_bind {A B} s (m : M S A) (k : A -> M S B) :
  keeps_at R s m ->
  (forall a s1, m s = (Ret a, s1) -> keeps_at R s1 (k a)) ->
  keeps_at R s (Go.bind m k).
Proof.
  intros Hm Hk r s'. unfold Go.bind.
  destruct (m s) as [[a|p] s1] eqn:E.
  - intros H. transitivity s1; [eapply Hm; eauto | eapply Hk; eauto].
  - intros [= <- <-]. eapply Hm; eauto.
Qed.

Lemma keeps_at_with_defer {A} s (body : M S A) (deferred : M S unit) :
  keeps_at R s body ->
  (forall r s1, body s = (r, s1) -> keeps_at R s1 deferred) ->
  keeps_at R s (Go.with_defer body deferred).
Proof.
  intros Hb Hd r s'. unfold Go.with_defer.
  destruct (body s) as [r0 s1] eqn:E.
  destruct (deferred s1) as [[[]|p] s2] eqn:E2; intros [= <- <-];
    (transitivity s1; [eapply Hb; eauto | eapply Hd; eauto]).
Qed.

Lemma keeps_at_when s (b : bool) (m : M S unit) :
  keeps_at R s m -> keeps_at R s (Go.when b m).
Proof. destruct b; cbn; auto using keeps_at_ret. Qed.

Lemma keeps_for_each {A} (xs : list A) (f : A -> M S unit) :
  (forall x, keeps R (f x)) -> keeps R (wasm.for_each xs f).
Proof.
  intros Hf. induction xs as [|x xs IH]; cbn; intros s.
  - apply keeps_at_ret.
  - apply keeps_at_bind; [apply Hf | intros; apply IH].
Qed.
End Keeps.

Lemma keeps_weaken {S A} (R R' : S -> S -> Prop) (m : M S A) :
  (forall s s', R s s' -> R' s s') -> InterpProps.keeps R m -> InterpProps.keeps R' m.
Proof. intros HR Hm s r s' E. apply HR. eapply Hm; eauto. Qed.

(** One step of a frame-rule proof: the rule for the head of the
    computation, or a case analysis on what it branches on. *)
Ltac keeps_step_plain :=
  lazymatch goal with
  | |- InterpProps.keeps_at _ _ (Go.bind Go.get _) =>
      apply keeps_at_bind; [exact _ | apply keeps_at_get; exact _ | intros ? ? [= <- <-]]
  | |- InterpProps.keeps_at _ _ (Go.bind _ _) =>
      apply keeps_at_bind; [exact _ | | intros ? ? ?]
  | |- InterpProps.keeps_at _ _ (Go.ret _) => apply keeps_at_ret; exact _
  | |- InterpProps.keeps_at _ _ (Go.panic _) => apply keeps_at_panic; exact _
  | |- InterpProps.keeps_at _ _ Go.get => apply keeps_at_get; exact _
  | |- InterpProps.keeps_at _ _ (Go.put _) => apply keeps_at_put
  | |- InterpProps.keeps_at _ _ (Go.modify _) => apply keeps_at_modify
  | |- InterpProps.keeps_at _ _ (Go.when _ _) => apply keeps_at_when; [exact _ | ]
  | |- InterpProps.keeps_at _ _ (let _ := _ in _) => cbv zeta
  | |- InterpProps.keeps_at _ _ (if ?b then _ else _) => destruct b eqn:?
  | |- InterpProps.keeps_at _ _ (match ?x with _ => _ end) => destruct x eqn:?
  end.

Ltac keeps_step :=
  first [ keeps_step_plain
        | lazymatch goal with
          | |- InterpProps.keeps_at _ _ (Go.with_defer _ _) =>
              apply keeps_at_with_defer; [exact _ | | intros ? ? ?]
          end ].

#[global] Instance same_shape_preorder : PreOrder InterpProps.same_shape.
Proof.
  split.
  - intros i. split; reflexivity.
  - intros i j k [H1 H2] [H3 H4]. split; congruence.
Qed.

#[global] Instance same_queue_preorder : PreOrder InterpProps.same_queue.
Proof.
  split.
  - intros i. split; reflexivity.
  - intros i j k [H1 H2] [H3 H4]. split; congruence.
Qed.

#[global] Instance on_frames_preorder R `{!PreOrder R} : PreOrder (InterpProps.on_frames R).
Proof.
  split.
  - intros f. unfold InterpProps.on_frames. reflexivity.
  - intros f g h. unfold InterpProps.on_frames. intros. etransitivity; eauto.
Qed.

#[global] Instance same_env_depth_preorder : PreOrder InterpProps.same_env_depth.
Proof.
  split.
  - intros l. reflexivity.
  - intros l1 l2 l3. unfold InterpProps.same_env_depth. congruence.
Qed.

#[global] Instance same_readOnly_preorder : PreOrder InterpProps.same_readOnly.
Proof.
  split.
  - intros i. reflexivity.
  - intros i j k. unfold InterpProps.same_readOnly. congruence.
Qed.

Section Shapes.
Import wasm InterpProps.

Lemma same_queue_shape i i' : same_queue i i' -> same_shape i i'.
Proof. intros [H1 H2]. split; congruence. Qed.

Lemma same_shape_invariant i i' :
  same_shape i i' -> queue_matches_depth i -> queue_matches_depth i'.
Proof. unfold queue_matches_depth. intros [H1 H2] H. congruence. Qed.

Lemma keeps_in_interp {A} R (m : M WASMInterpreter A) f :
  keeps_at R (interp f) m -> keeps_at (on_frames R) f (in_interp m).
Proof.
  intros Hm r f'. unfold in_interp, Go.zoom.
  destruct (m (interp f)) as [r0 i1] eqn:E. intros [= <- <-].
  unfold on_frames. cbn. eapply Hm; eauto.
Qed.

Lemma keeps_in_interp_all {A} R (m : M WASMInterpreter A) :
  keeps R m -> keeps (on_frames R) (in_interp m).
Proof. intros Hm f. apply keeps_in_interp, Hm. Qed.

(** *** The tracer leaves the depth of its EVM alone *)

Lemma tracer_keeps_CaptureGasState gasCost scope depth err :
  keeps same_env_depth (logger.CaptureGasState gasCost scope depth err).
Proof.
  intros l. unfold logger.CaptureGasState, logger.cancel.
  repeat keeps_step; reflexivity.
Qed.

Lemma tracer_keeps_CaptureWasmState pc op memory scope depth drop keep :
  keeps same_env_depth (logger.CaptureWasmState pc op memory scope depth drop keep).
Proof.
  intros l. unfold logger.CaptureWasmState, logger.cancel.
  repeat keeps_step; try reflexivity.
  destruct (logger.DisableStack _); [|destruct (vm.Stack scope)];
    inversion H; subst; reflexivity.
Qed.

Lemma tracer_keeps_capture_storage op contract stackData :
  keeps same_env_depth (logger.capture_storage op contract stackData).
Proof.
  intros l. unfold logger.capture_storage.
  repeat keeps_step; reflexivity.
Qed.

Lemma tracer_keeps_CaptureState pc op gas cost scope rData depth err :
  keeps same_env_depth (logger.CaptureState pc op gas cost scope rData depth err).
Proof.
  intros l. unfold logger.CaptureState, logger.cancel.
  repeat first [ apply tracer_keeps_capture_storage | keeps_step ]; reflexivity.
Qed.

Lemma tracer_keeps_CaptureGlobalMemoryState g :
  keeps same_env_depth (logger.CaptureGlobalMemoryState g).
Proof. intros l. unfold logger.CaptureGlobalMemoryState. keeps_step. reflexivity. Qed.

Lemma tracer_keeps_CaptureGlobalVariable W index op value :
  keeps same_env_depth (logger.CaptureGlobalVariable W index op value).
Proof.
  intros l. unfold logger.CaptureGlobalVariable. repeat keeps_step; reflexivity.
Qed.

Lemma tracer_keeps_CaptureWasmFunctionCall a b c d :
  keeps same_env_depth (logger.CaptureWasmFunctionCall a b c d).
Proof. intros l. unfold logger.CaptureWasmFunctionCall. keeps_step. reflexivity. Qed.

(** *** Primitive steps of the interpreter *)

Lemma keeps_on_tracer {A} l (m : M logger.WebAssemblyLogger A) :
  keeps same_env_depth m -> keeps same_queue (on_tracer l m).
Proof.
  intros Hm i r i'. unfold on_tracer.
  destruct (m _) as [r0 l'] eqn:E. intros [= <- <-].
  apply Hm in E. unfold same_env_depth in E. cbn in E. split; [exact E | reflexivity].
Qed.

Ltac shape_done :=
  unfold on_frames; cbn;
  first [ reflexivity
        | split; cbn; rewrite ?length_insert; reflexivity ].

Lemma keeps_tracer_as_WASMLogger : keeps same_queue tracer_as_WASMLogger.
Proof. intros i. unfold tracer_as_WASMLogger. repeat keeps_step; shape_done. Qed.

Lemma keeps_contract_at idx : keeps same_queue (contract_at idx).
Proof. intros i. unfold contract_at. repeat keeps_step; shape_done. Qed.

Lemma keeps_Scope : keeps same_shape Scope.
Proof. intros i. unfold Scope. repeat keeps_step; shape_done. Qed.

Lemma keeps_ScopeWithStack : keeps same_shape ScopeWithStack.
Proof.
  intros i. unfold ScopeWithStack. keeps_step; [apply keeps_Scope|]. keeps_step.
Qed.

Lemma keeps_UseGas_at idx gas : keeps same_shape (UseGas_at idx gas).
Proof. intros i. unfold UseGas_at. repeat keeps_step; shape_done. Qed.

Lemma keeps_set_contract_gas idx gas : keeps same_shape (set_contract_gas idx gas).
Proof.
  intros i. unfold set_contract_gas. keeps_step.
  destruct (stateQueue i !! idx); shape_done.
Qed.

Lemma keeps_writeMemory offset size value :
  keeps same_queue (vm.writeMemory (S := WASMInterpreter) offset size value).
Proof. intros i. cbn. keeps_step. shape_done. Qed.

Lemma keeps_readMemory offset size :
  keeps same_queue (vm.readMemory (S := WASMInterpreter) offset size).
Proof. intros i. cbn. repeat keeps_step; shape_done. Qed.

(** *** Steps on the frame of a host call *)

Lemma keeps_Set_ m offset size value :
  keeps (on_frames same_queue) (vm.Set_ (S := Frame) m offset size value).
Proof.
  intros f. unfold vm.Set_. repeat keeps_step; try shape_done.
  cbn. apply keeps_in_interp. apply keeps_writeMemory.
Qed.

Lemma keeps_GetCopy m offset size :
  keeps (on_frames same_queue) (vm.GetCopy (S := Frame) m offset size).
Proof.
  intros f. unfold vm.GetCopy. repeat keeps_step; try shape_done.
  cbn. apply keeps_in_interp. apply keeps_readMemory.
Qed.

Lemma keeps_apply_writes m ws : keeps (on_frames same_queue) (apply_writes m ws).
Proof.
  induction ws as [|[[offset size] value] ws IH]; intros f; cbn.
  - keeps_step.
  - keeps_step; [apply keeps_Set_ | apply IH].
Qed.

Lemma keeps_scope_view scope : keeps (on_frames same_queue) (scope_view scope).
Proof.
  intros f. unfold scope_view.
  keeps_step; [apply keeps_in_interp, keeps_contract_at|].
  repeat keeps_step.
Qed.

Lemma keeps_Tracer_CaptureState pc op gas cost scope depth err :
  keeps (on_frames same_queue) (Tracer_CaptureState pc op gas cost scope depth err).
Proof.
  intros f. unfold Tracer_CaptureState. repeat keeps_step.
  - apply keeps_scope_view.
  - apply keeps_in_interp, keeps_on_tracer, tracer_keeps_CaptureState.
Qed.

Lemma keeps_copyLastStackItemToMemory destLen input scope :
  keeps (on_frames same_queue) (copyLastStackItemToMemory destLen input scope).
Proof.
  intros f. unfold copyLastStackItemToMemory. repeat keeps_step.
  apply keeps_Set_.
Qed.

Lemma keeps_replaceMemOffsetWithValueOnStack idx fieldType input scope :
  keeps (on_frames same_queue) (replaceMemOffsetWithValueOnStack idx fieldType input scope).
Proof.
  intros f. unfold replaceMemOffsetWithValueOnStack.
  repeat first [ apply keeps_GetCopy | keeps_step ]; shape_done.
Qed.

Lemma keeps_on_frames_weaken {A} (m : M Frame A) :
  keeps (on_frames same_queue) m -> keeps (on_frames same_shape) m.
Proof. apply keeps_weaken. intros f f'. apply same_queue_shape. Qed.

Lemma keeps_runFinalizer input scope finalizer :
  (forall fn, finalizer = Some fn -> shim_keeps fn) ->
  keeps (on_frames same_queue) (runFinalizer input scope finalizer).
Proof.
  intros Hfin f. unfold runFinalizer. destruct finalizer as [fn|]; [|keeps_step].
  keeps_step; [apply (Hfin fn eq_refl)|]. repeat keeps_step.
Qed.

Lemma keeps_apply_effect f : execute_keeps (apply_effect f).
Proof.
  intros scope fr. unfold apply_effect.
  keeps_step; [apply keeps_in_interp, (keeps_weaken same_queue); [apply same_queue_shape|];
               apply keeps_contract_at|].
  keeps_step. cbv zeta.
  keeps_step; [keeps_step; shape_done|].
  keeps_step; [apply keeps_in_interp, keeps_set_contract_gas|].
  keeps_step; [apply keeps_in_interp; keeps_step; shape_done|].
  keeps_step; [apply keeps_on_frames_weaken, keeps_apply_writes|].
  keeps_step.
Qed.

Lemma keeps_charge op scope : keeps (on_frames same_shape) (charge op scope).
Proof.
  intros f. unfold charge.
  repeat first
    [ apply keeps_in_interp, keeps_UseGas_at
    | apply keeps_in_interp, (keeps_weaken same_queue);
      [apply same_queue_shape | apply keeps_contract_at]
    | keeps_step ].
Qed.

Lemma keeps_execEvmOp newLondon opcode scope execute :
  execute_keeps execute ->
  keeps (on_frames same_shape) (execEvmOp newLondon opcode scope execute).
Proof.
  intros Hex f. unfold execEvmOp.
  keeps_step; [apply keeps_in_interp, (keeps_weaken same_queue);
               [apply same_queue_shape | apply keeps_contract_at]|].
  keeps_step.
  assert (Htraced : forall cost gasCopy err,
             keeps (on_frames same_shape)
               (let err2 := if bool_decide (err = Some errStopToken) then None else err in
                let* f := get
                in if Debug (config (interp f))
                   then Tracer_CaptureState MaxUint64 opcode gasCopy cost scope
                          (depth (interp f)) err2
                   else ret tt)).
  { intros cost gasCopy err f0. cbv zeta. keeps_step.
    keeps_step; [apply keeps_on_frames_weaken, keeps_Tracer_CaptureState | keeps_step]. }
  keeps_step.
  { repeat keeps_step. apply keeps_in_interp. keeps_step. shape_done. }
  apply keeps_at_bind; [exact _ | apply keeps_charge | intros [cost early] fc _].
  destruct early as [e|].
  - keeps_step; [apply Htraced | keeps_step].
  - intros r f'.
    destruct (Go.bind (execute scope) _ fc) as [r0 f1] eqn:E.
    assert (Hbody : on_frames same_shape fc f1).
    { revert E. apply keeps_at_bind; [exact _ | apply Hex |].
      intros out f2 _. keeps_step; [apply keeps_in_interp; keeps_step; shape_done|].
      keeps_step. }
    cbv zeta.
    match goal with
    | |- match ?m with _ => _ end = _ -> _ => destruct m as [[[]|p] f2] eqn:E2
    end; intros [= <- <-];
      (etransitivity; [exact Hbody | eapply Htraced; exact E2]).
Qed.

Lemma keeps_opcodeBody newLondon input opcode scope pres execute :
  Forall shim_keeps pres ->
  execute_keeps execute ->
  keeps (on_frames same_shape) (opcodeBody newLondon input opcode scope pres execute).
Proof.
  intros Hpres Hex. induction Hpres as [|p pres Hp _ IH]; intros f; cbn.
  - apply keeps_execEvmOp, Hex.
  - keeps_step; [apply keeps_on_frames_weaken, Hp|]. repeat keeps_step. apply IH.
Qed.

Lemma keeps_processOpcode newLondon input opcode finalizer pres execute :
  (forall fn, finalizer = Some fn -> shim_keeps fn) ->
  Forall shim_keeps pres ->
  execute_keeps execute ->
  keeps same_shape (processOpcode newLondon input opcode finalizer pres execute).
Proof.
  intros Hfin Hpres Hex i. unfold processOpcode.
  keeps_step; [apply keeps_ScopeWithStack|].
  intros r i'.
  destruct (with_defer _ _ _) as [r0 f] eqn:E. intros [= <- <-].
  change (on_frames same_shape (mkFrame s1 (rev input)) f). revert E.
  apply keeps_at_with_defer; [exact _ | apply keeps_opcodeBody; auto |].
  intros. apply keeps_on_frames_weaken, keeps_runFinalizer, Hfin.
Qed.

Lemma keeps_nativeCallback newLondon r paramsCount execute params :
  (forall fn, finalizer_ r = Some fn -> shim_keeps fn) ->
  Forall shim_keeps (inputPreprocessors_ r) ->
  execute_keeps execute ->
  keeps same_shape (nativeCallback newLondon r paramsCount execute params).
Proof.
  intros Hfin Hpres Hex i. unfold nativeCallback.
  repeat first [ apply keeps_processOpcode; assumption | keeps_step ].
Qed.

Lemma keeps_logsCallback item : keeps same_shape (logsCallback item).
Proof.
  intros i. unfold logsCallback.
  repeat first
    [ apply (keeps_weaken same_queue);
      [apply same_queue_shape|];
      first [ apply keeps_tracer_as_WASMLogger
            | apply keeps_contract_at
            | apply keeps_on_tracer, tracer_keeps_CaptureWasmState ]
    | apply keeps_ScopeWithStack
    | keeps_step ].
Qed.

Lemma keeps_gasCheck params : keeps same_shape (gasCheck params).
Proof.
  intros i. unfold gasCheck.
  repeat first
    [ apply (keeps_weaken same_queue);
      [apply same_queue_shape|];
      first [ apply keeps_contract_at
            | apply keeps_on_tracer, tracer_keeps_CaptureGasState ]
    | apply keeps_Scope
    | apply keeps_UseGas_at
    | keeps_step ].
Qed.

Lemma registerNativeFunctions_shim :
  Forall (fun r => (forall fn, finalizer_ r = Some fn -> shim_keeps fn)
                   /\ Forall shim_keeps (inputPreprocessors_ r))
         registerNativeFunctions.
Proof.
  unfold registerNativeFunctions.
  repeat (apply List.Forall_cons; [split; cbn [finalizer_ inputPreprocessors_];
    [ first [ intros fn Hfn; discriminate Hfn
            | intros fn [= <-] input scope; apply keeps_copyLastStackItemToMemory ]
    | repeat (apply List.Forall_cons;
              [intros input scope; apply keeps_replaceMemOffsetWithValueOnStack|]);
      apply List.Forall_nil ] | ]).
  apply List.Forall_nil.
Qed.

Lemma registered_In name r : registered name = Some r -> In r registerNativeFunctions.
Proof. unfold registered. intros H. apply find_some in H. tauto. Qed.

Lemma registered_shim name r :
  registered name = Some r ->
  (forall fn, finalizer_ r = Some fn -> shim_keeps fn)
  /\ Forall shim_keeps (inputPreprocessors_ r).
Proof.
  intros H. apply registered_In in H.
  exact (proj1 (List.Forall_forall _ _) registerNativeFunctions_shim r H).
Qed.

Lemma keeps_replayTrace W : keeps same_shape (replayTrace W).
Proof.
  intros i. unfold replayTrace. keeps_step.
  destruct (Debug (config i)); [|keeps_step].
  destruct (dump (wasmEngine i)) as [e|trace]; [keeps_step|].
  keeps_step.
  - destruct (ts_GlobalMemory trace) as [entries|]; [|keeps_step].
    keeps_step.
    + assert (Hfold : forall acc : M WASMInterpreter (gmap Z (list Z)),
                 keeps same_shape acc ->
                 keeps same_shape
                   (fold_left
                      (fun (acc : M WASMInterpreter (gmap Z (list Z))) gm =>
                         let* m := acc
                         in match tm_Data gm with
                            | Some data => ret (<[tm_Offset gm:=data]> m)
                            | None => panic (PanicError (Errorf "invalid hex string"))
                            end) entries acc)).
      { induction entries as [|gm entries IH]; intros acc Hacc; cbn; [exact Hacc|].
        apply IH. intros s. keeps_step; [apply Hacc|]. repeat keeps_step. }
      apply Hfold. intros s. keeps_step.
    + keeps_step; [apply (keeps_weaken same_queue);
                   [apply same_queue_shape | apply keeps_tracer_as_WASMLogger]|].
      apply (keeps_weaken same_queue); [apply same_queue_shape|].
      apply keeps_on_tracer, tracer_keeps_CaptureGlobalMemoryState.
  - keeps_step.
    + apply keeps_for_each; [exact _|]. intros fm s.
      keeps_step; [apply (keeps_weaken same_queue);
                   [apply same_queue_shape | apply keeps_tracer_as_WASMLogger]|].
      apply (keeps_weaken same_queue); [apply same_queue_shape|].
      apply keeps_on_tracer, tracer_keeps_CaptureGlobalVariable.
    + apply keeps_for_each; [exact _|]. intros fm s.
      keeps_step; [apply (keeps_weaken same_queue);
                   [apply same_queue_shape | apply keeps_tracer_as_WASMLogger]|].
      apply (keeps_weaken same_queue); [apply same_queue_shape|].
      apply keeps_on_tracer, tracer_keeps_CaptureWasmFunctionCall.
Qed.

Lemma keeps_recovered engine : keeps same_shape engine -> keeps same_shape (recovered engine).
Proof.
  intros He i r i'. unfold recovered.
  destruct (engine i) as [[out|[msg|e]] i1] eqn:E; intros [= <- <-]; eapply He; eauto.
Qed.

(** [Run] leaves the call depth and the length of the scope queue as they
    were when it was entered, whatever the engine returns, if the engine
    does. *)
Lemma keeps_Run_with inject W ET engine contract input readOnly_ :
  keeps same_shape engine ->
  keeps same_shape (Run_with inject W ET engine contract input readOnly_).
Proof.
  intros He i r i'. unfold Run_with.
  unfold Go.bind at 1. cbn [Go.modify].
  set (i1 := set_evm (vm.set_depth (depth i + 1) (evm i)) i).
  unfold Go.with_defer at 1.
  match goal with
  | |- (let (_, _) := ?body i1 in _) = _ -> _ =>
      assert (Hinner : keeps_at same_shape i1 body);
      [| destruct (body i1) as [r0 i2] eqn:E; apply Hinner in E ]
  end.
  { keeps_step. keeps_step; [repeat keeps_step; shape_done|].
    apply keeps_at_with_defer; [exact _ | | intros; repeat keeps_step; shape_done].
    repeat keeps_step_plain; try shape_done.
    (* the engine runs between the append and the truncation of the queue *)
    match goal with
    | Hq : negb (_ =? _) = false |- _ =>
        apply negb_false_iff, Z.eqb_eq in Hq; rename Hq into Hlen
    end.
    intros r1 s'. unfold Go.with_defer. unfold Go.bind at 1. cbn [Go.modify].
    match goal with
    | |- (let (_, _) := ?rest ?s0 in _) = _ -> _ =>
        assert (Hbody : keeps_at same_shape s0 rest);
        [| destruct (rest s0) as [rr ss] eqn:E2; apply Hbody in E2 ]
    end.
    { repeat first [ apply keeps_recovered, He | apply keeps_replayTrace | keeps_step ]. }
    destruct E2 as [Hd2 Hl2]. cbn in Hd2, Hl2. rewrite length_app in Hl2. cbn in Hl2.
    unfold Go.bind, Go.get. unfold slice.
    destruct ((0 <=? 0) && (0 <=? depth ss - 1)
              && (depth ss - 1 <=? Z.of_nat (length (stateQueue ss)))) eqn:Hb.
    - cbn. intros [= <- <-]. split; [exact Hd2|]. cbn.
      rewrite length_firstn, length_skipn. unfold depth in *. cbn in Hd2, Hlen |- *. lia.
    - exfalso. rewrite !andb_false_iff, !Z.leb_gt in Hb.
      unfold depth in *. cbn in Hd2, Hlen. lia. }
  cbn [Go.modify]. intros [= <- <-].
  destruct E as [Hd Hl]. split; cbn.
  - unfold depth in *. cbn in *. rewrite Hd. lia.
  - rewrite Hl. reflexivity.
Qed.

(** The engine, with every host callback and every nested [Run], leaves
    the call depth and the length of the scope queue as they were. *)
Lemma keeps_engine inject W ET host :
  host_keeps host ->
  (forall g, keeps same_shape (ComputeResult inject W ET host g))
  /\ (forall x, execute_keeps (execute inject W ET host x)).
Proof.
  intros (Hgas & Hnative & Hlogs).
  apply guest_exec_mutind.
  - intros res err d i. cbn. repeat keeps_step. shape_done.
  - intros item k IH i. cbn. keeps_step; [apply Hlogs | apply IH].
  - intros params k IH i. cbn. keeps_step; [apply Hgas|].
    repeat first [ apply IH | keeps_step ].
  - intros name params x IHx k IHk i. cbn -[registered paramsCount_of].
    destruct (registered name) as [r|] eqn:Hr; [|keeps_step].
    destruct (paramsCount_of (opcode_ r)) as [n|]; [|keeps_step].
    keeps_step; [eapply Hnative; eauto|].
    repeat first [ apply IHk | keeps_step ].
  - intros f. apply keeps_apply_effect.
  - intros p scope f. cbn. keeps_step.
  - intros contract input ro g IHg k IHk scope f. cbn.
    keeps_step; [apply keeps_in_interp, keeps_Run_with, IHg | apply IHk].
Qed.

Lemma registeredHost_keeps newLondon : host_keeps (registeredHost newLondon).
Proof.
  split; [|split]; cbn.
  - apply keeps_gasCheck.
  - intros name r n ex params Hr Hex.
    destruct (registered_shim name r Hr) as [Hfin Hpres].
    apply keeps_nativeCallback; auto.
  - apply keeps_logsCallback.
Qed.

Lemma keeps_Run newLondon inject W ET g contract input readOnly_ :
  keeps same_shape (Run newLondon inject W ET g contract input readOnly_).
Proof.
  apply keeps_Run_with. apply keeps_engine, registeredHost_keeps.
Qed.
End Shapes.

(** ** The scope queue and the call depth *)

Section Extensionality.
Context {S : Type}.

Lemma bind_ext_at {A B} (m : M S A) (k1 k2 : A -> M S B) s :
  (forall a s1, m s = (Ret a, s1) -> k1 a s1 = k2 a s1) ->
  Go.bind m k1 s = Go.bind m k2 s.
Proof.
  intros H. unfold Go.bind. destruct (m s) as [[a|p] s1] eqn:E; [|reflexivity].
  apply H. reflexivity.
Qed.

Lemma with_defer_ext_at {A} (body1 body2 : M S A) deferred s :
  body1 s = body2 s ->
  Go.with_defer body1 deferred s = Go.with_defer body2 deferred s.
Proof. intros H. unfold Go.with_defer. rewrite H. reflexivity. Qed.
End Extensionality.

Section QueueAndDepth.
Import wasm InterpProps.

Lemma queue_matches_depthb_spec i : queue_matches_depthb i = true <-> queue_matches_depth i.
Proof. unfold queue_matches_depthb, queue_matches_depth. apply Z.eqb_eq. Qed.

Lemma assert_state_holds P i : P i = true -> assert_state P i = (Ret tt, i).
Proof. intros H. unfold assert_state. now rewrite H. Qed.

Lemma keeps_preserves_invariant {A} (m : M WASMInterpreter A) i r i' :
  keeps same_shape m -> queue_matches_depth i -> m i = (r, i') -> queue_matches_depth i'.
Proof. intros Hm Hi E. eapply same_shape_invariant; [eapply Hm; eauto | exact Hi]. Qed.

Lemma keeps_preserves_invariant_frame {A} (m : M Frame A) f r f' :
  keeps (on_frames same_shape) m -> queue_matches_depth (interp f) -> m f = (r, f') ->
  queue_matches_depth (interp f').
Proof. intros Hm Hi E. eapply same_shape_invariant; [eapply Hm; eauto | exact Hi]. Qed.

(** Two opcode implementations that agree wherever the queue matches the
    depth are interchangeable in the opcode shim. *)
Lemma execEvmOp_ext newLondon opcode scope (ex1 ex2 : executionFunc) f :
  (forall scope f, queue_matches_depth (interp f) -> ex1 scope f = ex2 scope f) ->
  queue_matches_depth (interp f) ->
  execEvmOp newLondon opcode scope ex1 f = execEvmOp newLondon opcode scope ex2 f.
Proof.
  intros Hex Hi. unfold execEvmOp.
  apply bind_ext_at. intros c f1 E1.
  assert (Hi1 : queue_matches_depth (interp f1)).
  { eapply keeps_preserves_invariant_frame; [|exact Hi|exact E1].
    apply keeps_in_interp_all, (keeps_weaken same_queue);
      [apply same_queue_shape | apply keeps_contract_at]. }
  apply bind_ext_at. intros ? ? [= <- <-].
  apply bind_ext_at. intros op f2 E2.
  assert (Hi2 : queue_matches_depth (interp f2)).
  { revert E2. destruct (JumpTable _ _); cbn.
    - intros [= <- <-]. exact Hi1.
    - unfold Go.bind, in_interp, Go.zoom. cbn.
      destruct (newLondon opcode); intros [= <- <-]; exact Hi1. }
  apply bind_ext_at. intros [cost early] f3 E3.
  assert (Hi3 : queue_matches_depth (interp f3)).
  { eapply keeps_preserves_invariant_frame; [|exact Hi2|exact E3]. apply keeps_charge. }
  destruct early; [reflexivity|].
  cbv beta. unfold Go.bind. rewrite (Hex scope f3 Hi3). reflexivity.
Qed.

Lemma opcodeBody_ext newLondon input opcode scope pres (ex1 ex2 : executionFunc) f :
  Forall shim_keeps pres ->
  (forall scope f, queue_matches_depth (interp f) -> ex1 scope f = ex2 scope f) ->
  queue_matches_depth (interp f) ->
  opcodeBody newLondon input opcode scope pres ex1 f
  = opcodeBody newLondon input opcode scope pres ex2 f.
Proof.
  intros Hpres Hex. revert f.
  induction Hpres as [|p pres Hp _ IH]; intros f Hi; cbn.
  - apply execEvmOp_ext; assumption.
  - apply bind_ext_at. intros err f1 E1.
    destruct err; [reflexivity|]. apply IH.
    eapply keeps_preserves_invariant_frame; [|exact Hi|exact E1].
    apply keeps_on_frames_weaken, Hp.
Qed.

Lemma nativeCallback_ext newLondon r paramsCount (ex1 ex2 : executionFunc) params i :
  Forall shim_keeps (inputPreprocessors_ r) ->
  (forall scope f, queue_matches_depth (interp f) -> ex1 scope f = ex2 scope f) ->
  queue_matches_depth i ->
  nativeCallback newLondon r paramsCount ex1 params i
  = nativeCallback newLondon r paramsCount ex2 params i.
Proof.
  intros Hpres Hex Hi. unfold nativeCallback.
  destruct (negb _); [reflexivity|].
  unfold processOpcode, Go.bind.
  destruct (ScopeWithStack i) as [[scope|p] i1] eqn:ES; [|reflexivity].
  assert (Hi1 : queue_matches_depth i1).
  { eapply keeps_preserves_invariant; [apply keeps_ScopeWithStack|exact Hi|exact ES]. }
  rewrite (with_defer_ext_at _ (opcodeBody newLondon (map uint64 params) (opcode_ r) scope
                                  (inputPreprocessors_ r) ex2)).
  - reflexivity.
  - apply opcodeBody_ext; assumption.
Qed.

(** [Run] calls the engine only after its check of the queue length, in a
    state where the queue matches the depth. *)
Lemma Run_with_ext inject W ET (engine1 engine2 : M WASMInterpreter _) contract input ro i :
  (forall s, queue_matches_depth s -> engine1 s = engine2 s) ->
  Run_with inject W ET engine1 contract input ro i
  = Run_with inject W ET engine2 contract input ro i.
Proof.
  intros He. unfold Run_with.
  repeat first
    [ apply with_defer_ext_at
    | apply bind_ext_at; intros ? ? ?
    | match goal with
      | |- (if ?b then _ else _) _ = _ => destruct b eqn:?
      | |- (match ?x with _ => _ end) _ = _ => destruct x eqn:?
      end ]; try reflexivity.
  match goal with
  | Hget : get _ = (Ret ?a, ?s), Happ : modify _ ?s = (Ret _, ?s'),
    Hlen : negb (Z.of_nat (length (stateQueue ?a)) =? _) = false |- _ =>
      apply negb_false_iff, Z.eqb_eq in Hlen;
      inversion Hget; subst; inversion Happ; subst
  end.
  unfold Go.bind, recovered. rewrite He; [reflexivity|].
  unfold queue_matches_depth, depth in *. cbn. rewrite length_app. cbn. lia.
Qed.

(** The equations of the engine. *)
Lemma ComputeResult_Emit inject W ET host item k :
  ComputeResult inject W ET host (Emit item k)
  = (hostLogs host item ;; ComputeResult inject W ET host k).
Proof. reflexivity. Qed.

Lemma ComputeResult_CallGas inject W ET host params k :
  ComputeResult inject W ET host (CallGas params k)
  = (let* code := hostGas host params in
     match code with
     | ComputeTraceErrorCodeOk => ComputeResult inject W ET host k
     | _ => ret (code, None)
     end).
Proof. reflexivity. Qed.

Lemma ComputeResult_CallNative inject W ET host name params x k :
  ComputeResult inject W ET host (CallNative name params x k)
  = match registered name with
    | None => ret (ComputeTraceErrorCodeUnknown, Some (Errorf "unresolved import"))
    | Some r =>
        match paramsCount_of (opcode_ r) with
        | None => ret (ComputeTraceErrorCodeUnknown, Some (Errorf "unresolved import"))
        | Some paramsCount =>
            let* code :=
              hostNative host r paramsCount (execute inject W ET host x) params in
            match code with
            | ComputeTraceErrorCodeOk => ComputeResult inject W ET host k
            | _ => ret (code, None)
            end
        end
    end.
Proof. reflexivity. Qed.

Lemma execute_Enter inject W ET host contract input ro g k scope :
  execute inject W ET host (Enter contract input ro g k) scope
  = (in_interp (Run_with inject W ET (ComputeResult inject W ET host g) contract input ro) ;;
     execute inject W ET host k scope).
Proof. reflexivity. Qed.

(** The monitored host functions behave as the host functions themselves
    wherever the queue matches the depth: the monitor stays silent. *)
Lemma guarded_engine newLondon inject W ET :
  (forall g i, queue_matches_depth i ->
               ComputeResult inject W ET
                 (guarded queue_matches_depthb (registeredHost newLondon)) g i
               = ComputeResult inject W ET (registeredHost newLondon) g i)
  /\ (forall x scope f, queue_matches_depth (interp f) ->
                        execute inject W ET
                          (guarded queue_matches_depthb (registeredHost newLondon)) x scope f
                        = execute inject W ET (registeredHost newLondon) x scope f).
Proof.
  pose proof (keeps_engine inject W ET _ (registeredHost_keeps newLondon)) as [Kg Kx].
  apply guest_exec_mutind.
  - reflexivity.
  - intros item k IH i Hi. rewrite !ComputeResult_Emit.
    cbn [guarded registeredHost hostLogs].
    unfold Go.bind at 1 2. rewrite assert_state_holds by (apply queue_matches_depthb_spec, Hi).
    apply bind_ext_at. intros [] i1 E. apply IH.
    eapply keeps_preserves_invariant; [apply keeps_logsCallback|exact Hi|exact E].
  - intros params k IH i Hi. rewrite !ComputeResult_CallGas.
    cbn [guarded registeredHost hostGas].
    unfold Go.bind at 1 2. rewrite assert_state_holds by (apply queue_matches_depthb_spec, Hi).
    apply bind_ext_at. intros code i1 E.
    destruct code; try reflexivity. apply IH.
    eapply keeps_preserves_invariant; [apply keeps_gasCheck|exact Hi|exact E].
  - intros name params x IHx k IHk i Hi. rewrite !ComputeResult_CallNative.
    cbn [guarded registeredHost hostNative].
    destruct (registered name) as [r|] eqn:Hr; [|reflexivity].
    destruct (paramsCount_of (opcode_ r)) as [n|]; [|reflexivity].
    destruct (registered_shim name r Hr) as [Hfin Hpres].
    unfold Go.bind at 1 2. rewrite assert_state_holds by (apply queue_matches_depthb_spec, Hi).
    rewrite (nativeCallback_ext newLondon r n _
               (execute inject W ET (registeredHost newLondon) x) params i Hpres IHx Hi).
    apply bind_ext_at. intros code i1 E.
    destruct code; try reflexivity. apply IHk.
    eapply keeps_preserves_invariant; [|exact Hi|exact E].
    apply keeps_nativeCallback; auto.
  - reflexivity.
  - reflexivity.
  - intros contract input ro g IHg k IHk scope f Hi. rewrite !execute_Enter.
    unfold Go.bind, in_interp, Go.zoom.
    rewrite (Run_with_ext inject W ET _
               (ComputeResult inject W ET (registeredHost newLondon) g) contract input ro
               (interp f) IHg).
    destruct (Run_with _ _ _ _ _ _ _ (interp f)) as [[out|p] i1] eqn:E; [|reflexivity].
    apply IHk. cbn.
    eapply keeps_preserves_invariant; [|exact Hi|exact E].
    apply keeps_Run_with, Kg.
Qed.

(** C5 (amended). The scope queue holds as many scopes as the call depth:
    if this is so when [Run] is called, then a monitor that checks it at
    the entry of every host callback (the gas check, the opcode shim, where
    the current scope is looked up first, and the trace callback), in this
    run and in every nested run, never fires, and it is so again when
    [Run] is left. The queue is one scope shorter than the depth only
    inside [Run], between the increment of the depth and the append of the
    new scope. *)
Theorem scope_queue_matches_depth newLondon inject W ET g contract input readOnly_ i :
  queue_matches_depth i ->
  Run_with inject W ET
    (ComputeResult inject W ET (guarded queue_matches_depthb (registeredHost newLondon)) g)
    contract input readOnly_ i
  = Run newLondon inject W ET g contract input readOnly_ i
  /\ queue_matches_depth (snd (Run newLondon inject W ET g contract input readOnly_ i)).
Proof.
  intros Hi. split.
  - apply Run_with_ext. intros s Hs. apply guarded_engine, Hs.
  - destruct (Run _ _ _ _ _ _ _ _ i) as [r i'] eqn:E. cbn.
    eapply keeps_preserves_invariant; [apply keeps_Run|exact Hi|exact E].
Qed.

(** The amended C5 on a new interpreter running a guest that charges gas. *)
Lemma scope_queue_matches_depth_witness :
  queue_matches_depth (fresh_interpreter false)
  /\ Run_with no_injection no_names no_text
       (ComputeResult no_injection no_names no_text
          (guarded queue_matches_depthb (registeredHost london)) charging_guest)
       Props.sample_contract [1] false (fresh_interpreter false)
     = Run london no_injection no_names no_text charging_guest
         Props.sample_contract [1] false (fresh_interpreter false)
  /\ queue_matches_depth
       (snd (Run london no_injection no_names no_text charging_guest
               Props.sample_contract [1] false (fresh_interpreter false))).
Proof.
  split; [reflexivity|].
  apply (scope_queue_matches_depth london no_injection no_names no_text charging_guest
           Props.sample_contract [1] false (fresh_interpreter false)).
  reflexivity.
Defined.

(** C5, as stated, fails: on a new interpreter the run of a guest that
    charges gas returns normally, but a monitor that checks "queue length
    = depth - 1" at the entry of the host callbacks fires at the gas
    check (the panic surfaces through the recovery in [Run]); and a scope
    lookup in a state where the queue is one shorter than the depth
    panics. *)
Lemma scope_queue_is_not_one_short :
  fst (Run london no_injection no_names no_text charging_guest
         Props.sample_contract [1] false (fresh_interpreter false))
  = Ret ([], None)
  /\ fst (ComputeResult no_injection no_names no_text
            (guarded queue_one_short (registeredHost london)) charging_guest
            (sample_interpreter false Props.sample_logger 100))
     = Panic (PanicString "monitor: unexpected scope queue")
  /\ queue_one_short (sample_interpreter false Props.sample_logger 100) = false
  /\ queue_one_short (set_stateQueue [] (sample_interpreter false Props.sample_logger 100))
     = true
  /\ fst (Scope (set_stateQueue [] (sample_interpreter false Props.sample_logger 100)))
     = Panic (PanicString "context queue is empty").
Proof. repeat split; vm_compute; reflexivity. Qed.
End QueueAndDepth.

(** ** The interpreter driver *)

Section Driver.
Import wasm InterpProps.

Lemma keeps_run_engine W engine :
  keeps same_shape engine -> keeps same_shape (run_engine W engine).
Proof.
  intros He i. unfold run_engine.
  repeat first [ apply keeps_recovered, He | apply keeps_replayTrace | keeps_step ].
Qed.

(** [Run] on a contract with code, with a WebAssembly tracer installed and
    the injection passed: the engine runs from [engine_entry], and the
    deferred calls leave the state as [leave] says. *)
Lemma Run_with_reaches_engine inject W ET engine contract input ro i l code r s1 :
  vm.Code contract <> [] ->
  Tracer (config i) = WASMLogger l ->
  (if (length input =? 0)%nat then inject (vm.Code contract) else inl (vm.Code contract))
  = inl code ->
  queue_matches_depth i ->
  keeps same_shape engine ->
  run_engine W engine (engine_entry i contract input ro code) = (r, s1) ->
  Run_with inject W ET engine contract input ro i
  = (r, leave (ro && negb (readOnly i)) s1).
Proof.
  intros Hcode HT Hinj Hi He Hrun.
  pose proof (keeps_run_engine W engine He _ _ _ Hrun) as [Hd Hl].
  unfold queue_matches_depth in Hi.
  destruct (length (vm.Code contract) =? 0)%nat eqn:Hc.
  { apply Nat.eqb_eq in Hc. destruct (vm.Code contract); [congruence|discriminate]. }
  destruct i as [e [dbg tr jt] q ro0 rd eng]. cbn in HT. subst tr.
  unfold depth in *.
  cbn [evm stateQueue readOnly engine_entry vm.set_depth vm.depth length] in Hi, Hd, Hl.
  rewrite length_app in Hl. cbn [length] in Hl.
  unfold depth in Hd. cbn [evm vm.depth] in Hd.
  unfold run_engine, Go.bind, Go.get, Go.ret, engine_entry, depth in Hrun.
  cbn [evm stateQueue config readOnly returnData wasmEngine] in Hrun.
  unfold Run_with, Go.bind, Go.with_defer, Go.when, Go.modify, Go.get, Go.ret, Go.panic,
    Go.put, depth, leave.
  cbn [fst snd].
  cbn [evm stateQueue config readOnly returnData wasmEngine Debug Tracer
       set_evm set_stateQueue set_readOnly set_returnData set_wasmEngine
       vm.Code vm.set_Input vm.set_depth vm.depth].
  rewrite Hc.
  assert (Hchk : (Z.of_nat (length q) =? vm.depth e + 1 - 1) = true)
    by (apply Z.eqb_eq; lia).
  destruct (ro && negb ro0) eqn:Hent;
    cbn [fst snd evm stateQueue config readOnly returnData wasmEngine Debug Tracer
         set_evm set_stateQueue set_readOnly set_returnData set_wasmEngine
         vm.Code vm.set_Input vm.set_depth vm.depth];
    rewrite andb_false_r, Hinj;
    cbn [fst snd evm stateQueue config readOnly returnData wasmEngine Debug Tracer
         set_evm set_stateQueue set_readOnly set_returnData set_wasmEngine
         vm.Code vm.set_Input vm.set_depth vm.depth];
    rewrite Hchk; cbn [negb].
  all: match type of Hrun with
       | context [recovered _ ?s] =>
           set (s_entry := s) in Hrun;
           match goal with
           | |- context [recovered _ ?s'] => change s' with s_entry
           end
       end.
  all: assert (Hslice : slice (stateQueue s1) 0 (vm.depth (evm s1) - 1)
                        = Some (firstn (Z.to_nat (vm.depth (evm s1) - 1)) (stateQueue s1))).
  1, 3: unfold slice;
    replace ((0 <=? 0) && (0 <=? vm.depth (evm s1) - 1)
             && (vm.depth (evm s1) - 1 <=? Z.of_nat (length (stateQueue s1)))) with true
      by (symmetry; rewrite !andb_true_iff, !Z.leb_le; lia);
    rewrite Z.sub_0_r; reflexivity.
  all: destruct (recovered engine s_entry) as [[out|p] s4];
    [destruct (replayTrace W s4) as [[[]|p] s5]|];
    injection Hrun as <- <-; rewrite Hslice; reflexivity.
Qed.

Lemma translate_translated res err : translate res err = translated res err.
Proof. destruct res; destruct err as [[]|]; reflexivity. Qed.

(** C2 (amended). For every call to [Run] that reaches the engine, the
    error returned is determined by the engine's return code and by the
    error the engine reports (the error a host function panicked with,
    when the engine did not return): OutOfGas maps to [ErrOutOfGas],
    ExecutionReverted and Unknown map to [ErrExecutionReverted], StopToken
    maps to a nil error, and Ok, like any other code, leaves the engine's
    error as it is, except that the stop token is cleared: a nil error when
    the engine reports none. *)
Theorem Run_translates_engine_code newLondon inject W ET g contract input readOnly_
        i l code res err i1 i2 :
  vm.Code contract <> [] ->
  Tracer (config i) = WASMLogger l ->
  (if (length input =? 0)%nat then inject (vm.Code contract) else inl (vm.Code contract))
  = inl code ->
  queue_matches_depth i ->
  recovered (ComputeResult inject W ET (registeredHost newLondon) g)
            (engine_entry i contract input readOnly_ code) = (Ret (res, err), i1) ->
  replayTrace W i1 = (Ret tt, i2) ->
  Run newLondon inject W ET g contract input readOnly_ i
  = (Ret (returnData i2,
          match res with
          | ComputeTraceErrorCodeOutOfGas => Some ErrOutOfGas
          | ComputeTraceErrorCodeExecutionReverted => Some ErrExecutionReverted
          | ComputeTraceErrorCodeUnknown => Some ErrExecutionReverted
          | ComputeTraceErrorCodeStopToken => None
          | ComputeTraceErrorCodeOk | ComputeTraceErrorCodeOther _ =>
              match err with
              | Some errStopToken => None
              | _ => err
              end
          end),
     leave (readOnly_ && negb (readOnly i)) i2).
Proof.
  intros Hcode HT Hinj Hi Hengine Hreplay.
  unfold Run.
  apply (Run_with_reaches_engine inject W ET _ contract input readOnly_ i l code);
    try assumption.
  - apply keeps_engine, registeredHost_keeps.
  - unfold run_engine, Go.bind. rewrite Hengine, Hreplay. cbn.
    rewrite translate_translated. reflexivity.
Qed.

(** The amended C2 on a new interpreter and a guest that charges 10 gas:
    the engine returns Ok without error and [Run] returns a nil error. *)
Lemma Run_translates_engine_code_witness :
  Run london no_injection no_names no_text charging_guest Props.sample_contract [1] false
      (fresh_interpreter false)
  = (Ret ([], None),
     leave false
       (snd (recovered
               (ComputeResult no_injection no_names no_text (registeredHost london)
                  charging_guest)
               (engine_entry (fresh_interpreter false) Props.sample_contract [1] false
                  (vm.Code Props.sample_contract))))).
Proof.
  exact (Run_translates_engine_code london no_injection no_names no_text charging_guest
           Props.sample_contract [1] false (fresh_interpreter false)
           (Props.logger_with 0 []) (vm.Code Props.sample_contract)
           ComputeTraceErrorCodeOk None _ _
           ltac:(discriminate) eq_refl eq_refl eq_refl eq_refl eq_refl).
Defined.

(** C2, as stated, fails for the code Ok: outside debug mode, a gas charge
    that exceeds the remaining gas panics with [ErrOutOfGas]; the closure
    around [ComputeResult] recovers the panic, the return code keeps its
    zero value Ok, and [Run] returns [ErrOutOfGas], not a nil error. *)
Lemma Ok_code_with_engine_error :
  fst (recovered
         (ComputeResult no_injection no_names no_text (registeredHost london) hungry_guest)
         (engine_entry (fresh_interpreter false) Props.sample_contract [1] false
            (vm.Code Props.sample_contract)))
  = Ret (ComputeTraceErrorCodeOk, Some ErrOutOfGas)
  /\ fst (Run london no_injection no_names no_text hungry_guest Props.sample_contract [1]
            false (fresh_interpreter false))
     = Ret ([], Some ErrOutOfGas).
Proof. split; vm_compute; reflexivity. Qed.

(** *** The read-only flag *)

Lemma on_tracer_readOnly {A} l (m : M logger.WebAssemblyLogger A) :
  keeps same_readOnly (on_tracer l m).
Proof.
  intros i r i'. unfold on_tracer. destruct (m _) as [r0 l']. intros [= <- <-]. reflexivity.
Qed.

Lemma replayTrace_readOnly W : keeps same_readOnly (replayTrace W).
Proof.
  intros i. unfold replayTrace, tracer_as_WASMLogger. keeps_step.
  destruct (Debug (config i)); [|keeps_step].
  destruct (dump (wasmEngine i)) as [e|trace]; [keeps_step|].
  keeps_step.
  - destruct (ts_GlobalMemory trace) as [entries|]; [|keeps_step].
    keeps_step.
    + assert (Hfold : forall acc : M WASMInterpreter (gmap Z (list Z)),
                 keeps same_readOnly acc ->
                 keeps same_readOnly
                   (fold_left
                      (fun (acc : M WASMInterpreter (gmap Z (list Z))) gm =>
                         let* m := acc
                         in match tm_Data gm with
                            | Some data => ret (<[tm_Offset gm:=data]> m)
                            | None => panic (PanicError (Errorf "invalid hex string"))
                            end) entries acc)).
      { induction entries as [|gm entries IH]; intros acc Hacc; cbn; [exact Hacc|].
        apply IH. intros s. keeps_step; [apply Hacc|]. repeat keeps_step. }
      apply Hfold. intros s. keeps_step.
    + repeat first [ apply on_tracer_readOnly | keeps_step ]; reflexivity.
  - keeps_step; (apply keeps_for_each; [exact _|]; intros fm s;
                 repeat first [ apply on_tracer_readOnly | keeps_step ]; reflexivity).
Qed.

(** C9. [Run] called with [readOnly = false] from a read-only context, on
    a contract with code: when [Run] returns, the read-only flag is false,
    not the value true it had before the call. The engine is any engine
    that does not set the flag by itself. *)
Theorem Run_leaves_readOnly_cleared inject W ET engine contract input i l code :
  readOnly i = true ->
  vm.Code contract <> [] ->
  Tracer (config i) = WASMLogger l ->
  (if (length input =? 0)%nat then inject (vm.Code contract) else inl (vm.Code contract))
  = inl code ->
  queue_matches_depth i ->
  keeps same_shape engine ->
  keeps same_readOnly engine ->
  readOnly (snd (Run_with inject W ET engine contract input false i)) = false.
Proof.
  intros Hro Hcode HT Hinj Hi He Hflag.
  destruct (run_engine W engine (engine_entry i contract input false code)) as [r s1] eqn:E.
  rewrite (Run_with_reaches_engine inject W ET engine contract input false i l code r s1)
    by assumption.
  cbn.
  assert (Hkeep : keeps same_readOnly (run_engine W engine)).
  { intros s. unfold run_engine. keeps_step.
    - intros r0 s'. unfold recovered.
      destruct (engine s) as [[out|[msg|e]] s2] eqn:E2; intros [= <- <-];
        eapply Hflag; eauto.
    - keeps_step; [apply replayTrace_readOnly|]. repeat keeps_step. }
  apply Hkeep in E. exact E.
Qed.

(** C9 on a new interpreter in a read-only context and a guest that
    returns at once. *)
Lemma Run_leaves_readOnly_cleared_witness :
  readOnly (set_readOnly true (fresh_interpreter false)) = true
  /\ readOnly
       (snd (Run_with no_injection no_names no_text
               (ComputeResult no_injection no_names no_text (registeredHost london)
                  (Exit ComputeTraceErrorCodeOk None empty_trace))
               Props.sample_contract [1] false
               (set_readOnly true (fresh_interpreter false))))
     = false.
Proof.
  split; [reflexivity|].
  apply (Run_leaves_readOnly_cleared no_injection no_names no_text _ Props.sample_contract
           [1] (set_readOnly true (fresh_interpreter false)) (Props.logger_with 0 [])
           (vm.Code Props.sample_contract)).
  - reflexivity.
  - discriminate.
  - reflexivity.
  - reflexivity.
  - reflexivity.
  - apply keeps_engine, registeredHost_keeps.
  - intros s r s' [= <- <-]. reflexivity.
Defined.

(** The sibling path: a call with [readOnly = true] from a context that is
    not read-only sets the flag and restores it when [Run] is left. *)
Lemma Run_restores_readOnly_it_set inject W ET engine contract input i l code :
  readOnly i = false ->
  vm.Code contract <> [] ->
  Tracer (config i) = WASMLogger l ->
  (if (length input =? 0)%nat then inject (vm.Code contract) else inl (vm.Code contract))
  = inl code ->
  queue_matches_depth i ->
  keeps same_shape engine ->
  readOnly (snd (Run_with inject W ET engine contract input true i)) = readOnly i.
Proof.
  intros Hro Hcode HT Hinj Hi He.
  destruct (run_engine W engine (engine_entry i contract input true code)) as [r s1] eqn:E.
  rewrite (Run_with_reaches_engine inject W ET engine contract input true i l code r s1)
    by assumption.
  rewrite Hro. reflexivity.
Qed.
End Driver.

(** ** The finalizer of the opcode shim *)

Section Finalizer.
Import wasm InterpProps.

Lemma zeros_length n : length (zeros n) = n.
Proof. apply repeat_length. Qed.

Lemma copy_into_zeros (bs : list Z) : copy_into (zeros (length bs)) bs = bs.
Proof.
  unfold copy_into. rewrite zeros_length, firstn_all.
  rewrite skipn_all2 by (rewrite zeros_length; lia). apply app_nil_r.
Qed.

Lemma slice_zeros_tail (destLen : Z) (bs : list Z) :
  Z.of_nat (length bs) <= destLen ->
  slice (zeros (Z.to_nat destLen)) (destLen - Z.of_nat (length bs)) destLen
  = Some (zeros (length bs))
  /\ firstn (Z.to_nat (destLen - Z.of_nat (length bs))) (zeros (Z.to_nat destLen))
     = zeros (Z.to_nat destLen - length bs).
Proof.
  intros Hle. unfold slice. rewrite zeros_length.
  replace ((0 <=? destLen - Z.of_nat (length bs))
           && (destLen - Z.of_nat (length bs) <=? destLen)
           && (destLen <=? Z.of_nat (Z.to_nat destLen))) with true
    by (symmetry; rewrite !andb_true_iff, !Z.leb_le; lia).
  replace (Z.to_nat (destLen - (destLen - Z.of_nat (length bs)))) with (length bs) by lia.
  replace (Z.to_nat (destLen - Z.of_nat (length bs)))
    with (Z.to_nat destLen - length bs)%nat by lia.
  replace (zeros (Z.to_nat destLen))
    with (zeros (Z.to_nat destLen - length bs) ++ zeros (length bs)).
  2:{ unfold zeros. rewrite <- repeat_app. f_equal. lia. }
  split.
  - rewrite <- (zeros_length (Z.to_nat destLen - length bs)) at 1.
    rewrite drop_app_length. f_equal. apply firstn_all2. rewrite zeros_length. lia.
  - rewrite <- (zeros_length (Z.to_nat destLen - length bs)) at 1.
    apply take_app_length.
Qed.

(** The finalizer on a stack item that fits into [destLen] bytes. *)
Lemma copyLastStackItemToMemory_writes destLen input scope f destOffset top :
  last_item input = Some destOffset ->
  last_item (stack f) = Some top ->
  Z.of_nat (length (Bytes top)) <= destLen ->
  vm.memoryInterceptor (Memory scope) = true ->
  copyLastStackItemToMemory destLen input scope f
  = (Ret None, finalized destLen destOffset top f).
Proof.
  intros Hin Htop Hfit Hmem. unfold copyLastStackItemToMemory, finalized, left_pad. run.
  rewrite Hin, Htop. revert Hfit. generalize (Bytes top). intros bs Hfit.
  destruct (slice_zeros_tail destLen bs Hfit) as [-> ->].
  rewrite copy_into_zeros.
  unfold vm.Set_. rewrite Hmem. run.
  rewrite length_app, !zeros_length.
  replace (Z.of_nat (Z.to_nat destLen - length bs + length bs)) with destLen by lia.
  reflexivity.
Qed.

(** The finalizer on a stack item that does not fit. *)
Lemma copyLastStackItemToMemory_panics destLen input scope f destOffset top :
  last_item input = Some destOffset ->
  last_item (stack f) = Some top ->
  destLen < Z.of_nat (length (Bytes top)) ->
  copyLastStackItemToMemory destLen input scope f
  = (Panic (runtime_panic SliceBoundsOutOfRange), f).
Proof.
  intros Hin Htop Hlong. unfold copyLastStackItemToMemory. run.
  rewrite Hin, Htop. unfold slice.
  destruct (Z.leb_spec 0 (destLen - Z.of_nat (length (Bytes top)))); [lia|].
  reflexivity.
Qed.

Lemma Bytes_of_power (n : nat) :
  (n < 32)%nat -> length (Bytes (2 ^ (8 * Z.of_nat n))) = S n.
Proof.
  intros H.
  do 32 (destruct n as [|n]; [vm_compute; reflexivity|]).
  lia.
Qed.

Lemma registerNativeFunctions_finalizers :
  Forall (fun r => forall fin, finalizer_ r = Some fin ->
                   exists destLen, fin = copyLastStackItemToMemory destLen
                                   /\ In destLen destLens)
         registerNativeFunctions.
Proof.
  unfold registerNativeFunctions.
  repeat (apply List.Forall_cons;
          [ intros fin Hfin; cbn [finalizer_] in Hfin;
            first [ discriminate Hfin
                  | injection Hfin as <-; eexists; split; [reflexivity|];
                    unfold destLens, In; auto 10 ] | ]).
  apply List.Forall_nil.
Qed.

Lemma ScopeWithStack_intercepted i scope i1 :
  ScopeWithStack i = (Ret scope, i1) -> vm.memoryInterceptor (Memory scope) = true.
Proof.
  unfold ScopeWithStack. run. destruct (Scope i) as [[idx|p] i']; intros [= <- <-];
    reflexivity.
Qed.

(** C3 (amended). For every host call whose opcode is registered with a
    finalizer: the finalizer is [copyLastStackItemToMemory destLen] for one
    of the fixed destination lengths (Address 20, U256 32, Size and Uint32
    4, Uint64 8, Hash 32, Bool 1); after the opcode has run, if the byte
    representation of the top of the operand stack is at most [destLen]
    bytes long, the finalizer reads the top of the stack, left-pads its
    bytes with zeroes to exactly [destLen] bytes and hands these [destLen]
    bytes to the engine as a write to guest memory at the offset given by
    the last argument of the host call; the item stays on the stack and
    the outcome of the opcode is the outcome of the host call. *)
Theorem finalizer_writes_padded_item newLondon name reg fin input execute
        i scope i1 r f1 destOffset top :
  registered name = Some reg ->
  finalizer_ reg = Some fin ->
  ScopeWithStack i = (Ret scope, i1) ->
  opcodeBody newLondon input (opcode_ reg) scope (inputPreprocessors_ reg) execute
             (mkFrame i1 (rev input)) = (r, f1) ->
  last_item input = Some destOffset ->
  last_item (stack f1) = Some top ->
  destLens = [20; 32; 4; 4; 8; 32; 1]
  /\ exists destLen,
      fin = copyLastStackItemToMemory destLen
      /\ In destLen destLens
      /\ (Z.of_nat (length (Bytes top)) <= destLen ->
          length (left_pad destLen (Bytes top)) = Z.to_nat destLen
          /\ fin input scope f1 = (Ret None, finalized destLen destOffset top f1)
          /\ stack (finalized destLen destOffset top f1) = stack f1
          /\ processOpcode newLondon input (opcode_ reg) (finalizer_ reg)
               (inputPreprocessors_ reg) execute i
             = (r, interp (finalized destLen destOffset top f1))).
Proof.
  intros Hreg Hfin HS Hbody Hin Htop. split; [reflexivity|].
  pose proof (registered_In name reg Hreg) as HIn.
  destruct (proj1 (List.Forall_forall _ _) registerNativeFunctions_finalizers reg HIn fin Hfin)
    as (destLen & -> & Hd).
  exists destLen. split; [reflexivity|]. split; [exact Hd|].
  intros Hfit.
  pose proof (copyLastStackItemToMemory_writes destLen input scope f1 destOffset top
                Hin Htop Hfit (ScopeWithStack_intercepted i scope i1 HS)) as Hw.
  split; [|split; [exact Hw|split; [reflexivity|]]].
  - unfold left_pad. rewrite length_app, zeros_length. lia.
  - unfold processOpcode, Go.bind. rewrite HS. unfold Go.with_defer. rewrite Hbody.
    rewrite Hfin. unfold runFinalizer, Go.bind. rewrite Hw. reflexivity.
Qed.

(** The amended C3 on [_evm_timestamp] with the destination offset 8 and an
    opcode that pushes the timestamp 2. *)
Lemma finalizer_writes_padded_item_witness :
  exists destLen,
    In destLen destLens
    /\ (Z.of_nat (length (Bytes 2)) <= destLen ->
        length (left_pad destLen (Bytes 2)) = Z.to_nat destLen
        /\ processOpcode london [8] TIMESTAMP (Some (copyLastStackItemToMemory Uint64DestLen))
             [] (pushing 2) (sample_interpreter false Props.sample_logger 100)
           = (Ret None,
              interp (finalized destLen 8 2
                        (snd (opcodeBody london [8] TIMESTAMP
                                (mkScopeRef (vm.newMemoryFromSlice [] true) 0) []
                                (pushing 2)
                                (mkFrame
                                   (snd (ScopeWithStack
                                           (sample_interpreter false Props.sample_logger 100)))
                                   (rev [8]))))))).
Proof.
  destruct (finalizer_writes_padded_item london "_evm_timestamp"
              (mkRegistration "_evm_timestamp" TIMESTAMP
                 (Some (copyLastStackItemToMemory Uint64DestLen)) [])
              (copyLastStackItemToMemory Uint64DestLen) [8] (pushing 2)
              (sample_interpreter false Props.sample_logger 100)
              (mkScopeRef (vm.newMemoryFromSlice [] true) 0)
              (snd (ScopeWithStack (sample_interpreter false Props.sample_logger 100)))
              (Ret None)
              (snd (opcodeBody london [8] TIMESTAMP
                      (mkScopeRef (vm.newMemoryFromSlice [] true) 0) [] (pushing 2)
                      (mkFrame
                         (snd (ScopeWithStack
                                 (sample_interpreter false Props.sample_logger 100)))
                         (rev [8]))))
              8 2 eq_refl eq_refl eq_refl eq_refl eq_refl eq_refl)
    as (_ & destLen & _ & Hd & Hw).
  exists destLen. split; [exact Hd|].
  intros Hfit. destruct (Hw Hfit) as (Hlen & _ & _ & Hrun). split; [exact Hlen | exact Hrun].
Defined.

(** C3, as stated, fails: [_evm_timestamp] is registered with the
    destination length 8; the finalizer leaves the item it writes on the
    stack; and when the opcode leaves 2^64 on the stack, whose byte
    representation has 9 bytes, the host call panics and the engine
    receives no write. *)
Lemma finalizer_does_not_write_long_item :
  registered "_evm_timestamp"
  = Some (mkRegistration "_evm_timestamp" TIMESTAMP
            (Some (copyLastStackItemToMemory Uint64DestLen)) [])
  /\ length (Bytes (2 ^ 64)) = 9%nat
  /\ stack (snd (copyLastStackItemToMemory Uint64DestLen [8]
                   (mkScopeRef (vm.newMemoryFromSlice [] true) 0)
                   (mkFrame (sample_interpreter false Props.sample_logger 100) [7; 2])))
     = [7; 2]
  /\ fst (processOpcode london [8] TIMESTAMP (Some (copyLastStackItemToMemory Uint64DestLen))
            [] (pushing (2 ^ 64)) (sample_interpreter false Props.sample_logger 100))
     = Panic (runtime_panic SliceBoundsOutOfRange)
  /\ memoryChanges
       (wasmEngine
          (snd (processOpcode london [8] TIMESTAMP
                  (Some (copyLastStackItemToMemory Uint64DestLen))
                  [] (pushing (2 ^ 64)) (sample_interpreter false Props.sample_logger 100))))
     = [].
Proof. repeat split; vm_compute; reflexivity. Qed.

(** C10. For a destination length below 32 there are 256-bit stack items
    whose byte representation is longer, [2^(8*destLen)] being one; on
    such an item the finalizer panics with a slice-bounds run-time error,
    without a write and without returning an error; when the finalizer
    returns, the byte representation of the top of the stack is at most
    [destLen] bytes long. *)
Theorem finalizer_panics_on_long_item (destLen : Z) :
  0 <= destLen < 32 ->
  destLen < Z.of_nat (length (Bytes (2 ^ (8 * destLen))))
  /\ (forall input scope f destOffset top,
        last_item input = Some destOffset ->
        last_item (stack f) = Some top ->
        destLen < Z.of_nat (length (Bytes top)) ->
        copyLastStackItemToMemory destLen input scope f
        = (Panic (runtime_panic SliceBoundsOutOfRange), f))
  /\ (forall input scope f destOffset top err f',
        last_item input = Some destOffset ->
        last_item (stack f) = Some top ->
        copyLastStackItemToMemory destLen input scope f = (Ret err, f') ->
        Z.of_nat (length (Bytes top)) <= destLen).
Proof.
  intros Hd. split; [|split].
  - replace destLen with (Z.of_nat (Z.to_nat destLen)) at 2 by lia.
    rewrite Bytes_of_power by lia. lia.
  - intros. apply copyLastStackItemToMemory_panics with (destOffset := destOffset) (top := top);
      assumption.
  - intros input scope f destOffset top err f' Hin Htop Hret.
    destruct (Z.le_gt_cases (Z.of_nat (length (Bytes top))) destLen) as [Hle|Hgt];
      [exact Hle|].
    rewrite (copyLastStackItemToMemory_panics destLen input scope f destOffset top)
      in Hret by (assumption || lia).
    discriminate.
Qed.

(** C10 on [_evm_timestamp]: the destination length is 8 and a timestamp
    of 2^64 on the stack makes the finalizer panic. *)
Lemma finalizer_panics_on_long_item_witness :
  (finalizer_ <$> registered "_evm_timestamp")
  = Some (Some (copyLastStackItemToMemory 8))
  /\ 0 <= 8 < 32
  /\ 8 < Z.of_nat (length (Bytes (2 ^ (8 * 8))))
  /\ copyLastStackItemToMemory 8 [16] (mkScopeRef (vm.newMemoryFromSlice [] true) 0)
       (mkFrame (sample_interpreter false Props.sample_logger 100) [16; 2 ^ 64])
     = (Panic (runtime_panic SliceBoundsOutOfRange),
        mkFrame (sample_interpreter false Props.sample_logger 100) [16; 2 ^ 64]).
Proof.
  split; [reflexivity|]. split; [lia|].
  destruct (finalizer_panics_on_long_item 8 ltac:(lia)) as (Hex & Hpanic & _).
  split; [exact Hex|].
  apply (Hpanic [16] _ _ 16 (2 ^ 64)); [reflexivity | reflexivity | vm_compute; reflexivity].
Defined.
End Finalizer.

Section GasDecrease.
Import wasm InterpProps.

Lemma bind_Ret_inv {S A B} (m : M S A) (k : A -> M S B) s b s' :
  Go.bind m k s = (Ret b, s') -> exists a s1, m s = (Ret a, s1) /\ k a s1 = (Ret b, s').
Proof. unfold Go.bind. destruct (m s) as [[a|p] s1]; [eauto | discriminate]. Qed.









End GasDecrease.

(** ** The memory view on a plain store *)

Section MemoryFacts.
Context {S : Type} `{vm.MemoryInterceptor S}.

Lemma copy_into_length (dst src : list Z) : length (copy_into dst src) = length dst.
Proof.
  unfold copy_into. rewrite length_app, length_firstn, length_skipn. lia.
Qed.

Lemma copy_into_exact (dst src : list Z) :
  length src = length dst -> copy_into dst src = src.
Proof.
  intros Hl. unfold copy_into. rewrite <- Hl, firstn_all, skipn_all2 by lia.
  apply app_nil_r.
Qed.

Lemma slice_in_range {A} (s : list A) (lo hi : Z) :
  0 <= lo -> lo <= hi -> hi <= Z.of_nat (length s) ->
  slice s lo hi = Some (firstn (Z.to_nat (hi - lo)) (skipn (Z.to_nat lo) s)).
Proof.
  intros H0 H1 H2. unfold slice.
  replace ((0 <=? lo) && (lo <=? hi) && (hi <=? Z.of_nat (length s))) with true
    by (symmetry; rewrite !andb_true_iff, !Z.leb_le; lia).
  reflexivity.
Qed.

Lemma slice_Some_range {A} (s : list A) (lo hi : Z) (r : list A) :
  slice s lo hi = Some r ->
  0 <= lo /\ lo <= hi /\ hi <= Z.of_nat (length s)
  /\ r = firstn (Z.to_nat (hi - lo)) (skipn (Z.to_nat lo) s)
  /\ length r = Z.to_nat (hi - lo).
Proof.
  unfold slice.
  destruct ((0 <=? lo) && (lo <=? hi) && (hi <=? Z.of_nat (length s))) eqn:E;
    [|discriminate].
  rewrite !andb_true_iff, !Z.leb_le in E. intros [= <-].
  repeat split; try lia. rewrite length_firstn, length_skipn. lia.
Qed.

Lemma uint64_small (z : Z) : 0 <= z < 2 ^ 64 -> uint64 z = z.
Proof. intros Hz. unfold uint64. apply Z.mod_small. exact Hz. Qed.

Lemma be_bytes_length (fuel : nat) (n : Z) (acc : list Z) :
  (length (be_bytes fuel n acc) <= fuel + length acc)%nat.
Proof.
  revert n acc. induction fuel as [|fuel IH]; intros n acc; cbn [be_bytes]; [lia|].
  destruct (n =? 0); [lia|]. specialize (IH (n / 256) (n mod 256 :: acc)). cbn in IH. lia.
Qed.

Lemma Bytes_length (x : Z) : (length (Bytes x) <= 32)%nat.
Proof. unfold Bytes. pose proof (be_bytes_length 32 (x mod 2 ^ 256) []). cbn in *. lia. Qed.

Lemma Bytes32_length (x : Z) : length (Bytes32 x) = 32%nat.
Proof.
  unfold Bytes32, zeros. rewrite length_app, repeat_length.
  pose proof (Bytes_length x). lia.
Qed.



(** X2. [Memory.Set] on a plain store changes neither the length of the
    store nor any byte outside the span it writes, does not touch the
    interceptor's state, and does not panic when [size] is zero. *)
Theorem Set_keeps_store_outside_span (m : vm.Memory) (offset size : Z) (value : list Z)
        (s s' : S) (r : result vm.Memory) :
  vm.memoryInterceptor m = false ->
  vm.Set_ m offset size value s = (r, s') ->
  s' = s
  /\ match r with
     | Ret m' =>
         vm.Len m' = vm.Len m
         /\ (0 < size ->
             firstn (Z.to_nat offset) (vm.store m') = firstn (Z.to_nat offset) (vm.store m)
             /\ skipn (Z.to_nat (uint64 (offset + size))) (vm.store m')
                = skipn (Z.to_nat (uint64 (offset + size))) (vm.store m))
         /\ (size <= 0 -> m' = m)
     | Panic _ => 0 < size
     end.
Proof.
  intros Hp. unfold vm.Set_, vm.Len. rewrite Hp.
  destruct (Z.ltb_spec 0 size) as [Hs|Hs].
  2:{ intros [= <- <-]. split; [reflexivity|]. split; [reflexivity|].
      split; [intros; lia | reflexivity]. }
  destruct (Z.ltb_spec (Z.of_nat (length (vm.store m))) (uint64 (offset + size))) as [Hb|Hb].
  { intros [= <- <-]. split; [reflexivity | exact Hs]. }
  destruct (slice (vm.store m) offset (uint64 (offset + size))) as [region|] eqn:Esl.
  2:{ intros [= <- <-]. split; [reflexivity | exact Hs]. }
  intros [= <- <-]. split; [reflexivity|].
  apply slice_Some_range in Esl. destruct Esl as (H0 & H1 & H2 & _ & Hlen).
  cbn [vm.store].
  assert (Hpre : length (firstn (Z.to_nat offset) (vm.store m)) = Z.to_nat offset)
    by (rewrite length_firstn; lia).
  split; [|split; [|lia]].
  - rewrite !length_app, copy_into_length, Hlen, Hpre, length_skipn. lia.
  - intros _. split.
    + rewrite <- Hpre at 1. apply take_app_length.
    + rewrite app_assoc.
      replace (Z.to_nat (uint64 (offset + size)))
        with (length (firstn (Z.to_nat offset) (vm.store m) ++ copy_into region value)) at 1
        by (rewrite length_app, copy_into_length, Hlen, Hpre; lia).
      apply drop_app_length.
Qed.


(** X4. [Memory.Set32] writes what [Memory.Set] writes for the 32
    big-endian bytes of the word: with or without interceptor the two
    calls have the same outcome, panics included. *)
Theorem Set32_is_Set_of_Bytes32 (m : vm.Memory) (offset val : Z) (s : S) :
  0 <= offset < 2 ^ 64 ->
  vm.Len m < 2 ^ 63 ->
  Set32 m offset val s = vm.Set_ m offset 32 (Bytes32 val) s.
Proof.
  intros Ho Hl. unfold Set32, vm.Set_, vm.Len in *.
  destruct (vm.memoryInterceptor m); [reflexivity|].
  change (0 <? 32) with true. cbv iota.
  destruct (Z.ltb_spec (Z.of_nat (length (vm.store m))) (uint64 (offset + 32))) as [|Hb];
    [reflexivity|].
  destruct (Z.lt_ge_cases (offset + 32) (2 ^ 64)) as [Hsmall|Hwrap].
  - rewrite (uint64_small (offset + 32)) in * by lia.
    rewrite (slice_in_range (vm.store m) offset (offset + 32)) by lia.
    rewrite (slice_in_range (vm.store m) offset (Z.of_nat (length (vm.store m)))) by lia.
    do 3 f_equal.
    pose proof (Bytes32_length val) as H32.
    rewrite (copy_into_exact (firstn (Z.to_nat (offset + 32 - offset)) _)).
    2:{ rewrite length_firstn, length_skipn. lia. }
    rewrite (firstn_all2 (n := Z.to_nat (Z.of_nat (length (vm.store m)) - offset)))
      by (rewrite length_skipn; lia).
    unfold copy_into. rewrite H32.
    rewrite firstn_all2 by (rewrite length_skipn; lia).
    rewrite skipn_skipn. do 2 f_equal. lia.
  - assert (Hu : uint64 (offset + 32) = offset + 32 - 2 ^ 64).
    { unfold uint64. rewrite <- (Z.mod_small (offset + 32 - 2 ^ 64) (2 ^ 64)) by lia.
      rewrite <- (Z_mod_plus_full (offset + 32 - 2 ^ 64) 1 (2 ^ 64)).
      f_equal. lia. }
    unfold slice.
    replace ((0 <=? offset) && (offset <=? uint64 (offset + 32))
             && (uint64 (offset + 32) <=? Z.of_nat (length (vm.store m)))) with false.
    2:{ symmetry. rewrite !andb_false_iff, !Z.leb_gt. lia. }
    replace ((0 <=? offset) && (offset <=? Z.of_nat (length (vm.store m)))
             && (Z.of_nat (length (vm.store m)) <=? Z.of_nat (length (vm.store m))))
      with false.
    2:{ symmetry. rewrite !andb_false_iff, !Z.leb_gt. lia. }
    reflexivity.
Qed.
End MemoryFacts.


Lemma Set_keeps_store_outside_span_witness :
  InterpProps.sample_interpreter false Props.sample_logger 100
  = InterpProps.sample_interpreter false Props.sample_logger 100
  /\ vm.Len (vm.mkMemory [1; 7; 8; 4] 0 false) = vm.Len (vm.mkMemory [1; 2; 3; 4] 0 false)
  /\ (0 < 2 ->
      firstn (Z.to_nat 1) [1; 7; 8; 4] = firstn (Z.to_nat 1) [1; 2; 3; 4]
      /\ skipn (Z.to_nat (uint64 (1 + 2))) [1; 7; 8; 4]
         = skipn (Z.to_nat (uint64 (1 + 2))) [1; 2; 3; 4])
  /\ (2 <= 0 -> vm.mkMemory [1; 7; 8; 4] 0 false = vm.mkMemory [1; 2; 3; 4] 0 false).
Proof.
  exact (Set_keeps_store_outside_span (vm.mkMemory [1; 2; 3; 4] 0 false) 1 2 [7; 8]
           (InterpProps.sample_interpreter false Props.sample_logger 100)
           (InterpProps.sample_interpreter false Props.sample_logger 100)
           (Ret (vm.mkMemory [1; 7; 8; 4] 0 false)) eq_refl eq_refl).
Defined.


Lemma Set32_is_Set_of_Bytes32_witness :
  Set32 (vm.mkMemory (zeros 40) 0 false) 4 258
        (InterpProps.sample_interpreter false Props.sample_logger 100)
  = vm.Set_ (vm.mkMemory (zeros 40) 0 false) 4 32 (Bytes32 258)
            (InterpProps.sample_interpreter false Props.sample_logger 100).
Proof.
  apply (Set32_is_Set_of_Bytes32 (vm.mkMemory (zeros 40) 0 false) 4 258
           (InterpProps.sample_interpreter false Props.sample_logger 100)).
  - lia.
  - reflexivity.
Defined.

(** ** The tracer under any sequence of captures *)

Section TracerInvariants.
Import logger Props TracerCalls.

Lemma capture_storage_frame op contract stackData (l : WebAssemblyLogger) :
  exists st l',
    capture_storage op contract stackData l = (Ret st, l')
    /\ logs l' = logs l /\ env l' = env l /\ cfg l' = cfg l
    /\ interrupt l' = interrupt l /\ reason l' = reason l.
Proof.
  unfold capture_storage. run.
  repeat match goal with
         | |- context [if ?b then _ else _] => destruct b
         end; eauto 10.
Qed.

Lemma limit_not_reached (l : WebAssemblyLogger) :
  limit_reached l = false ->
  0 < Limit (cfg l) -> Z.of_nat (length (logs l)) < Limit (cfg l).
Proof.
  unfold limit_reached. rewrite andb_false_iff, negb_false_iff, Z.eqb_eq, Z.leb_gt.
  intros [H|H] Hpos; lia.
Qed.

Lemma sound_same (l l' : WebAssemblyLogger) :
  reason l' = reason l -> logs l' = logs l -> cfg l' = cfg l -> sound l -> sound l'.
Proof. unfold sound. intros -> -> ->. tauto. Qed.

Lemma sound_replace_last (l l' : WebAssemblyLogger) lastLog rec :
  reason l' = reason l -> cfg l' = cfg l ->
  last_item (logs l) = Some lastLog ->
  logs l' = removelast (logs l) ++ [rec] ->
  known_family rec ->
  sound l -> sound l'.
Proof.
  unfold sound. intros -> -> Hlast -> Hrec (Hr & Hf & Hlim).
  apply last_item_snoc_inv in Hlast. destruct Hlast as [pre Hl].
  rewrite Hl in *. rewrite removelast_snoc.
  split; [exact Hr|]. split.
  - apply Forall_app in Hf. destruct Hf as [Hpre _].
    apply Forall_app. split; [exact Hpre|]. apply List.Forall_cons; [exact Hrec|].
    apply List.Forall_nil.
  - rewrite !length_app in *. exact Hlim.
Qed.

Lemma CaptureWasmState_sound pc op memory scope depth drop keep (l : WebAssemblyLogger) :
  sound l -> sound (snd (CaptureWasmState pc op memory scope depth drop keep l)).
Proof.
  intros Hs. unfold CaptureWasmState. run.
  destruct (0 <? interrupt l); [exact (sound_same _ _ eq_refl eq_refl eq_refl Hs)|].
  destruct (limit_reached l) eqn:Hlim; [exact Hs|].
  destruct (DisableStack (cfg l)); [|destruct (vm.Stack scope); [|exact Hs]];
    (destruct Hs as (Hr & Hf & Hl); split; [exact Hr|]; split;
     [ apply Forall_app; split; [exact Hf|];
       apply List.Forall_cons; [discriminate | apply List.Forall_nil]
     | cbn; intros Hpos; pose proof (limit_not_reached l Hlim Hpos);
       rewrite length_app; cbn; lia ]).
Qed.

Lemma CaptureGasState_sound gasCost scope depth err (l : WebAssemblyLogger) :
  sound l -> sound (snd (CaptureGasState gasCost scope depth err l)).
Proof.
  intros Hs. unfold CaptureGasState. run.
  destruct (0 <? interrupt l); [exact (sound_same _ _ eq_refl eq_refl eq_refl Hs)|].
  destruct (last_item (logs l)) as [lastLog|] eqn:Hlast; [|exact Hs].
  destruct (is_wasm_call lastLog); [|exact Hs].
  cbn [negb snd].
  eapply (sound_replace_last l); [reflexivity | reflexivity | exact Hlast | reflexivity | | exact Hs].
  discriminate.
Qed.

Lemma CaptureState_sound pc op gas cost scope rData depth err (l : WebAssemblyLogger) :
  sound l -> sound (snd (CaptureState pc op gas cost scope rData depth err l)).
Proof.
  intros Hs. unfold CaptureState. run.
  destruct (0 <? interrupt l); [exact (sound_same _ _ eq_refl eq_refl eq_refl Hs)|].
  destruct (limit_reached l); [exact Hs|].
  destruct (EnableMemory (cfg l)); [destruct (vm.Memory_ scope); [|exact Hs]|];
    cbv beta iota;
    (destruct (vm.Stack scope) as [stackData|]; [|exact Hs];
     destruct (capture_storage_frame op (vm.Contract_ scope) stackData l)
       as (st & l1 & E & Hlogs & _ & Hcfg & _ & Hreason);
     rewrite E;
     assert (Hs1 : sound l1) by (exact (sound_same _ _ Hreason Hlogs Hcfg Hs));
     destruct (last_item (logs l1)) as [lastLog|] eqn:Hlast; [|exact Hs1];
     destruct (is_wasm_call lastLog); [|exact Hs1];
     cbn [negb snd];
     eapply (sound_replace_last l1);
       [reflexivity | reflexivity | exact Hlast | reflexivity | | exact Hs1];
     discriminate).
Qed.

Lemma perform_sound W (c : call) (l : WebAssemblyLogger) :
  sound l -> sound (snd (perform W c l)).
Proof.
  intros Hs. destruct c; cbn [perform].
  - apply CaptureWasmState_sound, Hs.
  - apply CaptureGasState_sound, Hs.
  - apply CaptureState_sound, Hs.
  - unfold CaptureGlobalVariable. destruct op; [|exact Hs].
    exact (sound_same _ _ eq_refl eq_refl eq_refl Hs).
  - exact (sound_same _ _ eq_refl eq_refl eq_refl Hs).
  - exact (sound_same _ _ eq_refl eq_refl eq_refl Hs).
  - exact (sound_same _ _ eq_refl eq_refl eq_refl Hs).
  - exact (sound_same _ _ eq_refl eq_refl eq_refl Hs).
  - exact (sound_same _ _ eq_refl eq_refl eq_refl Hs).
Qed.

Lemma perform_cfg W (c : call) (l : WebAssemblyLogger) : cfg (snd (perform W c l)) = cfg l.
Proof.
  destruct c; cbn [perform].
  - unfold CaptureWasmState. run.
    repeat match goal with
           | |- context [if ?b then _ else _] => destruct b
           | |- context [match vm.Stack ?s with _ => _ end] => destruct (vm.Stack s)
           end; reflexivity.
  - unfold CaptureGasState. run.
    repeat match goal with
           | |- context [if ?b then _ else _] => destruct b
           | |- context [match last_item ?s with _ => _ end] => destruct (last_item s)
           end; reflexivity.
  - unfold CaptureState. run.
    destruct (0 <? interrupt l); [reflexivity|].
    destruct (limit_reached l); [reflexivity|].
    destruct (EnableMemory (cfg l)); [destruct (vm.Memory_ scope); [|reflexivity]|];
      (destruct (vm.Stack scope) as [stackData|]; [|reflexivity];
       destruct (capture_storage_frame op (vm.Contract_ scope) stackData l)
         as (st & l1 & E & _ & _ & Hcfg & _);
       rewrite E;
       destruct (last_item (logs l1)) as [lastLog|]; [|exact Hcfg];
       destruct (is_wasm_call lastLog); exact Hcfg).
  - unfold CaptureGlobalVariable. destruct op; reflexivity.
  - reflexivity.
  - reflexivity.
  - reflexivity.
  - reflexivity.
  - reflexivity.
Qed.

Lemma perform_all_sound W (cs : list call) (l : WebAssemblyLogger) :
  sound l -> sound (perform_all W cs l) /\ cfg (perform_all W cs l) = cfg l.
Proof.
  revert l. induction cs as [|c cs IH]; intros l Hs; cbn [perform_all]; [tauto|].
  destruct (IH (snd (perform W c l)) (perform_sound W c l Hs)) as [H1 H2].
  split; [exact H1|]. rewrite H2. apply perform_cfg.
Qed.

Lemma NewWebAssemblyLogger_sound c e : sound (NewWebAssemblyLogger c e).
Proof.
  split; [reflexivity|]. split; [apply List.Forall_nil|]. cbn. lia.
Qed.

Lemma FormatWasmLogs_formats W O E (records : list WasmLog.t) :
  Forall known_family records ->
  exists rs, FormatWasmLogs W O E records tt = (Ret rs, tt) /\ Forall2 formats rs records.
Proof.
  induction 1 as [|r records Hr _ IH]; cbn [FormatWasmLogs].
  - eexists. split; [reflexivity | constructor].
  - destruct IH as (rs & IH & Hrs). run. unfold format_log, OpName.
    unfold known_family in Hr.
    destruct (WasmLog.OpFamily r) eqn:F; try congruence;
      try destruct (W (vm.Code_ (WasmLog.Op r))); run; rewrite IH;
      (eexists; split; [reflexivity|]; constructor; [|exact Hrs];
       unfold formats; cbn; rewrite F; repeat split).
Qed.

(** X5. However the capture methods are called on a tracer made by
    [NewWebAssemblyLogger], in any number and order and whether they
    return or panic, [GetResult] afterwards returns a formatted result
    (it neither reports an aborted tracing nor panics on an unknown
    family), with one formatted entry per record of the trace log, in
    order, carrying the record's pc, family name, gas, gas cost, depth,
    refund and drop. *)
Theorem GetResult_after_captures W O E (c : option Config) (e : vm.EVM) (cs : list call) :
  exists r,
    GetResult W O E (perform_all W cs (NewWebAssemblyLogger c e)) tt = (Ret (inl r), tt)
    /\ Forall2 formats (WasmExecutionResult.StructLogs r)
                       (logs (perform_all W cs (NewWebAssemblyLogger c e)))
    /\ length (WasmExecutionResult.StructLogs r)
       = length (logs (perform_all W cs (NewWebAssemblyLogger c e))).
Proof.
  destruct (perform_all_sound W cs _ (NewWebAssemblyLogger_sound c e)) as [(Hr & Hf & _) _].
  destruct (FormatWasmLogs_formats W O E _ Hf) as (rs & Hrs & H2).
  unfold GetResult. rewrite Hr. run. unfold WasmLogs. rewrite Hrs.
  eexists. split; [reflexivity|]. cbn. split; [exact H2|].
  eapply Forall2_length; eauto.
Qed.

(** X6. With a positive limit, the trace log of a tracer made by
    [NewWebAssemblyLogger] never holds more records than the limit,
    however the capture methods are called. *)
Theorem captures_never_exceed_limit W (c : Config) (e : vm.EVM) (cs : list call) :
  0 < Limit c ->
  Z.of_nat (length (logs (perform_all W cs (NewWebAssemblyLogger (Some c) e)))) <= Limit c.
Proof.
  intros Hpos.
  destruct (perform_all_sound W cs _ (NewWebAssemblyLogger_sound (Some c) e))
    as [(_ & _ & Hl) Hcfg].
  rewrite Hcfg in Hl. apply Hl. exact Hpos.
Qed.

Lemma captures_never_exceed_limit_witness :
  0 < Limit (sample_config 1)
  /\ Z.of_nat (length (logs (perform_all (fun _ => None) sample_calls
                              (NewWebAssemblyLogger (Some (sample_config 1)) sample_evm))))
     <= Limit (sample_config 1).
Proof.
  split; [reflexivity|].
  apply (captures_never_exceed_limit (fun _ => None) (sample_config 1) sample_evm sample_calls).
  reflexivity.
Defined.
End TracerInvariants.

Section TracerEdges.
Import logger Props TracerCalls.

Lemma FormatWasmLogs_unknown W O E (records : list WasmLog.t) :
  Exists (fun r => WasmLog.OpFamily r = OpCodeFamilyUnknown) records ->
  FormatWasmLogs W O E records tt = (Panic (PanicString "unknown family, not possible"), tt).
Proof.
  induction records as [|r records IH]; intros Hex; [inversion Hex|].
  cbn [FormatWasmLogs]. run. unfold format_log, OpName.
  destruct (WasmLog.OpFamily r) eqn:F; [reflexivity| | |];
    (assert (Hrest : Exists (fun r => WasmLog.OpFamily r = OpCodeFamilyUnknown) records)
       by (inversion Hex; subst; [congruence | assumption]));
    try destruct (W (vm.Code_ (WasmLog.Op r))); run; rewrite (IH Hrest); reflexivity.
Qed.

(** X7. On records that hold an operation, as every record that the
    tracer makes does, [FormatWasmLogs] returns exactly when every record
    is of one of the three known families; a record of the zero family
    makes it panic with "unknown family, not possible", whatever the
    other records are. A record whose [Op] is nil is not among the
    records of this statement. *)
Theorem FormatWasmLogs_returns_iff_known W O E (records : list WasmLog.t) :
  (Forall known_family records <->
   exists rs, FormatWasmLogs W O E records tt = (Ret rs, tt))
  /\ (Exists (fun r => WasmLog.OpFamily r = OpCodeFamilyUnknown) records <->
      FormatWasmLogs W O E records tt
      = (Panic (PanicString "unknown family, not possible"), tt)).
Proof.
  assert (Hdec : Forall known_family records
                 \/ Exists (fun r => WasmLog.OpFamily r = OpCodeFamilyUnknown) records).
  { induction records as [|r records [IH|IH]].
    - left. apply List.Forall_nil.
    - destruct (decide (WasmLog.OpFamily r = OpCodeFamilyUnknown)) as [Hu|Hk].
      + right. apply Exists_cons_hd. exact Hu.
      + left. apply List.Forall_cons; assumption.
    - right. apply Exists_cons_tl. exact IH. }
  split; split.
  - intros Hf. destruct (FormatWasmLogs_formats W O E records Hf) as (rs & Hrs & _). eauto.
  - intros [rs Hrs]. destruct Hdec as [Hf|Hex]; [exact Hf|].
    rewrite (FormatWasmLogs_unknown W O E records Hex) in Hrs. discriminate.
  - apply FormatWasmLogs_unknown.
  - intros Hp. destruct Hdec as [Hf|Hex]; [|exact Hex].
    destruct (FormatWasmLogs_formats W O E records Hf) as (rs & Hrs & _).
    rewrite Hrs in Hp. discriminate.
Qed.

Lemma interrupted_perform W (c : call) (l : WebAssemblyLogger) :
  0 < interrupt l ->
  logs (snd (perform W c l)) = logs l
  /\ interrupt (snd (perform W c l)) = interrupt l
  /\ reason (snd (perform W c l)) = reason l.
Proof.
  intros Hi. apply Z.ltb_lt in Hi.
  destruct c; cbn [perform];
    try (unfold CaptureWasmState, CaptureGasState, CaptureState; run; rewrite Hi;
         repeat split; reflexivity);
    try (repeat split; reflexivity).
  unfold CaptureGlobalVariable. destruct op; repeat split; reflexivity.
Qed.

Lemma interrupted_perform_all W (cs : list call) (l : WebAssemblyLogger) :
  0 < interrupt l ->
  logs (perform_all W cs l) = logs l
  /\ interrupt (perform_all W cs l) = interrupt l
  /\ reason (perform_all W cs l) = reason l.
Proof.
  revert l. induction cs as [|c cs IH]; intros l Hi; cbn [perform_all]; [tauto|].
  destruct (interrupted_perform W c l Hi) as (H1 & H2 & H3).
  destruct (IH (snd (perform W c l)) ltac:(lia)) as (H4 & H5 & H6).
  repeat split; congruence.
Qed.

(** X8. After [Stop], the tracer records nothing more: whatever capture
    calls follow, the trace log stays as it was at the [Stop]; each call
    of [CaptureWasmState], [CaptureGasState] and [CaptureState] returns
    at once having cancelled the EVM; and [GetResult] returns the error
    given to [Stop] instead of a result. *)
Theorem Stop_silences_tracer W O E (err : option error) (l : WebAssemblyLogger)
        (cs : list call) :
  logs (perform_all W cs (snd (Stop err l))) = logs l
  /\ (forall l', 0 < interrupt l' ->
        (forall pc op memory scope depth drop keep,
            CaptureWasmState pc op memory scope depth drop keep l'
            = (Ret tt, set_env (vm.Cancel (env l')) l'))
        /\ (forall gasCost scope depth e,
            CaptureGasState gasCost scope depth e l'
            = (Ret tt, set_env (vm.Cancel (env l')) l'))
        /\ (forall pc op gas cost scope rData depth e,
            CaptureState pc op gas cost scope rData depth e l'
            = (Ret tt, set_env (vm.Cancel (env l')) l')))
  /\ 0 < interrupt (perform_all W cs (snd (Stop err l)))
  /\ (forall e, err = Some e ->
        GetResult W O E (perform_all W cs (snd (Stop err l))) tt = (Ret (inr e), tt)).
Proof.
  assert (Hi : 0 < interrupt (snd (Stop err l))) by (cbn; lia).
  destruct (interrupted_perform_all W cs _ Hi) as (H1 & H2 & H3).
  split; [exact H1|]. split; [|split].
  - intros l' Hl'. apply Z.ltb_lt in Hl'.
    repeat split; intros; unfold CaptureWasmState, CaptureGasState, CaptureState; run;
      rewrite Hl'; reflexivity.
  - rewrite H2. exact Hi.
  - intros e ->. unfold GetResult. rewrite H3. reflexivity.
Qed.

(** X9. [CaptureGlobalMemoryState] merges: after the call the tracer's
    global memory holds, at every offset, the bytes just given for it, or
    else the bytes it held before; [GetResult] shows them as lower-case
    hexadecimal text without prefix. *)
Theorem CaptureGlobalMemoryState_merges W O E (g : gmap Z (list Z)) (l : WebAssemblyLogger)
        (k : Z) :
  exists m',
    globalMemory (snd (CaptureGlobalMemoryState g l)) = Some m'
    /\ m' !! k = match g !! k with
                 | Some v => Some v
                 | None => default ∅ (globalMemory l) !! k
                 end
    /\ (forall r,
          GetResult W O E (snd (CaptureGlobalMemoryState g l)) tt = (Ret (inl r), tt) ->
          WasmExecutionResult.GlobalMemory r !! k = hex <$> (m' !! k)).
Proof.
  eexists. split; [reflexivity|]. split.
  - destruct (g !! k) as [v|] eqn:Hg.
    + apply lookup_union_Some_l. exact Hg.
    + rewrite lookup_union_r by exact Hg. reflexivity.
  - intros r. unfold GetResult. cbn [snd CaptureGlobalMemoryState Go.modify reason
                                       set_globalMemory globalMemory].
    destruct (reason l); [discriminate|]. run.
    destruct (FormatWasmLogs W O E _ tt) as [[rs|p] u]; [|discriminate].
    intros [= <-]. cbn [WasmExecutionResult.GlobalMemory].
    rewrite lookup_fmap.
    destruct ((g ∪ default ∅ (globalMemory l)) !! k); reflexivity.
Qed.
End TracerEdges.

Section TracerStorage.
Import logger Props StorageProps.

Lemma nth_last_snoc (st : list Z) (x : Z) :
  nth (length (st ++ [x]) - 1) (st ++ [x]) 0 = x.
Proof.
  rewrite length_app. cbn [length].
  replace (length st + 1 - 1)%nat with (length st) by lia.
  rewrite app_nth2 by lia. now rewrite Nat.sub_diag.
Qed.

Lemma CaptureState_with_storage (l : WebAssemblyLogger) pre lastLog pc op gas cost scope
      stackData rData depth err st l1 :
  awaits_opcode l pre lastLog ->
  vm.Stack scope = Some stackData ->
  (EnableMemory (cfg l) = true -> vm.Memory_ scope <> None) ->
  capture_storage op (vm.Contract_ scope) stackData l = (Ret st, l1) ->
  logs l1 = logs l ->
  CaptureState pc op gas cost scope rData depth err l
  = (Ret tt,
     set_logs
       (pre ++ [WasmLog.mk (WasmLog.Pc lastLog) OpCodeFamilyEVM (vm.EvmOpCodeInfo op) []
                  gas cost
                  (WasmLog.Memory lastLog) (WasmLog.MemoryOffset lastLog)
                  (WasmLog.MemorySize lastLog) (WasmLog.Stack lastLog)
                  (if EnableReturnData (cfg l) then Some rData else None)
                  st depth (vm.GetRefund (env l1)) err 0 0]) l1).
Proof.
  intros (Hi & Hlim & Hl & Hc) Hs Hm E Hlogs. unfold CaptureState. run.
  rewrite Hi, Hlim, Hs.
  destruct (EnableMemory (cfg l)) eqn:EM;
    [destruct (vm.Memory_ scope) eqn:MM; [|exfalso; now apply Hm]|];
    rewrite E, Hlogs, Hl, last_item_snoc, Hc, removelast_snoc; reflexivity.
Qed.

Lemma capture_storage_SLOAD contract (st : list Z) (top : Z) (l : WebAssemblyLogger) :
  DisableStorage (cfg l) = false ->
  capture_storage vm.SLOAD contract (st ++ [top]) l
  = (Ret (Some (<[word top := vm.GetState (env l) (vm.Address contract) (word top)]>
                  (default ∅ (storage l !! vm.Address contract)))),
     set_storage
       (<[vm.Address contract :=
            <[word top := vm.GetState (env l) (vm.Address contract) (word top)]>
              (default ∅ (storage l !! vm.Address contract))]> (storage l)) l).
Proof.
  intros Hd. unfold capture_storage. run. rewrite Hd. cbn [negb andb orb].
  change (vm.SLOAD =? vm.SLOAD) with true. cbn [andb orb].
  replace (1 <=? length (st ++ [top]))%nat with true
    by (symmetry; apply Nat.leb_le; rewrite length_app; cbn; lia).
  rewrite nth_last_snoc. reflexivity.
Qed.

Lemma capture_storage_SSTORE_short contract (stackData : list Z) (l : WebAssemblyLogger) :
  DisableStorage (cfg l) = false ->
  (length stackData < 2)%nat ->
  capture_storage vm.SSTORE contract stackData l
  = (Ret None,
     set_storage
       (<[vm.Address contract := default ∅ (storage l !! vm.Address contract)]> (storage l))
       l).
Proof.
  intros Hd Hlen. unfold capture_storage. run. rewrite Hd. cbn [negb andb orb].
  change (vm.SSTORE =? vm.SLOAD) with false. change (vm.SSTORE =? vm.SSTORE) with true.
  cbn [andb orb].
  replace (2 <=? length stackData)%nat with false
    by (symmetry; apply Nat.leb_gt; lia).
  reflexivity.
Qed.
End TracerStorage.

(** ** What the tracer sees of an opcode *)

Section OpcodeTrace.
Import wasm InterpProps StorageProps OpcodeTraceProps.

Lemma contract_at_Some idx (i : WASMInterpreter) sc :
  stateQueue i !! idx = Some sc -> contract_at idx i = (Ret (vm.Contract_ sc), i).
Proof. intros Hsc. unfold contract_at. run. rewrite Hsc. reflexivity. Qed.

(** X10. In debug mode [execEvmOp] reports an opcode to the tracer from a
    deferred call, after the implementation of the opcode has run, so
    [CaptureState] reads the operand stack as the opcode left it and not
    as it was called. The record that replaces the WASM [call] record
    carries the gas before the charge and the cost charged. For SLOAD the
    item on top of the stack is then the result, and the book of touched
    slots records [top -> GetState(contract, top)]: with the EVM's own
    SLOAD the loaded value is taken for the slot. For SSTORE, when the
    opcode left fewer than two items, no slot is recorded and the record
    carries no storage. *)
Theorem execEvmOp_traces_stack_left_by_opcode newLondon (opcode : Z) (scope : ScopeRef)
        (execute : executionFunc) (f fc f2 : Frame) (op : operation) (cost : Z)
        (out : list Z) (err : option error) (l : logger.WebAssemblyLogger)
        (pre : list logger.WasmLog.t) (lastLog : logger.WasmLog.t)
        (sc0 sc : vm.ScopeContext) :
  stateQueue (interp f) !! Contract scope = Some sc0 ->
  operation_for newLondon (interp f) opcode = Some op ->
  charge op scope (table_loaded newLondon opcode f) = (Ret (cost, None), fc) ->
  execute scope fc = (Ret (out, err), f2) ->
  Debug (config (interp f2)) = true ->
  Tracer (config (interp f2)) = WASMLogger l ->
  stateQueue (interp f2) !! Contract scope = Some sc ->
  awaits_opcode l pre lastLog ->
  logger.DisableStorage (logger.cfg l) = false ->
  exists f' l' rec,
    execEvmOp newLondon opcode scope execute f = (Ret err, f')
    /\ stack f' = stack f2
    /\ Tracer (config (interp f')) = WASMLogger l'
    /\ logger.logs l' = pre ++ [rec]
    /\ logger.WasmLog.OpFamily rec = logger.OpCodeFamilyEVM
    /\ logger.WasmLog.Gas rec = vm.Gas (vm.Contract_ sc0)
    /\ logger.WasmLog.GasCost rec = cost
    /\ (opcode = SLOAD -> forall st top, stack f2 = st ++ [top] ->
        logger.WasmLog.Storage rec
        = Some (<[word top := vm.GetState (evm (interp f2)) (vm.Address (vm.Contract_ sc))
                                (word top)]> (recorded l sc))
        /\ recorded l' sc
           = <[word top := vm.GetState (evm (interp f2)) (vm.Address (vm.Contract_ sc))
                             (word top)]> (recorded l sc))
    /\ (opcode = SSTORE -> (length (stack f2) < 2)%nat ->
        logger.WasmLog.Storage rec = None /\ recorded l' sc = recorded l sc).
Proof.
  intros Hsc0 Hop Hcharge Hexec HD HT Hsc Ha Hds.
  destruct f as [i st0]. cbn [interp stack] in *.
  set (view := vm.mkScope (Some (Memory scope)) (Some (stack f2)) (vm.Contract_ sc)).
  set (l0 := logger.set_env (evm (interp f2)) l).
  destruct (capture_storage_frame opcode (vm.Contract_ sc) (stack f2) l0)
    as (stg & l1 & Ecs & Hlogs1 & Henv1 & _).
  assert (Ha0 : awaits_opcode l0 pre lastLog) by exact Ha.
  pose proof (CaptureState_with_storage l0 pre lastLog MaxUint64 opcode
                (vm.Gas (vm.Contract_ sc0)) cost view (stack f2) out (depth (interp f2))
                (if bool_decide (err = Some errStopToken) then None else err) stg l1
                Ha0 eq_refl ltac:(intros _; discriminate) Ecs Hlogs1) as Hcap.
  match type of Hcap with
  | _ = (Ret tt, ?l2) => set (l' := l2) in *
  end.
  exists (mkFrame (set_Tracer (WASMLogger l')
                     (set_evm (logger.env l') (set_returnData out (interp f2))))
                  (stack f2)), l'.
  eexists.
  split.
  { unfold execEvmOp.
    unfold Go.bind at 1. unfold in_interp at 1, Go.zoom at 1. cbn [interp stack].
    rewrite (contract_at_Some _ _ _ Hsc0). cbn [fst snd].
    unfold Go.bind at 1. unfold Go.get at 1. cbn [interp stack].
    unfold Go.bind at 1.
    assert (Hlook : (match JumpTable (config i) opcode with
                     | Some op0 => Go.ret op0
                     | None =>
                         Go.bind (in_interp (Go.modify (set_JumpTable newLondon)))
                           (fun _ => match newLondon opcode with
                                     | Some op0 => Go.ret op0
                                     | None => Go.panic (runtime_panic NilDereference)
                                     end)
                     end) (mkFrame i st0)
                    = (Ret op, table_loaded newLondon opcode (mkFrame i st0))).
    { unfold operation_for in Hop. unfold table_loaded. cbn [interp stack].
      destruct (JumpTable (config i) opcode) as [op0|].
      - injection Hop as <-. reflexivity.
      - unfold Go.bind, in_interp, Go.zoom, Go.modify. cbn [interp stack].
        rewrite Hop. reflexivity. }
    rewrite Hlook.
    unfold Go.bind at 1. rewrite Hcharge.
    unfold Go.bind at 1. rewrite Hexec.
    unfold Go.bind at 1. unfold in_interp at 1, Go.zoom at 1, Go.modify at 1.
    cbn [fst snd interp stack Go.ret].
    unfold Go.bind at 1. unfold Go.get at 1. cbn [interp config set_returnData].
    rewrite HD.
    unfold Tracer_CaptureState. unfold Go.bind at 1. unfold Go.get at 1.
    cbn [interp config set_returnData]. rewrite HT.
    unfold scope_view. unfold Go.bind at 1. unfold Go.bind at 1.
    unfold in_interp at 1, Go.zoom at 1. cbn [interp stack].
    rewrite (contract_at_Some (Contract scope) (set_returnData out (interp f2)) sc Hsc).
    cbn [fst snd]. unfold Go.bind at 1. unfold Go.get at 1. unfold Go.ret at 1.
    cbn [interp stack].
    unfold in_interp, Go.zoom, on_tracer. cbn [interp stack evm set_returnData returnData].
    fold view. fold l0. unfold depth in Hcap |- *. cbn [evm set_returnData].
    rewrite Hcap. reflexivity. }
  split; [reflexivity|]. split; [reflexivity|]. split; [reflexivity|].
  split; [reflexivity|]. split; [reflexivity|]. split; [reflexivity|].
  split.
  - intros -> st top Hst. rewrite Hst in Ecs.
    rewrite (capture_storage_SLOAD _ _ _ l0 Hds) in Ecs. injection Ecs as <- <-.
    cbn [logger.WasmLog.Storage]. split; [reflexivity|].
    unfold recorded, l'. cbn [logger.storage logger.set_logs logger.set_storage].
    rewrite lookup_insert_eq. reflexivity.
  - intros -> Hlen.
    rewrite (capture_storage_SSTORE_short _ _ l0 Hds Hlen) in Ecs. injection Ecs as <- <-.
    cbn [logger.WasmLog.Storage]. split; [reflexivity|].
    unfold recorded, l'. cbn [logger.storage logger.set_logs logger.set_storage].
    rewrite lookup_insert_eq. reflexivity.
Qed.
(** X10 on an SLOAD of slot 3, which holds 9, with storage tracing
    enabled: the opcode leaves 9 on the stack, and the tracer records
    slot 9 with the value the state holds there, which is 0; slot 3 is
    not recorded. *)
Lemma execEvmOp_traces_stack_left_by_opcode_witness :
  exists f' l' rec,
    execEvmOp london SLOAD (mkScopeRef (vm.newMemoryFromSlice [] true) 0) loading
              (mkFrame storage_interpreter [3])
    = (Ret None, f')
    /\ stack f' = [9]
    /\ Tracer (config (interp f')) = WASMLogger l'
    /\ logger.logs l' = [rec]
    /\ logger.WasmLog.Storage rec = Some (<[9 := 0]> ∅)
    /\ recorded l' (sample_frame_scope 98) = <[9 := 0]> ∅
    /\ recorded l' (sample_frame_scope 98) !! 3 = None.
Proof.
  set (scope := mkScopeRef (vm.newMemoryFromSlice [] true) 0).
  set (fc := snd (charge sample_operation scope (mkFrame storage_interpreter [3]))).
  destruct (execEvmOp_traces_stack_left_by_opcode london SLOAD scope loading
              (mkFrame storage_interpreter [3]) fc (snd (loading scope fc))
              sample_operation 2 [] None Props.sample_logger [] Props.call_record
              (sample_frame_scope 100) (sample_frame_scope 98))
    as (f' & l' & rec & H1 & H2 & H3 & H4 & _ & _ & _ & Hload & _).
  - reflexivity.
  - reflexivity.
  - reflexivity.
  - reflexivity.
  - reflexivity.
  - reflexivity.
  - reflexivity.
  - repeat split; reflexivity.
  - reflexivity.
  - destruct (Hload eq_refl [] 9 eq_refl) as [Hrec Hbook].
    exists f', l', rec.
    split; [exact H1|]. split; [exact H2|]. split; [exact H3|]. split; [exact H4|].
    split; [exact Hrec|]. split; [exact Hbook|]. rewrite Hbook. reflexivity.
Defined.
End OpcodeTrace.

(** ** The scope lookup and the entry of [Run] *)

Section RunEntry.
Import wasm InterpProps DriverProps.

(** X11. [Scope] returns the scope at index [depth - 1] exactly when
    [1 <= depth <= len(stateQueue)]; the lookup renews the memory view of
    that scope and changes nothing else (its stack and contract and the
    other scopes stay). With [depth - 1 >= len(stateQueue)] it panics with
    "context queue is empty", and with [depth <= 0] and a queue that is
    not that short it panics on the index; the interpreter is left
    unchanged by both panics. *)
Theorem Scope_lookup (i : WASMInterpreter) :
  (1 <= depth i <= Z.of_nat (length (stateQueue i)) ->
   exists sc,
     stateQueue i !! current_index i = Some sc
     /\ Scope i = (Ret (current_index i),
                   set_stateQueue (<[current_index i := refreshed sc]> (stateQueue i)) i)
     /\ vm.Contract_ (refreshed sc) = vm.Contract_ sc
     /\ vm.Stack (refreshed sc) = vm.Stack sc)
  /\ (Z.of_nat (length (stateQueue i)) <= depth i - 1 ->
      Scope i = (Panic (PanicString "context queue is empty"), i))
  /\ (depth i <= 0 -> depth i - 1 < Z.of_nat (length (stateQueue i)) ->
      Scope i = (Panic (runtime_panic IndexOutOfRange), i)).
Proof.
  split; [|split].
  - intros Hd.
    destruct (stateQueue i !! current_index i) as [sc|] eqn:Hsc.
    + exists sc. split; [reflexivity|]. split; [|split; reflexivity].
      apply Scope_current; [lia | exact Hsc].
    + apply lookup_ge_None in Hsc. unfold current_index in Hsc. lia.
  - intros Hd. unfold Scope. run.
    destruct (Z.leb_spec (Z.of_nat (length (stateQueue i))) (depth i - 1)); [reflexivity|lia].
  - intros Hd Hl. unfold Scope. run.
    destruct (Z.leb_spec (Z.of_nat (length (stateQueue i))) (depth i - 1)); [lia|].
    destruct (Z.ltb_spec (depth i - 1) 0); [reflexivity|lia].
Qed.

Lemma set_depth_back (e : vm.EVM) :
  vm.set_depth (vm.depth (vm.set_depth (vm.depth e + 1) e) - 1) (vm.set_depth (vm.depth e + 1) e)
  = e.
Proof. destruct e as [d a r g]. unfold vm.set_depth. cbn. f_equal. lia. Qed.

Ltac run_prefix i :=
  destruct i as [e [dbg tr jt] q ro0 rd eng];
  unfold Run_with, Go.bind, Go.with_defer, Go.when, Go.modify, Go.get, Go.ret, Go.panic,
    Go.put, depth, refused, tracer_message;
  cbn [fst snd evm stateQueue config readOnly returnData wasmEngine Debug Tracer JumpTable
       set_evm set_stateQueue set_readOnly set_returnData set_wasmEngine
       vm.Code vm.set_Input].

(** X12. [Run] on a contract without code returns nil and a nil error at
    once: the engine is not started and no tracer is needed; the
    interpreter is as before the call (depth, scope queue, read-only flag,
    engine) but for the return data, which is reset. *)
Theorem Run_without_code inject W ET engine (contract : vm.Contract) (input : list Z)
        (readOnly_ : bool) (i : WASMInterpreter) :
  vm.Code contract = [] ->
  Run_with inject W ET engine contract input readOnly_ i
  = (Ret ([], None), set_returnData [] i).
Proof.
  intros Hc. run_prefix i. rewrite Hc. cbn [length Nat.eqb].
  unfold set_returnData.
  destruct readOnly_, ro0;
    cbn [andb negb fst snd evm stateQueue config readOnly returnData wasmEngine
         set_evm set_stateQueue set_readOnly set_returnData set_wasmEngine];
    rewrite set_depth_back; reflexivity.
Qed.

Lemma Run_without_code_witness :
  Run_with no_injection no_names no_text
           (fun s => (Panic (PanicString "engine started"), s))
           (vm.mkContract 1 [] [] 100) [1] true (fresh_interpreter false)
  = (Ret ([], None), set_returnData [] (fresh_interpreter false)).
Proof.
  apply (Run_without_code no_injection no_names no_text _ (vm.mkContract 1 [] [] 100) [1]
           true (fresh_interpreter false)).
  reflexivity.
Defined.

Lemma code_not_empty (contract : vm.Contract) :
  vm.Code contract <> [] -> (length (vm.Code contract) =? 0)%nat = false.
Proof. destruct (vm.Code contract); [congruence | reflexivity]. Qed.

(** X13. [Run] on a contract with code needs a tracer that is a
    [WASMLogger], in debug mode or not: with no tracer or another tracer
    it panics before the engine is started, with "tracer must be
    configured in debug mode" for no tracer in debug mode and with
    "tracer must implement [WASMLogger] in this mode" otherwise; the call
    depth is restored and the scope queue and the engine are untouched. *)
Theorem Run_requires_WASMLogger inject W ET engine (contract : vm.Contract)
        (input : list Z) (readOnly_ : bool) (i : WASMInterpreter) :
  vm.Code contract <> [] ->
  (forall l, Tracer (config i) <> WASMLogger l) ->
  Run_with inject W ET engine contract input readOnly_ i
  = (Panic (PanicString (tracer_message i)), refused readOnly_ i).
Proof.
  intros Hc HT. apply code_not_empty in Hc. run_prefix i. rewrite Hc.
  cbn [config Tracer] in HT.
  destruct tr as [| |l]; [| |exfalso; exact (HT l eq_refl)];
    destruct dbg, readOnly_, ro0;
    cbn [andb negb fst snd evm stateQueue config readOnly returnData wasmEngine Debug Tracer
         set_evm set_stateQueue set_readOnly set_returnData set_wasmEngine];
    rewrite set_depth_back; reflexivity.
Qed.

Lemma Run_requires_WASMLogger_witness :
  Run_with no_injection no_names no_text
           (fun s => (Panic (PanicString "engine started"), s))
           Props.sample_contract [1] false
           (set_config (mkConfig false NilTracer london) (fresh_interpreter false))
  = (Panic (PanicString "tracer must implement [WASMLogger] in this mode"),
     refused false (set_config (mkConfig false NilTracer london) (fresh_interpreter false))).
Proof.
  apply (Run_requires_WASMLogger no_injection no_names no_text _ Props.sample_contract [1]
           false (set_config (mkConfig false NilTracer london) (fresh_interpreter false))).
  - discriminate.
  - intros l. discriminate.
Defined.

(** X14. At the deployment of a contract (empty input) whose code the
    injector rejects, [Run] returns the error "failed to check contract
    deployment code: ..." with the injector's message, without starting
    the engine: no binary is loaded, no scope is appended and the call
    depth is restored. *)
Theorem Run_rejected_deployment inject W ET engine (contract : vm.Contract)
        (readOnly_ : bool) (i : WASMInterpreter) l err :
  vm.Code contract <> [] ->
  Tracer (config i) = WASMLogger l ->
  inject (vm.Code contract) = inr err ->
  Run_with inject W ET engine contract [] readOnly_ i
  = (Ret ([], Some (Errorf ("failed to check contract deployment code: " ++ ET err))),
     refused readOnly_ i).
Proof.
  intros Hc HT Hinj. apply code_not_empty in Hc. run_prefix i. rewrite Hc.
  cbn [config Tracer] in HT. subst tr. cbn [length Nat.eqb]. rewrite Hinj.
  destruct dbg, readOnly_, ro0;
    cbn [andb negb fst snd evm stateQueue config readOnly returnData wasmEngine Debug Tracer
         set_evm set_stateQueue set_readOnly set_returnData set_wasmEngine];
    rewrite set_depth_back; reflexivity.
Qed.

Lemma Run_rejected_deployment_witness :
  Run_with rejecting no_names (fun _ => "bad module"%string)
           (fun s => (Panic (PanicString "engine started"), s))
           Props.sample_contract [] false (fresh_interpreter false)
  = (Ret ([], Some (Errorf ("failed to check contract deployment code: " ++ "bad module"))),
     refused false (fresh_interpreter false)).
Proof.
  apply (Run_rejected_deployment rejecting no_names (fun _ => "bad module"%string) _
           Props.sample_contract false (fresh_interpreter false) (Props.logger_with 0 [])
           (Errorf "bad module")).
  - discriminate.
  - reflexivity.
  - reflexivity.
Defined.

(** X15. [Run] checks that the scope queue holds one scope per call
    depth before it appends its own: when the queue is longer or shorter
    it panics with "state queue len and evm depth mismatch, this is not
    possible"; the binary is loaded into the engine by then, the engine
    is not started, the queue is untouched and the call depth is
    restored. *)
Theorem Run_checks_queue_length inject W ET engine (contract : vm.Contract)
        (input : list Z) (readOnly_ : bool) (i : WASMInterpreter) l code :
  vm.Code contract <> [] ->
  Tracer (config i) = WASMLogger l ->
  checked_code inject contract input = inl code ->
  Z.of_nat (length (stateQueue i)) <> depth i ->
  Run_with inject W ET engine contract input readOnly_ i
  = (Panic (PanicString "state queue len and evm depth mismatch, this is not possible"),
     set_wasmEngine (SetWasmBinary code (wasmEngine i)) (refused readOnly_ i)).
Proof.
  intros Hc HT Hinj Hne. apply code_not_empty in Hc. unfold checked_code in Hinj.
  run_prefix i. rewrite Hc.
  cbn [config Tracer stateQueue evm] in HT, Hne. unfold depth in Hne. cbn [evm] in Hne.
  subst tr.
  assert (Hchk : (Z.of_nat (length q) =? vm.depth (vm.set_depth (vm.depth e + 1) e) - 1)
                 = false).
  { apply Z.eqb_neq. destruct e. cbn in *. lia. }
  destruct dbg, readOnly_, ro0;
    cbn [andb negb fst snd evm stateQueue config readOnly returnData wasmEngine Debug Tracer
         set_evm set_stateQueue set_readOnly set_returnData set_wasmEngine];
    rewrite Hinj;
    cbn [andb negb fst snd evm stateQueue config readOnly returnData wasmEngine Debug Tracer
         set_evm set_stateQueue set_readOnly set_returnData set_wasmEngine];
    rewrite Hchk;
    cbn [andb negb fst snd evm stateQueue config readOnly returnData wasmEngine Debug Tracer
         set_evm set_stateQueue set_readOnly set_returnData set_wasmEngine];
    rewrite set_depth_back; reflexivity.
Qed.

Lemma Run_checks_queue_length_witness :
  Run_with no_injection no_names no_text
           (fun s => (Panic (PanicString "engine started"), s))
           Props.sample_contract [1] false
           (set_stateQueue [] (sample_interpreter false Props.sample_logger 100))
  = (Panic (PanicString "state queue len and evm depth mismatch, this is not possible"),
     set_wasmEngine
       (SetWasmBinary (vm.Code Props.sample_contract)
          (wasmEngine (set_stateQueue [] (sample_interpreter false Props.sample_logger 100))))
       (refused false (set_stateQueue [] (sample_interpreter false Props.sample_logger 100)))).
Proof.
  apply (Run_checks_queue_length no_injection no_names no_text _ Props.sample_contract [1]
           false (set_stateQueue [] (sample_interpreter false Props.sample_logger 100))
           Props.sample_logger (vm.Code Props.sample_contract)).
  - discriminate.
  - reflexivity.
  - reflexivity.
  - cbn. lia.
Defined.
End RunEntry.

Section RunExit.
Import wasm InterpProps DriverProps.

Lemma with_defer_Ret_inv {S A} (body : M S A) (d : M S unit) s a s' :
  Go.with_defer body d s = (Ret a, s') ->
  exists s1, body s = (Ret a, s1) /\ d s1 = (Ret tt, s').
Proof.
  unfold Go.with_defer. destruct (body s) as [r s1] eqn:E.
  destruct (d s1) as [[[]|p] s2] eqn:Ed; intros [= -> <-]. eauto.
Qed.

Lemma translate_clears_stop_token res err : translate res err <> Some errStopToken.
Proof.
  unfold translate.
  match goal with
  | |- (if bool_decide (?e = _) then _ else _) <> _ =>
      destruct (bool_decide_reflect (e = Some errStopToken)) as [|Hne];
        [discriminate | exact Hne]
  end.
Qed.

(** X16. Whenever [Run] returns (rather than panics), the error it
    returns is not the stop token, and the bytes it returns are the
    interpreter's return data at that moment; this holds for every
    engine, input and interpreter state. *)
Theorem Run_returns_no_stop_token inject W ET engine (contract : vm.Contract)
        (input : list Z) (readOnly_ : bool) (i i' : WASMInterpreter)
        (ret : list Z) (err : option error) :
  Run_with inject W ET engine contract input readOnly_ i = (Ret (ret, err), i') ->
  err <> Some errStopToken /\ ret = returnData i'.
Proof.
  intros H. unfold Run_with in H.
  apply bind_Ret_inv in H as ([] & s0 & H0 & H).
  apply with_defer_Ret_inv in H as (s1 & H & Hd1).
  unfold Go.modify in Hd1. injection Hd1 as <-.
  apply bind_Ret_inv in H as (i0 & s0' & Hget & H). unfold Go.get in Hget.
  injection Hget as <- <-.
  apply bind_Ret_inv in H as ([] & s2 & Hwhen & H).
  apply with_defer_Ret_inv in H as (s3 & H & Hd2).
  assert (Hr1 : returnData s1 = returnData s3).
  { unfold Go.when in Hd2. destruct (readOnly_ && negb (readOnly s0));
      unfold Go.modify, Go.ret in Hd2; injection Hd2 as <-; reflexivity. }
  cbn [returnData set_evm]. rewrite Hr1. clear Hd2 Hr1 Hwhen H0.
  apply bind_Ret_inv in H as ([] & s4 & Hm & H).
  unfold Go.modify in Hm. injection Hm as <-.
  destruct (length (vm.Code contract) =? 0)%nat.
  { unfold Go.ret in H. injection H as <- <- <-. split; [discriminate | reflexivity]. }
  apply bind_Ret_inv in H as ([] & s5 & Hm & H).
  unfold Go.modify in Hm. injection Hm as <-.
  apply bind_Ret_inv in H as (i5 & s5' & Hget & H). unfold Go.get in Hget.
  injection Hget as <- <-.
  apply bind_Ret_inv in H as ([] & s6 & Hchk & H).
  assert (Hs6 : returnData s6 = []).
  { destruct (Debug _ && _); [discriminate Hchk|].
    destruct (Tracer _); try discriminate Hchk.
    unfold Go.ret in Hchk. injection Hchk as <-. reflexivity. }
  clear Hchk.
  destruct (if (length input =? 0)%nat then inject _ else inl _) as [code|e].
  2:{ unfold Go.ret in H. injection H as <- <- <-. split; [discriminate | now rewrite Hs6]. }
  apply bind_Ret_inv in H as ([] & s7 & Hm & H).
  unfold Go.modify in Hm. injection Hm as <-.
  apply bind_Ret_inv in H as (i7 & s7' & Hget & H). unfold Go.get in Hget.
  injection Hget as <- <-.
  destruct (negb _); [discriminate H|].
  apply with_defer_Ret_inv in H as (s8 & H & Hd3).
  assert (Hr3 : returnData s3 = returnData s8).
  { apply bind_Ret_inv in Hd3 as (i8 & s8' & Hget & Hd3). unfold Go.get in Hget.
    injection Hget as <- <-.
    destruct (slice _ _ _); [|discriminate Hd3].
    unfold Go.put in Hd3. injection Hd3 as <-. reflexivity. }
  rewrite Hr3. clear Hd3 Hr3.
  apply bind_Ret_inv in H as ([] & s9 & _ & H).
  apply bind_Ret_inv in H as (out & s10 & _ & H).
  apply bind_Ret_inv in H as ([] & s11 & _ & H).
  apply bind_Ret_inv in H as (i11 & s11' & Hget & H). unfold Go.get in Hget.
  injection Hget as <- <-.
  unfold Go.ret in H. injection H as <- <- <-.
  split; [apply translate_clears_stop_token | reflexivity].
Qed.

(** X16 on a guest whose engine reports the stop token. *)
Lemma Run_returns_no_stop_token_witness :
  None <> Some errStopToken
  /\ [] = returnData
            (snd (Run london no_injection no_names no_text
                    (Exit ComputeTraceErrorCodeStopToken (Some errStopToken) empty_trace)
                    Props.sample_contract [1] false (fresh_interpreter false))).
Proof.
  apply (Run_returns_no_stop_token no_injection no_names no_text
           (ComputeResult no_injection no_names no_text (registeredHost london)
              (Exit ComputeTraceErrorCodeStopToken (Some errStopToken) empty_trace))
           Props.sample_contract [1] false (fresh_interpreter false)).
  vm_compute. reflexivity.
Defined.

(** X17. A panic inside the engine whose value is not an error (a
    string, as the panics of the scope lookup and of the tracer are) is
    not turned into an error by [Run]: the type assertion of the recovery
    fails and [Run] panics in its turn; the deferred calls still cut the
    scope queue back and restore the call depth. *)
Theorem Run_does_not_recover_string_panic inject W ET engine (contract : vm.Contract)
        (input : list Z) (readOnly_ : bool) (i i1 : WASMInterpreter) l code msg :
  vm.Code contract <> [] ->
  Tracer (config i) = WASMLogger l ->
  checked_code inject contract input = inl code ->
  queue_matches_depth i ->
  keeps same_shape engine ->
  engine (engine_entry i contract input readOnly_ code) = (Panic (PanicString msg), i1) ->
  Run_with inject W ET engine contract input readOnly_ i
  = (Panic (runtime_panic TypeAssertionFailed), leave (readOnly_ && negb (readOnly i)) i1)
  /\ depth (leave (readOnly_ && negb (readOnly i)) i1) = depth i
  /\ length (stateQueue (leave (readOnly_ && negb (readOnly i)) i1))
     = length (stateQueue i).
Proof.
  intros Hc HT Hinj Hi He Hp.
  assert (Hrun : run_engine W engine (engine_entry i contract input readOnly_ code)
                 = (Panic (runtime_panic TypeAssertionFailed), i1)).
  { unfold run_engine, Go.bind, recovered. rewrite Hp. reflexivity. }
  pose proof (Run_with_reaches_engine inject W ET engine contract input readOnly_ i l code
                _ _ Hc HT Hinj Hi He Hrun) as HR.
  split; [exact HR|].
  pose proof (keeps_Run_with inject W ET engine contract input readOnly_ He i _ _ HR)
    as [Hd Hl].
  split; assumption.
Qed.

(** X17 on an engine that panics with the string "trace order is
    corrupted", as the tracer does on an empty log. *)
Lemma Run_does_not_recover_string_panic_witness :
  Run_with no_injection no_names no_text
           (fun s => (Panic (PanicString "trace order is corrupted"), s))
           Props.sample_contract [1] false (fresh_interpreter false)
  = (Panic (runtime_panic TypeAssertionFailed),
     leave (false && negb (readOnly (fresh_interpreter false)))
           (engine_entry (fresh_interpreter false) Props.sample_contract [1] false
              (vm.Code Props.sample_contract)))
  /\ depth (leave (false && negb (readOnly (fresh_interpreter false)))
              (engine_entry (fresh_interpreter false) Props.sample_contract [1] false
                 (vm.Code Props.sample_contract)))
     = depth (fresh_interpreter false)
  /\ length (stateQueue
               (leave (false && negb (readOnly (fresh_interpreter false)))
                  (engine_entry (fresh_interpreter false) Props.sample_contract [1] false
                     (vm.Code Props.sample_contract))))
     = length (stateQueue (fresh_interpreter false)).
Proof.
  apply (Run_does_not_recover_string_panic no_injection no_names no_text _
           Props.sample_contract [1] false (fresh_interpreter false) _
           (Props.logger_with 0 []) (vm.Code Props.sample_contract)
           "trace order is corrupted").
  - discriminate.
  - reflexivity.
  - reflexivity.
  - reflexivity.
  - intros s r s' [= <- <-]. reflexivity.
  - reflexivity.
Defined.
End RunExit.

Section Replay.
Import wasm InterpProps DriverProps.

Lemma decode_global_memory (entries : list traceMemory)
      (acc : M WASMInterpreter (gmap Z (list Z))) (i : WASMInterpreter) m0 :
  Forall (fun gm => tm_Data gm <> None) entries ->
  acc i = (Ret m0, i) ->
  exists m,
    fold_left
      (fun (acc : M WASMInterpreter (gmap Z (list Z))) gm =>
         let* m := acc in
         match tm_Data gm with
         | None => panic (PanicError (Errorf "invalid hex string"))
         | Some data => ret (<[tm_Offset gm := data]> m)
         end)
      entries acc i = (Ret m, i).
Proof.
  intros Hall. revert acc m0.
  induction Hall as [|gm entries Hgm _ IH]; intros acc m0 Hacc; cbn [fold_left]; [eauto|].
  destruct (tm_Data gm) as [data|] eqn:Hd; [|congruence].
  eapply IH. cbv beta. unfold Go.bind. rewrite Hacc. reflexivity.
Qed.

Lemma replayTrace_global_variable W (i : WASMInterpreter) l trace gv rest :
  Debug (config i) = true ->
  Tracer (config i) = WASMLogger l ->
  dump (wasmEngine i) = inr trace ->
  decodable trace ->
  ts_GlobalVariables trace = gv :: rest ->
  fst (replayTrace W i) = Panic (runtime_panic NilDereference).
Proof.
  intros HD HT Hdump Hdec Hgv. unfold replayTrace.
  unfold Go.bind at 1. unfold Go.get at 1. rewrite HD, Hdump.
  unfold decodable in Hdec. rewrite Hgv.
  destruct (ts_GlobalMemory trace) as [entries|].
  - unfold Go.bind at 1. unfold Go.bind at 1.
    destruct (decode_global_memory entries (ret ∅) i ∅ Hdec eq_refl) as [m ->].
    unfold tracer_as_WASMLogger, on_tracer, logger.CaptureGlobalMemoryState,
      logger.CaptureGlobalVariable. run. rewrite HT. cbn. reflexivity.
  - unfold tracer_as_WASMLogger, on_tracer, logger.CaptureGlobalVariable. run.
    cbn. run. rewrite HT. reflexivity.
Qed.

(** X18. In debug mode [Run] cannot replay a dumped trace that lists a
    global variable: the replay hands a nil operation to
    [CaptureGlobalVariable], which reads its program counter, so [Run]
    panics with a nil dereference after the engine has returned, whatever
    the engine reported. *)
Theorem Run_panics_on_dumped_global_variable inject W ET engine (contract : vm.Contract)
        (input : list Z) (readOnly_ : bool) (i i1 : WASMInterpreter) l l1 code out
        trace gv rest :
  vm.Code contract <> [] ->
  Tracer (config i) = WASMLogger l ->
  checked_code inject contract input = inl code ->
  queue_matches_depth i ->
  keeps same_shape engine ->
  recovered engine (engine_entry i contract input readOnly_ code) = (Ret out, i1) ->
  Debug (config i1) = true ->
  Tracer (config i1) = WASMLogger l1 ->
  dump (wasmEngine i1) = inr trace ->
  decodable trace ->
  ts_GlobalVariables trace = gv :: rest ->
  fst (Run_with inject W ET engine contract input readOnly_ i)
  = Panic (runtime_panic NilDereference).
Proof.
  intros Hc HT Hinj Hi He Hrec HD HT1 Hdump Hdec Hgv.
  pose proof (replayTrace_global_variable W i1 l1 trace gv rest HD HT1 Hdump Hdec Hgv) as Hp.
  destruct (replayTrace W i1) as [r s2] eqn:Er. cbn [fst] in Hp. subst r.
  assert (Hrun : run_engine W engine (engine_entry i contract input readOnly_ code)
                 = (Panic (runtime_panic NilDereference), s2)).
  { unfold run_engine, Go.bind. rewrite Hrec, Er. reflexivity. }
  rewrite (Run_with_reaches_engine inject W ET engine contract input readOnly_ i l code
             _ _ Hc HT Hinj Hi He Hrun).
  reflexivity.
Qed.

(** X18 on a new interpreter in debug mode and a guest that returns Ok
    with a dump of one global variable. *)
Lemma Run_panics_on_dumped_global_variable_witness :
  fst (Run london no_injection no_names no_text
         (Exit ComputeTraceErrorCodeOk None global_trace)
         Props.sample_contract [1] false (fresh_interpreter true))
  = Panic (runtime_panic NilDereference).
Proof.
  apply (Run_panics_on_dumped_global_variable no_injection no_names no_text
           (ComputeResult no_injection no_names no_text (registeredHost london)
              (Exit ComputeTraceErrorCodeOk None global_trace))
           Props.sample_contract [1] false (fresh_interpreter true)
           (snd (ComputeResult no_injection no_names no_text (registeredHost london)
                   (Exit ComputeTraceErrorCodeOk None global_trace)
                   (engine_entry (fresh_interpreter true) Props.sample_contract [1] false
                      (vm.Code Props.sample_contract))))
           (Props.logger_with 0 []) (Props.logger_with 0 [])
           (vm.Code Props.sample_contract) (ComputeTraceErrorCodeOk, None)
           (mkTraceStruct None [mkGlobalVariable 0 7] []) (mkGlobalVariable 0 7) []).
  - discriminate.
  - reflexivity.
  - reflexivity.
  - reflexivity.
  - apply keeps_engine, registeredHost_keeps.
  - reflexivity.
  - reflexivity.
  - reflexivity.
  - reflexivity.
  - exact I.
  - reflexivity.
Defined.
End Replay.

(** ** The words the shim moves between the stack and the memory *)

Section Words.
Import wasm InterpProps ShimProps.

Lemma be_value_acc (bs : list Z) (a : Z) :
  fold_left (fun acc b => acc * 256 + b) bs a
  = a * 256 ^ Z.of_nat (length bs) + fold_left (fun acc b => acc * 256 + b) bs 0.
Proof.
  revert a. induction bs as [|b bs IH]; intros a; cbn [fold_left length].
  - cbn. lia.
  - rewrite (IH (a * 256 + b)), (IH (0 * 256 + b)).
    rewrite Nat2Z.inj_succ, Z.pow_succ_r by lia. ring.
Qed.

Lemma be_bytes_value (fuel : nat) (n : Z) (acc : list Z) :
  0 <= n < 256 ^ Z.of_nat fuel ->
  fold_left (fun acc b => acc * 256 + b) (be_bytes fuel n acc) 0
  = n * 256 ^ Z.of_nat (length acc) + fold_left (fun acc b => acc * 256 + b) acc 0.
Proof.
  revert n acc. induction fuel as [|fuel IH]; intros n acc Hn; cbn [be_bytes].
  - cbn in Hn. assert (n = 0) by lia. subst. lia.
  - destruct (Z.eqb_spec n 0) as [->|Hne]; [lia|].
    rewrite IH.
    2:{ rewrite Nat2Z.inj_succ, Z.pow_succ_r in Hn by lia.
        split; [apply Z.div_pos; lia | apply Z.div_lt_upper_bound; lia]. }
    cbn [fold_left length]. rewrite (be_value_acc acc (0 * 256 + n mod 256)).
    rewrite Nat2Z.inj_succ, Z.pow_succ_r by lia.
    pose proof (Z.div_mod n 256 ltac:(lia)) as Hdm.
    set (p := 256 ^ Z.of_nat (length acc)) in *.
    set (v := fold_left (fun acc b => acc * 256 + b) acc 0) in *.
    rewrite Hdm at 3. ring.
Qed.

Lemma be_value_zeros (k : nat) (bs : list Z) :
  fold_left (fun acc b => acc * 256 + b) (zeros k ++ bs) 0
  = fold_left (fun acc b => acc * 256 + b) bs 0.
Proof.
  induction k as [|k IH]; [reflexivity|]. cbn [zeros repeat app fold_left].
  exact IH.
Qed.

Lemma SetBytes_Bytes (x : Z) : SetBytes (Bytes x) = x mod 2 ^ 256.
Proof.
  unfold SetBytes, Bytes. rewrite be_bytes_value.
  - cbn [length fold_left]. rewrite Z.mul_1_r, Z.add_0_r. apply Z.mod_mod. lia.
  - change (256 ^ Z.of_nat 32) with (2 ^ 256). apply Z.mod_pos_bound. lia.
Qed.

Lemma rev_insert {A} (xs : list A) (k : nat) (v : A) :
  (k < length xs)%nat ->
  <[(length xs - k - 1)%nat := v]> (rev xs) = rev (<[k := v]> xs).
Proof.
  revert k. induction xs as [|x xs IH]; intros k Hk; cbn [length] in *; [lia|].
  cbn [rev]. destruct k as [|k].
  - cbn [insert list_insert]. cbn [rev].
    rewrite insert_app_r_alt by (rewrite length_rev; lia).
    replace (S (length xs) - 0 - 1 - length (rev xs))%nat with 0%nat
      by (rewrite length_rev; lia).
    reflexivity.
  - change (<[S k := v]> (x :: xs)) with (x :: <[k := v]> xs). cbn [rev].
    replace (S (length xs) - S k - 1)%nat with (length xs - k - 1)%nat by lia.
    rewrite insert_app_l by (rewrite length_rev; lia).
    rewrite IH by lia. reflexivity.
Qed.

Lemma int64_small (z : Z) : 0 <= z < 2 ^ 63 -> int64 z = z.
Proof.
  intros Hz. unfold int64.
  rewrite Z.mod_small by lia. lia.
Qed.

(** X20. On the stack that [processOpcode] builds (the parameters in
    reverse), [replaceMemOffsetWithValueOnStack idx] replaces the
    parameter number [idx], which holds a memory offset, by the 20-byte
    (address) or 32-byte (word) big-endian value the guest memory holds
    at that offset; the other stack items, the parameters and the
    interpreter stay as they are and no error is returned. *)
Theorem preprocessor_replaces_offset_by_value (idx : nat) (fieldType : FieldType)
        (input xs : list Z) (scope : ScopeRef) (f : Frame) :
  fieldType <> UnknownFieldType ->
  (idx < length input)%nat ->
  length xs = length input ->
  stack f = rev xs ->
  vm.memoryInterceptor (Memory scope) = true ->
  0 <= nth idx input 0 ->
  nth idx input 0 + field_size fieldType
    <= Z.of_nat (length (memoryData (wasmEngine (interp f)))) ->
  nth idx input 0 + field_size fieldType < 2 ^ 63 ->
  replaceMemOffsetWithValueOnStack (Z.of_nat idx) fieldType input scope f
  = (Ret None,
     set_stack
       (rev (<[idx := SetBytes (memory_span (nth idx input 0) (field_size fieldType) f)]> xs))
       f).
Proof.
  intros Hft Hidx Hlen Hst Hmem Ho Hin Hsmall.
  assert (Hsize : 0 < field_size fieldType)
    by (destruct fieldType; [congruence | reflexivity | reflexivity]).
  assert (Hstack : length (stack f) = length input)
    by (rewrite Hst, length_rev; exact Hlen).
  set (offset := nth idx input 0) in *.
  set (size := field_size fieldType) in *.
  assert (Hread : vm.GetCopy (S := Frame) (Memory scope) (int64 offset) size f
                  = (Ret (memory_span offset size f), f)).
  { unfold vm.GetCopy. destruct (Z.eqb_spec size 0) as [|_]; [lia|].
    rewrite Hmem. rewrite int64_small by lia.
    cbn [vm.readMemory frame_interceptor]. unfold in_interp, Go.zoom.
    cbn [vm.readMemory interceptor]. run.
    rewrite ?(uint64_small offset) by lia.
    rewrite (uint64_small size) by lia. rewrite (uint64_small (offset + size)) by lia.
    rewrite (slice_in_range _ offset (offset + size)) by lia.
    replace (offset + size - offset) with size by lia.
    destruct f as [i st]. reflexivity. }
  unfold replaceMemOffsetWithValueOnStack.
  unfold Go.bind at 1. unfold Go.get at 1.
  destruct (Z.ltb_spec (Z.of_nat (length input)) (Z.of_nat idx + 1)) as [|_]; [lia|].
  destruct (Z.ltb_spec (Z.of_nat (length (stack f))) (Z.of_nat idx + 1)) as [|_]; [lia|].
  destruct (Z.ltb_spec (Z.of_nat idx) 0) as [|_]; [lia|].
  rewrite Nat2Z.id. fold offset.
  assert (Hfinal : <[(length (stack f) - idx - 1)%nat :=
                       SetBytes (memory_span offset size f)]> (stack f)
                   = rev (<[idx := SetBytes (memory_span offset size f)]> xs)).
  { rewrite Hst, length_rev. apply rev_insert. lia. }
  destruct fieldType; [congruence| |];
    change AddressDestLen with size; change Uint256DestLen with size;
    unfold Go.bind; rewrite Hread; unfold Go.modify, Go.ret, set_stack;
    cbn [stack interp]; rewrite Hfinal; reflexivity.
Qed.

(** X20 on the two parameters [8; 7] of a host call, the first of which
    is the offset of a word that ends with the bytes 1 and 2. The guest
    memory holds 40 bytes, so the word at offset 8 fits; it decodes to
    258. *)
Lemma preprocessor_replaces_offset_by_value_witness :
  replaceMemOffsetWithValueOnStack (Z.of_nat 0) Uint256FieldType [8; 7]
    (mkScopeRef (vm.newMemoryFromSlice [] true) 0) (sample_memory_frame (rev [8; 7]))
  = (Ret None,
     set_stack
       (rev (<[0%nat := SetBytes (memory_span (nth 0 [8; 7] 0) (field_size Uint256FieldType)
                                   (sample_memory_frame (rev [8; 7])))]> [8; 7]))
       (sample_memory_frame (rev [8; 7])))
  /\ SetBytes (memory_span 8 32 (sample_memory_frame (rev [8; 7]))) = 258.
Proof.
  split; [|reflexivity].
  apply (preprocessor_replaces_offset_by_value 0 Uint256FieldType [8; 7] [8; 7]
           (mkScopeRef (vm.newMemoryFromSlice [] true) 0) (sample_memory_frame (rev [8; 7]))).
  - discriminate.
  - cbn. lia.
  - reflexivity.
  - reflexivity.
  - reflexivity.
  - vm_compute. discriminate.
  - vm_compute. discriminate.
  - reflexivity.
Defined.
Lemma SetBytes_left_pad (destLen x : Z) :
  SetBytes (left_pad destLen (Bytes x)) = x mod 2 ^ 256.
Proof. unfold left_pad, SetBytes. rewrite be_value_zeros. apply SetBytes_Bytes. Qed.

Lemma left_pad_length (destLen : Z) (bs : list Z) :
  Z.of_nat (length bs) <= destLen -> length (left_pad destLen bs) = Z.to_nat destLen.
Proof. intros Hfit. unfold left_pad. rewrite length_app, zeros_length. lia. Qed.

Lemma uint32_small (z : Z) : 0 <= z < 2 ^ 32 -> uint32 z = z.
Proof. intros Hz. unfold uint32. apply Z.mod_small. exact Hz. Qed.

(** The guest memory after the finalizer's write holds the padded item
    at the destination. *)
Lemma finalized_span (destLen destOffset x : Z) (f : Frame) :
  0 <= destOffset -> 0 <= destLen ->
  Z.of_nat (length (Bytes x)) <= destLen ->
  destOffset + destLen <= Z.of_nat (length (memoryData (wasmEngine (interp f)))) ->
  destOffset + destLen < 2 ^ 32 ->
  memory_span destOffset destLen (finalized destLen destOffset x f)
  = left_pad destLen (Bytes x)
  /\ length (memoryData (wasmEngine (interp (finalized destLen destOffset x f))))
     = length (memoryData (wasmEngine (interp f))).
Proof.
  intros Ho Hl Hfit Hin Hsmall.
  pose proof (left_pad_length destLen (Bytes x) Hfit) as Hpad.
  unfold memory_span, finalized, TraceMemoryChange.
  cbn [interp wasmEngine set_wasmEngine memoryData].
  set (md := memoryData (wasmEngine (interp f))) in *.
  rewrite (uint64_small destLen) by lia.
  rewrite (uint32_small destOffset), (uint32_small destLen) by lia.
  rewrite (slice_in_range md destOffset (destOffset + destLen)) by lia.
  replace (destOffset + destLen - destOffset) with destLen by lia.
  rewrite copy_into_exact
    by (rewrite Hpad, length_firstn, length_skipn; lia).
  assert (Hhead : length (firstn (Z.to_nat destOffset) md) = Z.to_nat destOffset)
    by (rewrite length_firstn; lia).
  split.
  - rewrite <- Hhead at 1. rewrite drop_app_length.
    rewrite <- Hpad. apply take_app_length.
  - rewrite !length_app, Hhead, Hpad, length_skipn. lia.
Qed.

Lemma GetCopy_reads_span (scope : ScopeRef) (offset size : Z) (f : Frame) :
  vm.memoryInterceptor (Memory scope) = true ->
  0 < size -> 0 <= offset ->
  offset + size <= Z.of_nat (length (memoryData (wasmEngine (interp f)))) ->
  offset + size < 2 ^ 63 ->
  vm.GetCopy (S := Frame) (Memory scope) (int64 offset) size f
  = (Ret (memory_span offset size f), f).
Proof.
  intros Hmem Hsize Ho Hin Hsmall.
  unfold vm.GetCopy. destruct (Z.eqb_spec size 0) as [|_]; [lia|].
  rewrite Hmem. rewrite int64_small by lia.
  cbn [vm.readMemory frame_interceptor]. unfold in_interp, Go.zoom.
  cbn [vm.readMemory interceptor]. run.
  rewrite ?(uint64_small offset) by lia.
  rewrite (uint64_small size) by lia. rewrite (uint64_small (offset + size)) by lia.
  rewrite (slice_in_range _ offset (offset + size)) by lia.
  replace (offset + size - offset) with size by lia.
  destruct f as [i st]. reflexivity.
Qed.

(** X19. A stack item that a finalizer writes to guest memory is read
    back unchanged by an input preprocessor of a later host call. When
    [copyLastStackItemToMemory] with the destination length of an address
    (20) or of a word (32) has written the item on top of the stack at
    the destination offset, [replaceMemOffsetWithValueOnStack] with the
    same field type, on a parameter that holds that offset, puts the item
    itself on the stack: the two agree on the length, the padding and the
    byte order. The engine is taken to store the write it is handed in
    its linear memory, inside which the destination lies. *)
Theorem finalizer_item_read_back (fieldType : FieldType) (input : list Z)
        (scope : ScopeRef) (f : Frame) (destOffset x : Z) :
  fieldType <> UnknownFieldType ->
  vm.memoryInterceptor (Memory scope) = true ->
  last_item input = Some destOffset ->
  last_item (stack f) = Some x ->
  Z.of_nat (length (Bytes x)) <= field_size fieldType ->
  0 <= destOffset ->
  destOffset + field_size fieldType
    <= Z.of_nat (length (memoryData (wasmEngine (interp f)))) ->
  destOffset + field_size fieldType < 2 ^ 32 ->
  exists f1,
    copyLastStackItemToMemory (field_size fieldType) input scope f = (Ret None, f1)
    /\ stack f1 = stack f
    /\ memory_span destOffset (field_size fieldType) f1
       = left_pad (field_size fieldType) (Bytes x)
    /\ forall (idx : nat) (input' xs : list Z),
        (idx < length input')%nat ->
        length xs = length input' ->
        nth idx input' 0 = destOffset ->
        replaceMemOffsetWithValueOnStack (Z.of_nat idx) fieldType input' scope
                                         (set_stack (rev xs) f1)
        = (Ret None, set_stack (rev (<[idx := x mod 2 ^ 256]> xs)) f1).
Proof.
  intros Hft Hmem Hin Htop Hfit Ho Hrange Hsmall.
  assert (Hsize : 0 < field_size fieldType)
    by (destruct fieldType; [congruence | reflexivity | reflexivity]).
  set (size := field_size fieldType) in *.
  destruct (finalized_span size destOffset x f Ho ltac:(lia) Hfit Hrange Hsmall)
    as [Hspan Hlen].
  exists (finalized size destOffset x f).
  split; [apply copyLastStackItemToMemory_writes; assumption|].
  split; [reflexivity|]. split; [exact Hspan|].
  intros idx input' xs Hidx Hxs Hnth.
  set (f1 := finalized size destOffset x f) in *.
  assert (Hread : vm.GetCopy (S := Frame) (Memory scope) (int64 destOffset) size
                             (set_stack (rev xs) f1)
                  = (Ret (left_pad size (Bytes x)), set_stack (rev xs) f1)).
  { rewrite <- Hspan.
    apply (GetCopy_reads_span scope destOffset size (set_stack (rev xs) f1));
      [exact Hmem | exact Hsize | exact Ho | | lia].
    cbn [set_stack interp]. fold f1 in Hlen. rewrite Hlen. exact Hrange. }
  unfold replaceMemOffsetWithValueOnStack.
  unfold Go.bind at 1. unfold Go.get at 1.
  assert (Hstack : length (stack (set_stack (rev xs) f1)) = length input')
    by (cbn [set_stack stack]; rewrite length_rev; exact Hxs).
  destruct (Z.ltb_spec (Z.of_nat (length input')) (Z.of_nat idx + 1)) as [|_]; [lia|].
  destruct (Z.ltb_spec (Z.of_nat (length (stack (set_stack (rev xs) f1))))
                       (Z.of_nat idx + 1)) as [|_]; [lia|].
  destruct (Z.ltb_spec (Z.of_nat idx) 0) as [|_]; [lia|].
  rewrite Nat2Z.id, Hnth.
  assert (Hfinal : <[(length (stack (set_stack (rev xs) f1)) - idx - 1)%nat :=
                       SetBytes (left_pad size (Bytes x))]> (stack (set_stack (rev xs) f1))
                   = rev (<[idx := x mod 2 ^ 256]> xs)).
  { cbn [set_stack stack]. rewrite length_rev, SetBytes_left_pad. apply rev_insert. lia. }
  destruct fieldType; [congruence| |];
    change AddressDestLen with size; change Uint256DestLen with size;
    unfold Go.bind; rewrite Hread; unfold Go.modify, Go.ret, set_stack;
    cbn [stack interp]; cbn [set_stack stack interp] in Hfinal; rewrite Hfinal; reflexivity.
Qed.

(** X19 on the word 258, which a finalizer writes at offset 8 of a guest
    memory of 40 bytes and a preprocessor of the next host call reads
    back from there. *)
Lemma finalizer_item_read_back_witness :
  exists f1,
    copyLastStackItemToMemory 32 [4; 8] (mkScopeRef (vm.newMemoryFromSlice [] true) 0)
                              (sample_memory_frame [5; 258])
    = (Ret None, f1)
    /\ replaceMemOffsetWithValueOnStack 0 Uint256FieldType [8; 7]
         (mkScopeRef (vm.newMemoryFromSlice [] true) 0) (set_stack (rev [8; 7]) f1)
       = (Ret None, set_stack [7; 258] f1).
Proof.
  destruct (finalizer_item_read_back Uint256FieldType [4; 8]
              (mkScopeRef (vm.newMemoryFromSlice [] true) 0)
              (sample_memory_frame [5; 258]) 8 258)
    as (f1 & Hwrite & _ & _ & Hread).
  - discriminate.
  - reflexivity.
  - reflexivity.
  - reflexivity.
  - vm_compute. discriminate.
  - lia.
  - vm_compute. discriminate.
  - reflexivity.
  - exists f1. split; [exact Hwrite|].
    apply (Hread 0%nat [8; 7] [8; 7]); [cbn; lia | reflexivity | reflexivity].
Defined.
End Words.

Section Registration.
Import wasm InterpProps ShimProps.

Lemma replace_accepts (k : Z) (fieldType : FieldType) (n : Z) :
  fieldType <> UnknownFieldType -> 0 <= k < n ->
  accepts (replaceMemOffsetWithValueOnStack k fieldType) n.
Proof.
  intros Hft Hk input scope f e f' Hi Hs. unfold replaceMemOffsetWithValueOnStack.
  unfold Go.bind at 1. unfold Go.get at 1.
  destruct (Z.ltb_spec (Z.of_nat (length input)) (k + 1)) as [|_]; [lia|].
  destruct (Z.ltb_spec (Z.of_nat (length (stack f))) (k + 1)) as [|_]; [lia|].
  destruct (Z.ltb_spec k 0) as [|_]; [lia|].
  destruct fieldType; [congruence| |]; unfold Go.bind;
    match goal with
    | |- match ?m with _ => _ end <> _ => destruct m as [[v|p] f1]
    end; unfold Go.modify, Go.ret; intros [=].
Qed.

Lemma copyLastStackItemToMemory_accepts (destLen n : Z) :
  1 <= n -> accepts (copyLastStackItemToMemory destLen) n.
Proof.
  intros Hn input scope f e f' Hi Hs. unfold copyLastStackItemToMemory.
  destruct (last_item input) as [destOffset|] eqn:Hlast.
  2:{ apply last_item_nil_inv in Hlast. subst input. cbn in Hi. lia. }
  unfold Go.bind at 1. unfold Go.get at 1.
  destruct (last_item (stack f)) as [top|]; [|intros [=]].
  cbv zeta. destruct (slice _ _ _) as [tail|]; [|intros [=]].
  unfold Go.bind.
  match goal with
  | |- match ?m with _ => _ end <> _ => destruct m as [[v|p] f1]
  end; unfold Go.ret; intros [=].
Qed.

(** X21. The registration table fits the table of function types: every
    registered opcode has a declared number of parameters (so no
    registration fails with "function type not found"), the names of the
    registered functions are pairwise distinct, and on a host call with
    the declared number of parameters no input preprocessor and no
    finalizer of the table returns an error: "input length is too small",
    "stack length is too small", "input offset index can't be less 0",
    "unsupported field type" and "last function param must be a
    destination pointer" cannot occur. *)
Theorem registrations_fit_function_types :
  Forall well_registered registerNativeFunctions
  /\ NoDup (map fnName registerNativeFunctions).
Proof.
  split.
  - unfold registerNativeFunctions.
    repeat (apply List.Forall_cons;
            [ eexists; split; [vm_compute; reflexivity|]; split; [lia|]; split;
              [ cbn [inputPreprocessors_];
                repeat (apply List.Forall_cons;
                        [apply replace_accepts; [discriminate | lia]|]);
                apply List.Forall_nil
              | intros fin Hfin; cbn [finalizer_] in Hfin;
                first [ discriminate Hfin
                      | injection Hfin as <-;
                        apply copyLastStackItemToMemory_accepts; lia ] ]
            | ]).
    apply List.Forall_nil.
  - apply (bool_decide_unpack _). vm_compute. exact I.
Qed.
End Registration.

(** ** The scopes of the callers *)

#[global] Instance callers_kept_preorder n : PreOrder (QueueProps.callers_kept n).
Proof.
  split.
  - intros i. reflexivity.
  - intros i j k. unfold QueueProps.callers_kept. congruence.
Qed.

#[global] Instance queue_kept_preorder : PreOrder QueueProps.queue_kept.
Proof.
  split.
  - intros i. reflexivity.
  - intros i j k. unfold QueueProps.queue_kept. congruence.
Qed.

Section Callers.
Import wasm InterpProps QueueProps.

Lemma same_queue_callers n i i' : same_queue i i' -> callers_kept n i i'.
Proof. intros [_ Hq]. unfold callers_kept. now rewrite Hq. Qed.

Lemma queue_kept_callers n i i' : queue_kept i i' -> callers_kept n i i'.
Proof. unfold queue_kept, callers_kept. now intros ->. Qed.

Lemma same_queue_queue_kept i i' : same_queue i i' -> queue_kept i i'.
Proof. intros [_ Hq]. exact Hq. Qed.

Lemma keeps_callers_of_queue {A} n (m : M WASMInterpreter A) :
  keeps same_queue m -> keeps (callers_kept n) m.
Proof. apply keeps_weaken. apply same_queue_callers. Qed.

Lemma keeps_callers_of_queue_frame {A} n (m : M Frame A) :
  keeps (on_frames same_queue) m -> keeps (on_frames (callers_kept n)) m.
Proof. apply keeps_weaken. intros f f'. apply same_queue_callers. Qed.

Lemma below_current_shape n i i' : same_shape i i' -> below_current n i -> below_current n i'.
Proof. unfold below_current. intros [Hd _] H. rewrite Hd. exact H. Qed.

Ltac callers_done :=
  unfold on_frames, callers_kept, queue_kept; cbn;
  first [ reflexivity
        | rewrite take_insert_ge by lia; reflexivity ].

Lemma callers_Scope n i : below_current n i -> keeps_at (callers_kept n) i Scope.
Proof.
  intros Hn. unfold Scope. unfold below_current in Hn.
  repeat keeps_step; callers_done.
Qed.

Lemma ScopeWithStack_current i scope i' :
  ScopeWithStack i = (Ret scope, i') -> Contract scope = current_index i.
Proof.
  unfold ScopeWithStack. run.
  destruct (Scope i) as [[idx|p] i1] eqn:ES; [|discriminate].
  apply Scope_inv in ES. destruct ES as (sc & -> & _). intros [= <- _]. reflexivity.
Qed.

Lemma callers_ScopeWithStack n i :
  below_current n i -> keeps_at (callers_kept n) i ScopeWithStack.
Proof.
  intros Hn. unfold ScopeWithStack. keeps_step; [apply callers_Scope, Hn|]. keeps_step.
Qed.

Lemma callers_UseGas_at n idx gas :
  (n <= idx)%nat -> keeps (callers_kept n) (UseGas_at idx gas).
Proof. intros Hn i. unfold UseGas_at. repeat keeps_step; callers_done. Qed.

Lemma callers_set_contract_gas n idx gas :
  (n <= idx)%nat -> keeps (callers_kept n) (set_contract_gas idx gas).
Proof.
  intros Hn i. unfold set_contract_gas. keeps_step.
  destruct (stateQueue i !! idx); callers_done.
Qed.

Lemma callers_apply_effect n fn scope :
  (n <= Contract scope)%nat ->
  keeps (on_frames (callers_kept n)) (apply_effect fn scope).
Proof.
  intros Hn fr. unfold apply_effect.
  keeps_step; [apply keeps_in_interp, keeps_callers_of_queue, keeps_contract_at|].
  keeps_step. cbv zeta.
  keeps_step; [keeps_step; callers_done|].
  keeps_step; [apply keeps_in_interp, callers_set_contract_gas, Hn|].
  keeps_step; [apply keeps_in_interp; keeps_step; callers_done|].
  keeps_step; [apply keeps_callers_of_queue_frame, keeps_apply_writes|].
  keeps_step.
Qed.

Lemma callers_charge n op scope :
  (n <= Contract scope)%nat -> keeps (on_frames (callers_kept n)) (charge op scope).
Proof.
  intros Hn f. unfold charge.
  repeat first
    [ apply keeps_in_interp, callers_UseGas_at, Hn
    | apply keeps_in_interp, keeps_callers_of_queue, keeps_contract_at
    | keeps_step ].
Qed.

Lemma callers_execEvmOp n newLondon opcode scope execute :
  (n <= Contract scope)%nat ->
  keeps (on_frames (callers_kept n)) (execute scope) ->
  keeps (on_frames (callers_kept n)) (execEvmOp newLondon opcode scope execute).
Proof.
  intros Hn Hex f. unfold execEvmOp.
  keeps_step; [apply keeps_in_interp, keeps_callers_of_queue, keeps_contract_at|].
  keeps_step.
  assert (Htraced : forall cost gasCopy err,
             keeps (on_frames (callers_kept n))
               (let err2 := if bool_decide (err = Some errStopToken) then None else err in
                let* f := get
                in if Debug (config (interp f))
                   then Tracer_CaptureState MaxUint64 opcode gasCopy cost scope
                          (depth (interp f)) err2
                   else ret tt)).
  { intros cost gasCopy err f0. cbv zeta. keeps_step.
    keeps_step; [apply keeps_callers_of_queue_frame, keeps_Tracer_CaptureState | keeps_step]. }
  keeps_step.
  { repeat keeps_step. apply keeps_in_interp. keeps_step. callers_done. }
  apply keeps_at_bind; [exact _ | apply callers_charge, Hn | intros [cost early] fc _].
  destruct early as [e|].
  - keeps_step; [apply Htraced | keeps_step].
  - intros r f'.
    destruct (Go.bind (execute scope) _ fc) as [r0 f1] eqn:E.
    assert (Hbody : on_frames (callers_kept n) fc f1).
    { revert E. apply keeps_at_bind; [exact _ | apply Hex |].
      intros out f2 _. keeps_step; [apply keeps_in_interp; keeps_step; callers_done|].
      keeps_step. }
    cbv zeta.
    match goal with
    | |- match ?m with _ => _ end = _ -> _ => destruct m as [[[]|p] f2] eqn:E2
    end; intros [= <- <-];
      (etransitivity; [exact Hbody | eapply Htraced; exact E2]).
Qed.

Lemma callers_opcodeBody n newLondon input opcode scope pres execute :
  (n <= Contract scope)%nat ->
  Forall shim_keeps pres ->
  keeps (on_frames (callers_kept n)) (execute scope) ->
  keeps (on_frames (callers_kept n)) (opcodeBody newLondon input opcode scope pres execute).
Proof.
  intros Hn Hpres Hex. induction Hpres as [|p pres Hp _ IH]; intros f; cbn.
  - apply callers_execEvmOp; assumption.
  - keeps_step; [apply keeps_callers_of_queue_frame, Hp|]. repeat keeps_step. apply IH.
Qed.

Lemma callers_processOpcode n newLondon input opcode finalizer pres execute i :
  below_current n i ->
  (forall fn, finalizer = Some fn -> shim_keeps fn) ->
  Forall shim_keeps pres ->
  (forall scope, (n <= Contract scope)%nat ->
                 keeps (on_frames (callers_kept n)) (execute scope)) ->
  keeps_at (callers_kept n) i (processOpcode newLondon input opcode finalizer pres execute).
Proof.
  intros Hn Hfin Hpres Hex. unfold processOpcode.
  apply keeps_at_bind; [exact _ | apply callers_ScopeWithStack, Hn |].
  intros scope s1 Hscope.
  assert (Hidx : (n <= Contract scope)%nat).
  { rewrite (ScopeWithStack_current _ _ _ Hscope). unfold current_index, below_current in *.
    lia. }
  intros r i'.
  destruct (with_defer _ _ _) as [r0 f] eqn:E. intros [= <- <-].
  change (on_frames (callers_kept n) (mkFrame s1 (rev input)) f). revert E.
  apply keeps_at_with_defer; [exact _ | apply callers_opcodeBody; auto |].
  intros. apply keeps_callers_of_queue_frame, keeps_runFinalizer, Hfin.
Qed.

Lemma callers_nativeCallback n newLondon r paramsCount execute params i :
  below_current n i ->
  (forall fn, finalizer_ r = Some fn -> shim_keeps fn) ->
  Forall shim_keeps (inputPreprocessors_ r) ->
  (forall scope, (n <= Contract scope)%nat ->
                 keeps (on_frames (callers_kept n)) (execute scope)) ->
  keeps_at (callers_kept n) i (nativeCallback newLondon r paramsCount execute params).
Proof.
  intros Hn Hfin Hpres Hex. unfold nativeCallback.
  destruct (negb _); [keeps_step|].
  apply keeps_at_bind; [exact _ | apply callers_processOpcode; assumption |].
  intros err s1 _. repeat keeps_step.
Qed.

Lemma tracer_as_WASMLogger_inv i r i' : tracer_as_WASMLogger i = (r, i') -> i' = i.
Proof.
  unfold tracer_as_WASMLogger. run. destruct (Tracer (config i)); intros [= _ <-]; reflexivity.
Qed.

Lemma callers_logsCallback n item i :
  below_current n i -> keeps_at (callers_kept n) i (logsCallback item).
Proof.
  intros Hn. unfold logsCallback.
  apply keeps_at_bind; [exact _ | apply keeps_callers_of_queue, keeps_tracer_as_WASMLogger |].
  intros l s1 Hl. apply tracer_as_WASMLogger_inv in Hl. subst s1.
  assert (Hrest : forall (memoryChange : option vm.MemoryChangeInfo),
             keeps_at (callers_kept n) i
               (let* scope := ScopeWithStack in
                let* c := contract_at (Contract scope) in
                let* i0 := get in
                on_tracer l
                  (logger.CaptureWasmState (uint64 (tl_Pc item))
                     (vm.WasmOp (vm.mkWasmOpcodeInfo (tl_SourcePc item) (tl_Opcode item)
                                   (tl_Name item) (tl_Params item)))
                     memoryChange
                     (vm.mkScope (Some (Memory scope)) (Some (tl_Stack item)) c) (depth i0)
                     (tl_StackDrop item) (tl_StackKeep item)))).
  { intros memoryChange.
    apply keeps_at_bind; [exact _ | apply callers_ScopeWithStack, Hn |].
    intros scope s1 _.
    repeat first
      [ apply keeps_callers_of_queue;
        first [ apply keeps_contract_at
              | apply keeps_on_tracer, tracer_keeps_CaptureWasmState ]
      | keeps_step ]. }
  destruct (tl_MemoryChanges item) as [|change [|? ?]].
  - unfold Go.bind at 1. unfold Go.ret at 1. apply Hrest.
  - destruct (tm_Data change);
      [|apply keeps_at_bind; [exact _ | keeps_step | intros ? ? [=]]].
    unfold Go.bind at 1. unfold Go.ret at 1. apply Hrest.
  - apply keeps_at_bind; [exact _ | keeps_step | intros ? ? [=]].
Qed.

Lemma callers_gasCheck n params i :
  below_current n i -> keeps_at (callers_kept n) i (gasCheck params).
Proof.
  intros Hn. unfold gasCheck.
  destruct params as [|paramValue [|? ?]]; [keeps_step| |keeps_step].
  apply keeps_at_bind; [exact _ | apply callers_Scope, Hn |].
  intros idx s1 Hscope. apply Scope_inv in Hscope.
  destruct Hscope as (sc & -> & _ & _ & ->).
  assert (Hidx : (n <= current_index i)%nat)
    by (unfold current_index, below_current in *; lia).
  repeat first
    [ apply keeps_callers_of_queue;
      first [ apply keeps_contract_at
            | apply keeps_on_tracer, tracer_keeps_CaptureGasState ]
    | apply callers_UseGas_at, Hidx
    | keeps_step ].
Qed.
End Callers.

Section CallersOfRun.
Import wasm InterpProps QueueProps.

Lemma replayTrace_same_queue W : keeps same_queue (replayTrace W).
Proof.
  intros i. unfold replayTrace. keeps_step.
  destruct (Debug (config i)); [|keeps_step].
  destruct (dump (wasmEngine i)) as [e|trace]; [keeps_step|].
  keeps_step.
  - destruct (ts_GlobalMemory trace) as [entries|]; [|keeps_step].
    keeps_step.
    + assert (Hfold : forall acc : M WASMInterpreter (gmap Z (list Z)),
                 keeps same_queue acc ->
                 keeps same_queue
                   (fold_left
                      (fun (acc : M WASMInterpreter (gmap Z (list Z))) gm =>
                         let* m := acc
                         in match tm_Data gm with
                            | Some data => ret (<[tm_Offset gm:=data]> m)
                            | None => panic (PanicError (Errorf "invalid hex string"))
                            end) entries acc)).
      { induction entries as [|gm entries IH]; intros acc Hacc; cbn; [exact Hacc|].
        apply IH. intros s. keeps_step; [apply Hacc|]. repeat keeps_step. }
      apply Hfold. intros s. keeps_step.
    + keeps_step; [apply keeps_tracer_as_WASMLogger|].
      apply keeps_on_tracer, tracer_keeps_CaptureGlobalMemoryState.
  - keeps_step.
    + apply keeps_for_each; [exact _|]. intros fm s.
      keeps_step; [apply keeps_tracer_as_WASMLogger|].
      apply keeps_on_tracer, tracer_keeps_CaptureGlobalVariable.
    + apply keeps_for_each; [exact _|]. intros fm s.
      keeps_step; [apply keeps_tracer_as_WASMLogger|].
      apply keeps_on_tracer, tracer_keeps_CaptureWasmFunctionCall.
Qed.

Lemma recovered_keeps_at {R : WASMInterpreter -> WASMInterpreter -> Prop} engine s :
  keeps_at R s engine -> keeps_at R s (recovered engine).
Proof.
  intros He r i'. unfold recovered.
  destruct (engine s) as [[out|[msg|e]] i1] eqn:E; intros [= <- <-]; eapply He; eauto.
Qed.

Ltac queue_done :=
  unfold on_frames, callers_kept, queue_kept; cbn; reflexivity.

(** [Run] hands the scope queue back as it found it, for an engine that
    leaves the scopes of the callers alone. *)
Lemma queue_kept_Run_with inject W ET engine contract input readOnly_ :
  keeps same_shape engine ->
  (forall n s, below_current n s -> keeps_at (callers_kept n) s engine) ->
  keeps queue_kept (Run_with inject W ET engine contract input readOnly_).
Proof.
  intros Hs He i. unfold Run_with.
  keeps_step; [keeps_step; queue_done|].
  apply keeps_at_with_defer; [exact _ | | intros; keeps_step; queue_done].
  keeps_step. keeps_step; [repeat keeps_step; queue_done|].
  apply keeps_at_with_defer; [exact _ | | intros; repeat keeps_step; queue_done].
  repeat keeps_step_plain; try queue_done.
  match goal with
  | Hq : negb (_ =? _) = false |- _ =>
      apply negb_false_iff, Z.eqb_eq in Hq; rename Hq into Hlen
  end.
  intros r1 s'. unfold Go.with_defer. unfold Go.bind at 1. cbn [Go.modify].
  match goal with
  | |- (let (_, _) := ?rest ?s0 in _) = _ -> _ =>
      set (entry := s0);
      assert (Hshape : keeps_at same_shape entry rest);
      [| assert (Hbody : keeps_at (callers_kept (length (stateQueue s5))) entry rest);
         [| destruct (rest entry) as [rr ss] eqn:E2;
            pose proof (Hshape _ _ E2) as [Hd2 Hl2]; apply Hbody in E2 ] ]
  end.
  { repeat first [ apply keeps_recovered, Hs | apply keeps_replayTrace | keeps_step ]. }
  { assert (Hbelow : below_current (length (stateQueue s5)) entry).
    { unfold below_current, entry, depth in *. cbn. lia. }
    apply keeps_at_bind; [exact _ | apply recovered_keeps_at, He, Hbelow |].
    intros out s6 _.
    apply keeps_at_bind;
      [exact _ | apply keeps_callers_of_queue, replayTrace_same_queue |].
    intros. repeat keeps_step. }
  unfold callers_kept, entry in E2. cbn [stateQueue set_stateQueue] in E2.
  rewrite take_app_length in E2.
  unfold entry in Hd2, Hl2. cbn in Hd2, Hl2. rewrite length_app in Hl2. cbn in Hl2.
  unfold Go.bind, Go.get.
  rewrite (slice_in_range (stateQueue ss) 0 (depth ss - 1))
    by (unfold depth in *; cbn in Hd2, Hlen |- *; lia).
  cbn [drop skipn]. unfold Go.put. intros [= <- <-].
  unfold queue_kept. cbn [stateQueue set_stateQueue].
  replace (Z.to_nat (depth ss - 1 - 0)) with (length (stateQueue s5))
    by (unfold depth in *; cbn in Hd2, Hlen |- *; lia).
  exact E2.
Qed.
End CallersOfRun.

Section CallersOfEngine.
Import wasm InterpProps QueueProps.

(** The engine with the registered host functions leaves the scopes of
    the callers alone: the callbacks write to the current scope only, and
    a nested [Run] hands the queue back as it found it. *)
Lemma registered_engine_keeps_callers newLondon inject W ET :
  (forall g n s, below_current n s ->
                 keeps_at (callers_kept n) s
                          (ComputeResult inject W ET (registeredHost newLondon) g))
  /\ (forall x n scope, (n <= Contract scope)%nat ->
                        keeps (on_frames (callers_kept n))
                              (execute inject W ET (registeredHost newLondon) x scope)).
Proof.
  pose proof (keeps_engine inject W ET (registeredHost newLondon)
                (registeredHost_keeps newLondon)) as [Hshape _].
  apply guest_exec_mutind.
  - intros res err d n s _. cbn. repeat keeps_step. unfold callers_kept. reflexivity.
  - intros item k IH n s Hn. rewrite ComputeResult_Emit. cbn [hostLogs registeredHost].
    apply keeps_at_bind; [exact _ | apply callers_logsCallback, Hn |].
    intros [] s1 E. apply IH.
    eapply below_current_shape; [eapply keeps_logsCallback; exact E | exact Hn].
  - intros params k IH n s Hn. rewrite ComputeResult_CallGas. cbn [hostGas registeredHost].
    apply keeps_at_bind; [exact _ | apply callers_gasCheck, Hn |].
    intros code s1 E.
    assert (Hn1 : below_current n s1)
      by (eapply below_current_shape; [eapply keeps_gasCheck; exact E | exact Hn]).
    destruct code; first [ apply IH, Hn1 | keeps_step ].
  - intros name params x IHx k IHk n s Hn. rewrite ComputeResult_CallNative.
    destruct (registered name) as [r|] eqn:Hr; [|keeps_step].
    destruct (paramsCount_of (opcode_ r)) as [pc|]; [|keeps_step].
    cbn [hostNative registeredHost].
    destruct (registered_shim name r Hr) as [Hfin Hpres].
    apply keeps_at_bind;
      [exact _ | apply callers_nativeCallback; [exact Hn | exact Hfin | exact Hpres |] |].
    + intros scope Hscope. apply IHx, Hscope.
    + intros code s1 E.
      assert (Hn1 : below_current n s1).
      { eapply below_current_shape; [|exact Hn].
        eapply (keeps_nativeCallback newLondon r pc); [exact Hfin | exact Hpres | | exact E].
        apply keeps_engine, registeredHost_keeps. }
      destruct code; first [ apply IHk, Hn1 | keeps_step ].
  - intros fn n scope Hn. apply callers_apply_effect, Hn.
  - intros p n scope Hn f. cbn. keeps_step.
  - intros contract input ro g IHg k IHk n scope Hn f. rewrite execute_Enter.
    keeps_step; [|apply IHk, Hn].
    apply keeps_in_interp.
    apply (keeps_weaken queue_kept); [apply queue_kept_callers|].
    apply queue_kept_Run_with; [apply Hshape | apply IHg].
Qed.

(** X22. [Run] hands the interpreter back with the scope queue and the
    call depth exactly as it found them, for every guest, contract and
    input and whether it returns or panics: the scope it appends is
    removed again, and neither a host callback nor a nested call through
    an opcode changes a scope of a caller. *)
Theorem Run_keeps_scope_queue newLondon inject W ET (g : guest) (contract : vm.Contract)
        (input : list Z) (readOnly_ : bool) (i : WASMInterpreter) :
  stateQueue (snd (Run newLondon inject W ET g contract input readOnly_ i)) = stateQueue i
  /\ depth (snd (Run newLondon inject W ET g contract input readOnly_ i)) = depth i.
Proof.
  destruct (Run newLondon inject W ET g contract input readOnly_ i) as [r i'] eqn:E.
  cbn [snd]. split.
  - unfold Run in E.
    eapply (queue_kept_Run_with inject W ET _ contract input readOnly_); [| |exact E].
    + apply keeps_engine, registeredHost_keeps.
    + apply registered_engine_keeps_callers.
  - eapply keeps_Run. exact E.
Qed.
End CallersOfEngine.

(** ** The callback on the items of the engine's trace *)

Section LogsCallback.
Import wasm InterpProps LogsProps.

(** X23. The callback of [registerLogsCallback] appends one record to
    the tracer's log for a trace item, when the tracer is not interrupted
    and below its limit, the item lists at most one memory change with
    hexadecimal data and the current scope exists. The record is of the
    WASM family and carries the item's source_pc as its pc, the gas of
    the current contract, the call depth, the refund counter, the item's
    stack (unless the stack is disabled), its memory change (when memory
    is enabled) and its stack_drop and stack_keep; gas cost, return data,
    storage and error are empty. Apart from the tracer, only the memory
    view of the current scope is renewed. The item's own pc is never
    used: the callback behaves the same for every value of it. *)
Theorem logsCallback_appends_record (item : traceLog) (i : WASMInterpreter)
        (l : logger.WebAssemblyLogger) (sc : vm.ScopeContext) :
  Tracer (config i) = WASMLogger l ->
  logger.interrupt l <= 0 ->
  logger.limit_reached l = false ->
  (length (tl_MemoryChanges item) <= 1)%nat ->
  Forall (fun change => tm_Data change <> None) (tl_MemoryChanges item) ->
  1 <= depth i ->
  stateQueue i !! current_index i = Some sc ->
  (exists i' l' record,
      logsCallback item i = (Ret tt, i')
      /\ Tracer (config i') = WASMLogger l'
      /\ logger.logs l' = logger.logs l ++ [record]
      /\ logger.WasmLog.Pc record = uint64 (tl_SourcePc item)
      /\ logger.WasmLog.OpFamily record = logger.OpCodeFamilyWASM
      /\ logger.WasmLog.Op record
         = vm.WasmOp (vm.mkWasmOpcodeInfo (tl_SourcePc item) (tl_Opcode item) (tl_Name item)
                                          (tl_Params item))
      /\ logger.WasmLog.Gas record = vm.Gas (vm.Contract_ sc)
      /\ logger.WasmLog.GasCost record = 0
      /\ logger.WasmLog.Depth record = depth i
      /\ logger.WasmLog.RefundCounter record = vm.GetRefund (evm i)
      /\ logger.WasmLog.Stack record
         = (if logger.DisableStack (logger.cfg l) then None else Some (tl_Stack item))
      /\ logger.WasmLog.Memory record
         = (if logger.EnableMemory (logger.cfg l)
            then option_map vm.Value (item_change item) else None)
      /\ logger.WasmLog.MemoryOffset record
         = (if logger.EnableMemory (logger.cfg l)
            then from_option vm.Offset 0 (item_change item) else 0)
      /\ logger.WasmLog.Drop record = tl_StackDrop item
      /\ logger.WasmLog.Keep record = tl_StackKeep item
      /\ logger.WasmLog.ReturnData record = None
      /\ logger.WasmLog.Storage record = None
      /\ logger.WasmLog.Err record = None
      /\ stateQueue i' = <[current_index i := refreshed sc]> (stateQueue i)
      /\ evm i' = evm i
      /\ wasmEngine i' = wasmEngine i
      /\ returnData i' = returnData i)
  /\ forall p, logsCallback (with_Pc p item) i = logsCallback item i.
Proof.
  intros HT Hint Hlim Hone Hdata Hd Hsc. split; [|reflexivity].
  unfold logsCallback.
  unfold Go.bind at 1. unfold tracer_as_WASMLogger at 1. run. rewrite HT.
  assert (Hch : (tl_MemoryChanges item = [] /\ item_change item = None)
                \/ exists change data,
                     tl_MemoryChanges item = [change] /\ tm_Data change = Some data
                     /\ item_change item = Some (vm.mkMemoryChange (tm_Offset change) data)).
  { unfold item_change. destruct (tl_MemoryChanges item) as [|change [|? ?]];
      [left; split; reflexivity | right | cbn in Hone; lia].
    apply Forall_cons in Hdata as [Hdata _].
    destruct (tm_Data change) as [data|] eqn:Hdat; [|congruence].
    exists change, data. rewrite Hdat. repeat split; reflexivity. }
  assert (Hnot : (0 <? logger.interrupt l) = false) by (apply Z.ltb_ge; exact Hint).
  destruct Hch as [[Hm Hc]|(change & data & Hm & Hdat & Hc)]; rewrite Hm, Hc; try rewrite Hdat;
    cbv beta iota; unfold ScopeWithStack; run; cbv beta iota.
  all: rewrite (Scope_current i sc Hd Hsc); cbn [Contract];
    rewrite (contract_at_refreshed i _ sc Hsc);
    unfold on_tracer, logger.CaptureWasmState; run;
    cbn [logger.interrupt logger.set_env logger.cfg logger.logs];
    rewrite Hnot;
    change (logger.limit_reached (logger.set_env _ l)) with (logger.limit_reached l);
    rewrite Hlim;
    destruct (logger.DisableStack (logger.cfg l)), (logger.EnableMemory (logger.cfg l));
    run; cbn; do 3 eexists; repeat (split; [reflexivity|]); reflexivity.
Qed.
(** X23 on a [call] item with source_pc 9 and pc 3, for a tracer that
    holds one record: the log then holds two, the second with pc 9. *)
Lemma logsCallback_appends_record_witness :
  exists i' l' record,
    logsCallback sample_item (sample_interpreter true Props.sample_logger 100) = (Ret tt, i')
    /\ Tracer (config i') = WASMLogger l'
    /\ logger.logs l' = logger.logs Props.sample_logger ++ [record]
    /\ logger.WasmLog.Pc record = 9
    /\ logger.WasmLog.Stack record = Some [10; 11].
Proof.
  destruct (logsCallback_appends_record sample_item
              (sample_interpreter true Props.sample_logger 100)
              Props.sample_logger (sample_frame_scope 100))
    as [(i' & l' & record & H1 & H2 & H3 & H4 & _ & _ & _ & _ & _ & _ & H5 & _) _].
  - reflexivity.
  - vm_compute. discriminate.
  - reflexivity.
  - cbn. lia.
  - repeat constructor. discriminate.
  - vm_compute. discriminate.
  - reflexivity.
  - exists i', l', record. repeat split; assumption.
Defined.
End LogsCallback.
